(** * dandisets-linkml-status-tools: validation-report diffing

    A shallow embedding of the report-diffing command
    ([cmd_funcs/diff_manifests_reports.py]), of the two [pydantic_validate]
    helpers ([tools.py], [cli/tools.py]), of the report writer
    [output_reports] and the error counter [get_pydantic_err_counts]
    ([cli/tools.py]), and of [iter_direct_subdirs] and the schema cache of
    [DandiModelLinkmlValidator] ([tools.py]), followed by the properties that
    the specification states about them and by further properties of the
    code.

    Layout: the Python values the code manipulates, [pathlib] paths, a small
    file system, the report models, the functions in source order, and then the
    theorems. *)

From Stdlib Require Import ZArith String Ascii List Decimal DecimalString DecimalZ DecimalPos.
From stdpp Require Import base option list gmap sets strings sorting.

Set Warnings "-register-all,-clear-no-such-hyp".
Local Open Scope string_scope.
Local Open Scope list_scope.
Local Open Scope Z_scope.

(** ** Python values *)

Module Py.

(** JSON-like values ([dict[str, Any]] members, tuple segments).  A [str]
    is the byte string of its UTF-8 encoding, so that comparing bytes
    agrees with Python's comparison by code point.  Floats do not occur in
    the data these functions inspect and are left out. *)
Inductive value : Type :=
| None_
| Bool (b : bool)
| Int (z : Z)
| Str (s : string)
| List (l : list value)
| Dict (d : list (string * value)).

(** Truth value of an object, as tested by [if data:] and [any(...)]. *)
Definition truthy (v : value) : bool :=
  match v with
  | None_ => false
  | Bool b => b
  | Int z => negb (z =? 0)
  | Str s => negb (String.eqb s EmptyString)
  | List l => match l with [] => false | _ :: _ => true end
  | Dict d => match d with [] => false | _ :: _ => true end
  end.

(** Truth value of a Python list: non-empty. *)
Definition list_truthy {A} (l : list A) : bool :=
  match l with [] => false | _ :: _ => true end.

(** [isinstance(v, int)]; [bool] is a subclass of [int]. *)
Definition isinstance_int (v : value) : bool :=
  match v with
  | Int _ | Bool _ => true
  | _ => false
  end.

(** Exceptions raised by the modelled code. *)
Inductive exn : Type :=
| ValueError (msg : string)
| TypeError (msg : string)
| RuntimeError (msg : string)
| AttributeError (attr : string)
| KeyError (key : string)
| FileExistsError
| FileNotFoundError
| NotADirectoryError
| IsADirectoryError
| OSError
| OtherError (what : string).

(** Outcome of a call: a returned value or a raised exception. *)
Inductive result (A : Type) : Type :=
| Ok (a : A)
| Raise (e : exn).
Global Arguments Ok {A} a.
Global Arguments Raise {A} e.

Definition bind {A B} (m : result A) (k : A -> result B) : result B :=
  match m with
  | Ok a => k a
  | Raise e => Raise e
  end.

(** [[f(x) for x in l]] where [f] may raise: left to right, stops at the
    first exception. *)
Fixpoint map_r {A B} (f : A -> result B) (l : list A) : result (list B) :=
  match l with
  | [] => Ok []
  | x :: l' =>
      bind (f x) (fun y => bind (map_r f l') (fun ys => Ok (y :: ys)))
  end.

(** [d[k]] on a [dict]. *)
Fixpoint getitem (d : list (string * value)) (k : string) : result value :=
  match d with
  | [] => Raise (KeyError k)
  | (k', v) :: d' => if String.eqb k' k then Ok v else getitem d' k
  end.

(** [str(n)] for an [int], for the integers that CPython converts (by
    default those of at most 4300 digits; the indices and lengths given to
    it here are far below). *)
Definition str_int (z : Z) : string := NilZero.string_of_int (Z.to_int z).

(** [int(s)] on a decimal numeral with an optional leading minus sign.
    (Python also accepts surrounding white space, a plus sign and
    underscores; [str_int] never produces them.) *)
Definition int_str (s : string) : result Z :=
  match NilZero.int_of_string s with
  | Some d => Ok (Z.of_int d)
  | None => Raise (ValueError "invalid literal for int()")
  end.

(** [x < y] on [str]. *)
Definition str_lt (x y : string) : bool := String.ltb x y.

(** [x < y] on tuples or lists of [str]: the first differing position
    decides, a proper prefix is smaller. *)
Fixpoint strs_lt (p q : list string) : bool :=
  match p, q with
  | [], _ :: _ => true
  | x :: p', y :: q' => str_lt x y || (String.eqb x y && strs_lt p' q')
  | _, _ => false
  end.

(** [x < y] on pairs of [str]. *)
Definition pair_lt (a b : string * string) : bool :=
  str_lt a.1 b.1 || (String.eqb a.1 b.1 && str_lt a.2 b.2).

(** [sorted(l)]: a stable sort that only uses [<]. *)
Fixpoint insort {A} (lt : A -> A -> bool) (x : A) (l : list A) : list A :=
  match l with
  | [] => [x]
  | y :: l' => if lt y x then y :: insort lt x l' else x :: l
  end.

Definition sorted {A} (lt : A -> A -> bool) (l : list A) : list A :=
  foldr (insort lt) [] l.

(** A loop that appends to a list, with [continue]: the body yields the
    element to append, if any, or raises. *)
Fixpoint for_append {A B} (body : A -> result (option B)) (l : list A)
    : result (list B) :=
  match l with
  | [] => Ok []
  | x :: l' =>
      bind (body x) (fun o =>
      bind (for_append body l') (fun rs =>
      Ok (match o with Some r => r :: rs | None => rs end)))
  end.

(** A byte that continues the UTF-8 encoding of a code point. *)
Definition is_continuation (c : ascii) : bool :=
  let n := nat_of_ascii c in (128 <=? n)%nat && (n <? 192)%nat.

(** The string goes on with a continuation byte. *)
Definition continues (s : string) : bool :=
  match s with
  | String c _ => is_continuation c
  | EmptyString => false
  end.

(** The code points of a [str], each with its bytes: a byte starts a new
    code point unless it is a continuation byte. *)
Fixpoint code_points (s : string) : list string :=
  match s with
  | EmptyString => []
  | String c s' =>
      match code_points s' with
      | h :: t =>
          if continues s' then String c h :: t
          else String c EmptyString :: h :: t
      | [] => [String c EmptyString]
      end
  end.

(** [tuple(v)]; iterating a [str] gives its code points. *)
Definition tuple_ (v : value) : result (list value) :=
  match v with
  | List l => Ok l
  | Dict d => Ok (map (fun kv => Str (fst kv)) d)
  | Str s => Ok (map Str (code_points s))
  | _ => Raise (TypeError "object is not iterable")
  end.

(** [a, b, c = parts] *)
Definition unpack3 {A} (parts : list A) : result (A * A * A) :=
  match parts with
  | [a; b; c] => Ok (a, b, c)
  | _ :: _ :: _ :: _ :: _ =>
      Raise (ValueError "too many values to unpack (expected 3)")
  | _ =>
      Raise (ValueError ("not enough values to unpack (expected 3, got "
                         +:+ str_int (Z.of_nat (length parts)) +:+ ")"))
  end.

End Py.

Export Py (Ok, Raise).

Global Instance result_ret : MRet Py.result := @Py.Ok.
Global Instance result_bind : MBind Py.result := fun A B k m => Py.bind m k.

(** ** Paths ([pathlib.PurePosixPath]) *)

(** A path is the tuple of its [parts]. *)
Abbreviation PurePath := (list string).

Module Pathlib.

Definition is_sep (c : ascii) : bool := Ascii.eqb c "/".

Definition starts_with_sep (s : string) : bool :=
  match s with
  | String c _ => is_sep c
  | EmptyString => false
  end.

(** [s.split("/")] *)
Fixpoint split_sep (s : string) : list string :=
  match s with
  | EmptyString => [EmptyString]
  | String c s' =>
      if is_sep c then EmptyString :: split_sep s'
      else match split_sep s' with
           | [] => [String c EmptyString]
           | h :: t => String c h :: t
           end
  end.

(** [s[1:]] *)
Definition tail (s : string) : string :=
  match s with
  | String _ s' => s'
  | EmptyString => EmptyString
  end.

(** [posixpath.splitroot]: the root (empty, one slash, or two when there
    are exactly two) and the rest. *)
Definition splitroot (p : string) : string * string :=
  if negb (starts_with_sep p) then (EmptyString, p)
  else if negb (starts_with_sep (tail p)) || starts_with_sep (tail (tail p))
  then ("/", tail p)
  else ("//", tail (tail p)).

Definition keep_component (x : string) : bool :=
  negb (String.eqb x EmptyString) && negb (String.eqb x ".").

(** The parts of one path string: the root, when there is one, then the
    components that are neither empty nor a single dot. *)
Definition parse_path (s : string) : PurePath :=
  let '(root, rel) := splitroot s in
  (if String.eqb root EmptyString then [] else [root])
  ++ List.filter keep_component (split_sep rel).

(** [p / s]: an absolute [s] replaces [p]. *)
Definition truediv (p : PurePath) (s : string) : PurePath :=
  if starts_with_sep s then parse_path s else p ++ parse_path s.

(** [Path(a, b, ...)]: the arguments joined from left to right. *)
Definition Path (args : list string) : PurePath := foldl truediv [] args.

(** [p.parent]; a bare root is its own parent. *)
Definition parent (p : PurePath) : PurePath :=
  match p with
  | [r] => if starts_with_sep r then p else []
  | _ => removelast p
  end.

(** [p < q]: comparison of the parts. *)
Definition lt (p q : PurePath) : bool := Py.strs_lt p q.

(** A string that is one path component: not empty, not a single dot,
    without a slash.  Dandiset identifiers, version labels and decimal
    numerals are of this form. *)
Fixpoint no_sep (s : string) : bool :=
  match s with
  | EmptyString => true
  | String c s' => negb (is_sep c) && no_sep s'
  end.

Definition plain (s : string) : bool := keep_component s && no_sep s.

End Pathlib.

Export Pathlib (Path, truediv).
Infix "//" := truediv (at level 40, left associativity).

(** [str(p)] *)
Definition path_str (p : PurePath) : string :=
  match p with
  | [] => "."
  | r :: rest =>
      if Pathlib.starts_with_sep r then r +:+ String.concat "/" rest
      else String.concat "/" p
  end.

(** ** The file system *)

Module FS.

Inductive node : Type :=
| File (content : string)
| Dir.

(** The tree below the working directory (and below the roots), keyed by
    path. *)
Abbreviation t :=
  (@gmap PurePath (@list_eq_dec string String.eq_dec)
     (@list_countable string String.eq_dec String.countable) node).

Definition is_root (p : PurePath) : bool :=
  match p with
  | [] => true
  | [r] => Pathlib.starts_with_sep r
  | _ => false
  end.

(** The working directory and the roots are directories. *)
Definition lookup_node (s : t) (p : PurePath) : option node :=
  if is_root p then Some Dir else s !! p.

(** Path resolution of the components before the last one: each must name a
    directory. *)
Fixpoint check_prefixes (s : t) (pre : PurePath) (rest : list string)
    : option Py.exn :=
  match rest with
  | [] => None
  | [_] => None
  | x :: rest' =>
      match lookup_node s (pre ++ [x]) with
      | None => Some Py.FileNotFoundError
      | Some (File _) => Some Py.NotADirectoryError
      | Some Dir => check_prefixes s (pre ++ [x]) rest'
      end
  end.

Definition stat (s : t) (p : PurePath) : Py.result node :=
  match check_prefixes s [] p with
  | Some e => Raise e
  | None =>
      match lookup_node s p with
      | Some n => Ok n
      | None => Raise Py.FileNotFoundError
      end
  end.

(** [p.exists()], [p.is_file()], [p.is_dir()] *)
Definition exists_ (s : t) (p : PurePath) : bool :=
  match stat s p with Ok _ => true | Raise _ => false end.
Definition is_dir (s : t) (p : PurePath) : bool :=
  match stat s p with Ok Dir => true | _ => false end.

(** Every entry lies in a chain of directories. *)
Definition wf (s : t) : Prop :=
  forall p n, s !! p = Some n -> check_prefixes s [] p = None.

(** Code with effects on the file system: the state survives an
    exception. *)
Definition io (A : Type) : Type := t -> Py.result A * t.

Definition ret {A} (a : A) : io A := fun s => (Ok a, s).
Definition raise {A} (e : Py.exn) : io A := fun s => (Raise e, s).
Definition lift {A} (r : Py.result A) : io A := fun s => (r, s).
Definition bind {A B} (m : io A) (k : A -> io B) : io B :=
  fun s =>
    match m s with
    | (Ok a, s') => k a s'
    | (Raise e, s') => (Raise e, s')
    end.

(** [for x in l: body(x)] *)
Fixpoint for_each {A} (body : A -> io unit) (l : list A) : io unit :=
  match l with
  | [] => ret tt
  | x :: l' => bind (body x) (fun _ => for_each body l')
  end.

(** [os.mkdir(p)] *)
Definition os_mkdir (p : PurePath) : io unit :=
  fun s =>
    match check_prefixes s [] p with
    | Some e => (Raise e, s)
    | None =>
        match lookup_node s p with
        | Some _ => (Raise Py.FileExistsError, s)
        | None => (Ok tt, <[p := Dir]> s)
        end
    end.

(** [p.mkdir(parents=False, exist_ok=...)], as [pathlib] writes it: the
    error is forgiven only when [exist_ok] is set and [p] is a
    directory. *)
Definition mkdir_flat (p : PurePath) (exist_ok : bool) : io unit :=
  fun s =>
    match os_mkdir p s with
    | (Ok u, s') => (Ok u, s')
    | (Raise Py.FileNotFoundError, _) => (Raise Py.FileNotFoundError, s)
    | (Raise e, _) =>
        if exist_ok && is_dir s p then (Ok tt, s) else (Raise e, s)
    end.

(** [p.mkdir(parents=..., exist_ok=...)] with [p] given by its parts in
    reverse: on a missing parent the parent is made first (with
    [parents=True, exist_ok=True]) and the directory itself after. *)
Fixpoint mkdir_rev (rp : list string) (parents exist_ok : bool) : io unit :=
  fun s =>
    let p := rev rp in
    match os_mkdir p s with
    | (Ok u, s') => (Ok u, s')
    | (Raise Py.FileNotFoundError, _) =>
        match rp with
        | [] => (Raise Py.FileNotFoundError, s)
        | _ :: rp' =>
            if negb parents || is_root p then (Raise Py.FileNotFoundError, s)
            else
              match mkdir_rev rp' true true s with
              | (Ok _, s1) => mkdir_flat p exist_ok s1
              | (Raise e, s1) => (Raise e, s1)
              end
        end
    | (Raise e, _) =>
        if exist_ok && is_dir s p then (Ok tt, s) else (Raise e, s)
    end.

Definition mkdir (p : PurePath) (parents exist_ok : bool) : io unit :=
  mkdir_rev (rev p) parents exist_ok.

(** [shutil.rmtree(p)]: only a directory can be removed; it goes with
    everything below it. *)
Definition rmtree (p : PurePath) : io unit :=
  fun s =>
    match stat s p with
    | Raise e => (Raise e, s)
    | Ok (File _) => (Raise Py.NotADirectoryError, s)
    | Ok Dir =>
        let s' := filter (fun kv => ~ p `prefix_of` kv.1) s in
        if is_root p then (Raise Py.OSError, s') else (Ok tt, s')
    end.

(** [p.open("w")]: creates or truncates the file. *)
Definition open_w (p : PurePath) : io unit :=
  fun s =>
    match check_prefixes s [] p with
    | Some e => (Raise e, s)
    | None =>
        match lookup_node s p with
        | Some Dir => (Raise Py.IsADirectoryError, s)
        | _ => (Ok tt, <[p := File EmptyString]> s)
        end
    end.

(** [f.write(text)] on the file opened at [p]. *)
Definition write (p : PurePath) (text : string) : io unit :=
  fun s =>
    match s !! p with
    | Some (File c) => (Ok tt, <[p := File (c +:+ text)]> s)
    | _ => (Raise Py.OSError, s)
    end.

(** [with p.open("w") as f: f.write(text)] *)
Definition write_text (p : PurePath) (text : string) : io unit :=
  bind (open_w p) (fun _ => write p text).

End FS.

Global Instance io_ret : MRet FS.io := @FS.ret.
Global Instance io_bind : MBind FS.io := fun A B k m => FS.bind m k.

(** ** Report models ([models.py], used through their attributes) *)

Abbreviation pydict := (list (string * Py.value)).

(** Modelled from the spec: the class [JsonschemaValidationErrorModel] of
    [models.py], an error object with at least [message], [absolute_path]
    and [absolute_schema_path] (the two paths are sequences of strings and
    integer indices). *)
Record JsonschemaValidationErrorModel : Type := {
  message : string;
  absolute_path : list Py.value;
  absolute_schema_path : list Py.value
}.

(** [e.model_dump(mode="json")] *)
Definition model_dump (e : JsonschemaValidationErrorModel) : Py.value :=
  Py.Dict [ ("message", Py.Str (message e));
            ("absolute_path", Py.List (absolute_path e));
            ("absolute_schema_path", Py.List (absolute_schema_path e)) ].

(** [DandiBaseReport]: the fields shared by every report. *)
Record DandiBaseReport : Type := {
  dandiset_identifier : string;
  dandiset_version : string
}.

(** Fields that the asset-level classes add. *)
Record AssetFields : Type := {
  asset_id : option string;
  asset_path : option string;
  asset_idx : Z
}.

(** A validation report with its two error lists. *)
Record ValidationReport : Type := {
  base : DandiBaseReport;
  pydantic_validation_errs : list pydict;
  jsonschema_validation_errs : list JsonschemaValidationErrorModel
}.

(** An attribute value of an object of some other class. *)
Inductive attr : Type :=
| AStr (s : string)
| AInt (z : Z)
| ANone.

(** The objects a collection of reports can hold at run time. *)
Inductive report : Type :=
| DandisetValidationReport (r : ValidationReport)
| AssetValidationReport (r : ValidationReport) (a : AssetFields)
| Object (cls : string) (attrs : list (string * attr)).

Fixpoint lookup_attr (attrs : list (string * attr)) (name : string)
    : Py.result attr :=
  match attrs with
  | [] => Raise (Py.AttributeError name)
  | (n, v) :: attrs' => if String.eqb n name then Ok v else lookup_attr attrs' name
  end.

(** [getattr(r, name)] for the attributes used as key parts. *)
Definition getattr (r : report) (name : string) : Py.result attr :=
  match r with
  | DandisetValidationReport v =>
      if String.eqb name "dandiset_identifier" then Ok (AStr (dandiset_identifier (base v)))
      else if String.eqb name "dandiset_version" then Ok (AStr (dandiset_version (base v)))
      else Raise (Py.AttributeError name)
  | AssetValidationReport v a =>
      if String.eqb name "dandiset_identifier" then Ok (AStr (dandiset_identifier (base v)))
      else if String.eqb name "dandiset_version" then Ok (AStr (dandiset_version (base v)))
      else if String.eqb name "asset_idx" then Ok (AInt (asset_idx a))
      else Raise (Py.AttributeError name)
  | Object _ attrs => lookup_attr attrs name
  end.

(** [str(v)] on an attribute value. *)
Definition str_attr (v : attr) : string :=
  match v with
  | AStr s => s
  | AInt z => Py.str_int z
  | ANone => "None"
  end.

(** [r.pydantic_validation_errs], [r.jsonschema_validation_errs],
    [r.asset_id], [r.asset_path] on a report object. *)
Definition get_pydantic_validation_errs (r : report) : Py.result (list pydict) :=
  match r with
  | DandisetValidationReport v | AssetValidationReport v _ =>
      Ok (pydantic_validation_errs v)
  | Object _ _ => Raise (Py.AttributeError "pydantic_validation_errs")
  end.

Definition get_jsonschema_validation_errs (r : report)
    : Py.result (list JsonschemaValidationErrorModel) :=
  match r with
  | DandisetValidationReport v | AssetValidationReport v _ =>
      Ok (jsonschema_validation_errs v)
  | Object _ _ => Raise (Py.AttributeError "jsonschema_validation_errs")
  end.

Definition get_asset_id (r : report) : Py.result (option string) :=
  match r with
  | AssetValidationReport _ a => Ok (asset_id a)
  | _ => Raise (Py.AttributeError "asset_id")
  end.

Definition get_asset_path (r : report) : Py.result (option string) :=
  match r with
  | AssetValidationReport _ a => Ok (asset_path a)
  | _ => Raise (Py.AttributeError "asset_path")
  end.

(** [DandisetValidationReportsType]: reports by identifier, then by
    version, as the lookups [reports.get(id_, {}).get(ver, None)] use it. *)
Abbreviation DandisetValidationReportsType :=
  (gmap string (gmap string ValidationReport)).

(** Modelled from the spec: [tools.get_validation_reports_entries], the set
    of the entity keys (identifier, version) of a collection of dandiset
    validation reports. *)
Definition get_validation_reports_entries
    (reports : DandisetValidationReportsType) : gset (string * string) :=
  list_to_set
    (flat_map (fun iv => (fun ver => (iv.1, ver)) <$> elements (dom iv.2))
              (map_to_list reports)).

(** ** [cmd_funcs/diff_manifests_reports.py] *)


(** [_DandiValidationDiffReport]: both sides' error lists and their diffs.
    [_DandisetValidationDiffReport] adds nothing to it. *)
Record _DandiValidationDiffReport : Type := {
  diff_base : DandiBaseReport;
  pydantic_validation_errs1 : list pydict;
  pydantic_validation_errs2 : list pydict;
  pydantic_validation_errs_diff : Py.value;
  jsonschema_validation_errs1 : list JsonschemaValidationErrorModel;
  jsonschema_validation_errs2 : list JsonschemaValidationErrorModel;
  jsonschema_validation_errs_diff : Py.value
}.

(** [_AssetValidationDiffReport]: the same with the asset fields. *)
Record _AssetValidationDiffReport : Type := {
  asset_diff : _DandiValidationDiffReport;
  asset_fields : AssetFields
}.

(** The objects a list of diff reports can hold at run time. *)
Inductive diff_report : Type :=
| DandisetDiffObj (d : _DandiValidationDiffReport)
| AssetDiffObj (d : _AssetValidationDiffReport)
| OtherDiffObj (cls : string) (attrs : list (string * attr)).

(** The error lists as the values handed to [diff] and to the writers. *)
Definition pydantic_errs_value (errs : list pydict) : Py.value :=
  Py.List (Py.Dict <$> errs).
Definition jsonschema_errs_value (errs : list JsonschemaValidationErrorModel)
    : Py.value :=
  Py.List (model_dump <$> errs).

(** [any((a, b, c, d))] on the four error lists. *)
Definition any_errs (p1 p2 : list pydict)
    (j1 j2 : list JsonschemaValidationErrorModel) : bool :=
  Py.list_truthy p1 || Py.list_truthy p2 || Py.list_truthy j1 || Py.list_truthy j2.

(** [{key(r): r for r in reports}]: a later item replaces an earlier one
    with the same key. *)
Definition dict_of_items {V} (items : list (PurePath * V)) : gmap PurePath V :=
  foldl (fun m kv => <[kv.1 := kv.2]> m) ∅ items.

(** The key path of a report: [Path] applied to [str(getattr(r, p))] for
    each [p] in [parts]. *)
Definition report_key (parts : list string) (r : report) : Py.result PurePath :=
  segs ← Py.map_r (fun p => v ← getattr r p; mret (str_attr v)) parts;
  mret (Path segs).

Definition key_parts (r0 : report) : Py.result (list string) :=
  match r0 with
  | DandisetValidationReport _ => Ok ["dandiset_identifier"; "dandiset_version"]
  | AssetValidationReport _ _ =>
      Ok ["dandiset_identifier"; "dandiset_version"; "asset_idx"]
  | Object cls _ => Raise (Py.ValueError ("Unsupported report type: " +:+ cls))
  end.

Definition _key_reports (reports : list report)
    : Py.result (gmap PurePath report) :=
  match reports with
  | r0 :: _ =>
      parts ← key_parts r0;
      items ← Py.map_r (fun r => k ← report_key parts r; mret (k, r)) reports;
      mret (dict_of_items items)
  | [] => Ok ∅
  end.

(** The [jsondiff] library: [diff a b] is [diff(a, b, marshal=True)]. *)
Class Jsondiff : Type := { diff : Py.value -> Py.value -> Py.value }.

Section DiffReports.
Context `{Jsondiff}.

(** The error lists of one side, empty when the entry has no report
    there. *)
Definition side_errs (r : option ValidationReport)
    : list pydict * list JsonschemaValidationErrorModel :=
  match r with
  | Some r => (pydantic_validation_errs r, jsonschema_validation_errs r)
  | None => ([], [])
  end.

Definition mk_diff_report (id_ ver : string)
    (pydantic_errs1 pydantic_errs2 : list pydict)
    (jsonschema_errs1 jsonschema_errs2 : list JsonschemaValidationErrorModel)
    : _DandiValidationDiffReport :=
  {| diff_base := {| dandiset_identifier := id_; dandiset_version := ver |};
     pydantic_validation_errs1 := pydantic_errs1;
     pydantic_validation_errs2 := pydantic_errs2;
     pydantic_validation_errs_diff :=
       diff (pydantic_errs_value pydantic_errs1)
            (pydantic_errs_value pydantic_errs2);
     jsonschema_validation_errs1 := jsonschema_errs1;
     jsonschema_validation_errs2 := jsonschema_errs2;
     jsonschema_validation_errs_diff :=
       diff (jsonschema_errs_value jsonschema_errs1)
            (jsonschema_errs_value jsonschema_errs2) |}.

(** The body of the loop over the entries: [None] is [continue]. *)
Definition dandiset_diff_entry (reports1 reports2 : DandisetValidationReportsType)
    (entry : string * string) : option _DandiValidationDiffReport :=
  let '(id_, ver) := entry in
  let r1 := default ∅ (reports1 !! id_) !! ver in
  let r2 := default ∅ (reports2 !! id_) !! ver in
  let '(pydantic_errs1, jsonschema_errs1) := side_errs r1 in
  let '(pydantic_errs2, jsonschema_errs2) := side_errs r2 in
  if negb (any_errs pydantic_errs1 pydantic_errs2 jsonschema_errs1 jsonschema_errs2)
  then None
  else Some (mk_diff_report id_ ver pydantic_errs1 pydantic_errs2
               jsonschema_errs1 jsonschema_errs2).

Definition dandiset_entries (reports1 reports2 : DandisetValidationReportsType)
    : list (string * string) :=
  Py.sorted Py.pair_lt
    (elements (get_validation_reports_entries reports1
               ∪ get_validation_reports_entries reports2)).

Definition _dandiset_validation_diff_reports
    (reports1 reports2 : DandisetValidationReportsType)
    : list _DandiValidationDiffReport :=
  omap (dandiset_diff_entry reports1 reports2)
       (dandiset_entries reports1 reports2).

(** The same for a report object found under a key path. *)
Definition side_errs_obj (r : option report)
    : Py.result (list pydict * list JsonschemaValidationErrorModel) :=
  match r with
  | Some r =>
      p ← get_pydantic_validation_errs r;
      j ← get_jsonschema_validation_errs r;
      mret (p, j)
  | None => mret ([], [])
  end.

(** [r1.a if r1 is not None else r2.a] *)
Definition first_attr {A} (get : report -> Py.result A) (name : string)
    (r1 r2 : option report) : Py.result A :=
  match r1, r2 with
  | Some r, _ => get r
  | None, Some r => get r
  | None, None => Raise (Py.AttributeError name)
  end.

Definition asset_diff_entry (rs1 rs2 : gmap PurePath report) (entry : PurePath)
    : Py.result (option _AssetValidationDiffReport) :=
  let r1 := rs1 !! entry in
  let r2 := rs2 !! entry in
  '(pydantic_errs1, jsonschema_errs1) ← side_errs_obj r1;
  '(pydantic_errs2, jsonschema_errs2) ← side_errs_obj r2;
  if negb (any_errs pydantic_errs1 pydantic_errs2 jsonschema_errs1 jsonschema_errs2)
  then mret None
  else
    asset_id_ ← first_attr get_asset_id "asset_id" r1 r2;
    asset_path_ ← first_attr get_asset_path "asset_path" r1 r2;
    '(dandiset_id, dandiset_ver, asset_idx_str) ← Py.unpack3 entry;
    idx ← Py.int_str asset_idx_str;
    mret (Some
      {| asset_diff := mk_diff_report dandiset_id dandiset_ver
                         pydantic_errs1 pydantic_errs2
                         jsonschema_errs1 jsonschema_errs2;
         asset_fields := {| asset_id := asset_id_;
                            asset_path := asset_path_;
                            asset_idx := idx |} |}).

Definition asset_entries (rs1 rs2 : gmap PurePath report) : list PurePath :=
  Py.sorted Pathlib.lt (elements (dom rs1 ∪ dom rs2)).

Definition _asset_validation_diff_reports (reports1 reports2 : list report)
    : Py.result (list _AssetValidationDiffReport) :=
  rs1 ← _key_reports reports1;
  rs2 ← _key_reports reports2;
  Py.for_append (asset_diff_entry rs1 rs2) (asset_entries rs1 rs2).

End DiffReports.

(** *** Categorizing and representing errors *)

Abbreviation PydanticValidationErrRep :=
  (Py.value * Py.value * list Py.value * PurePath)%type.
Abbreviation JsonschemaValidationErrRep :=
  (JsonschemaValidationErrorModel * PurePath)%type.

(** ["[*]" if isinstance(v, int) else v] *)
Definition wildcard (v : Py.value) : Py.value :=
  if Py.isinstance_int v then Py.Str "[*]" else v.

Definition pydantic_err_categorizer (err : PydanticValidationErrRep)
    : Py.value * Py.value * list Py.value :=
  let '(type_, msg, loc, _) := err in
  let categorized_loc := map wildcard loc in
  (type_, msg, categorized_loc).

Definition jsonschema_err_categorizer (err : JsonschemaValidationErrRep)
    : list Py.value * list Py.value :=
  let err_model := err.1 in
  let categorized_absolute_path := map wildcard (absolute_path err_model) in
  (absolute_schema_path err_model, categorized_absolute_path).

Definition pydantic_err_rep (err : pydict) (path : PurePath)
    : Py.result PydanticValidationErrRep :=
  type_ ← Py.getitem err "type";
  msg ← Py.getitem err "msg";
  loc ← Py.getitem err "loc";
  loc_tuple ← Py.tuple_ loc;
  mret (type_, msg, loc_tuple, path).

Definition jsonschema_err_rep (err : JsonschemaValidationErrorModel)
    (path : PurePath) : JsonschemaValidationErrRep :=
  (err, path).

(** Attribute access on the objects of a list of diff reports. *)
Definition diff_getattr (r : diff_report) (name : string) : Py.result attr :=
  match r with
  | DandisetDiffObj d =>
      if String.eqb name "dandiset_identifier" then Ok (AStr (dandiset_identifier (diff_base d)))
      else if String.eqb name "dandiset_version" then Ok (AStr (dandiset_version (diff_base d)))
      else Raise (Py.AttributeError name)
  | AssetDiffObj d =>
      if String.eqb name "dandiset_identifier"
      then Ok (AStr (dandiset_identifier (diff_base (asset_diff d))))
      else if String.eqb name "dandiset_version"
      then Ok (AStr (dandiset_version (diff_base (asset_diff d))))
      else if String.eqb name "asset_idx" then Ok (AInt (asset_idx (asset_fields d)))
      else Raise (Py.AttributeError name)
  | OtherDiffObj _ attrs => lookup_attr attrs name
  end.

Definition diff_errs (r : diff_report) (name : string)
    : Py.result _DandiValidationDiffReport :=
  match r with
  | DandisetDiffObj d => Ok d
  | AssetDiffObj d => Ok (asset_diff d)
  | OtherDiffObj _ _ => Raise (Py.AttributeError name)
  end.

(** An argument of [Path(...)] must be a string. *)
Definition path_arg (v : attr) : Py.result string :=
  match v with
  | AStr s => Ok s
  | _ => Raise (Py.TypeError "expected str, bytes or os.PathLike object")
  end.

(** The two closures [instance_path] of [err_reps], applied to the report
    [r] of the current iteration. *)
Definition instance_path_dandiset (r : diff_report) : Py.result PurePath :=
  id_ ← diff_getattr r "dandiset_identifier";
  ver ← diff_getattr r "dandiset_version";
  a ← path_arg id_;
  b ← path_arg ver;
  mret (Path [a; b]).

Definition instance_path_asset (r : diff_report) : Py.result PurePath :=
  id_ ← diff_getattr r "dandiset_identifier";
  ver ← diff_getattr r "dandiset_version";
  idx ← diff_getattr r "asset_idx";
  a ← path_arg id_;
  b ← path_arg ver;
  mret (Path [a; b; str_attr idx]).

Definition select_instance_path (r0 : diff_report)
    : Py.result (diff_report -> Py.result PurePath) :=
  match r0 with
  | DandisetDiffObj _ => Ok instance_path_dandiset
  | AssetDiffObj _ => Ok instance_path_asset
  | OtherDiffObj cls _ => Raise (Py.TypeError ("Unsupported report type: " +:+ cls))
  end.

(** One iteration of the loop of [err_reps]: the four lists appended. *)
Definition err_reps_of (instance_path : diff_report -> Py.result PurePath)
    (r : diff_report)
    : Py.result (list PydanticValidationErrRep * list PydanticValidationErrRep
                 * list JsonschemaValidationErrRep * list JsonschemaValidationErrRep) :=
  p ← instance_path r;
  d1 ← diff_errs r "pydantic_validation_errs1";
  p1 ← Py.map_r (fun e => pydantic_err_rep e p) (pydantic_validation_errs1 d1);
  d2 ← diff_errs r "pydantic_validation_errs2";
  p2 ← Py.map_r (fun e => pydantic_err_rep e p) (pydantic_validation_errs2 d2);
  d3 ← diff_errs r "jsonschema_validation_errs1";
  d4 ← diff_errs r "jsonschema_validation_errs2";
  mret (p1, p2,
        (fun e => jsonschema_err_rep e p) <$> jsonschema_validation_errs1 d3,
        (fun e => jsonschema_err_rep e p) <$> jsonschema_validation_errs2 d4).

Definition err_reps (rs : list diff_report)
    : Py.result (list PydanticValidationErrRep * list PydanticValidationErrRep
                 * list JsonschemaValidationErrRep * list JsonschemaValidationErrRep) :=
  match rs with
  | r0 :: _ =>
      instance_path ← select_instance_path r0;
      lsts ← Py.map_r (err_reps_of instance_path) rs;
      mret (concat ((fun x => x.1.1.1) <$> lsts),
            concat ((fun x => x.1.1.2) <$> lsts),
            concat ((fun x => x.1.2) <$> lsts),
            concat ((fun x => x.2) <$> lsts))
  | [] => Ok ([], [], [], [])
  end.

(** *** Counting *)

(** Modelled from the spec: [tools.validation_err_counter.ValidationErrCounter],
    which counts error representations by the category its categorizer
    gives them and keeps which representations fell in each category; here
    it holds the categorizer and what it was given to count. *)
Record ValidationErrCounter (Rep Cat : Type) : Type := {
  err_categorizer : Rep -> Cat;
  counted : list Rep
}.
Arguments err_categorizer {Rep Cat} _.
Arguments counted {Rep Cat} _.




(** *** Writing the diff reports *)

(** What the writer takes from outside this module: the serializers, the
    Markdown summaries of [tools.md], the names of the two report files
    (constants of the [cli] package) and the parsers behind [read_reports]. *)
Class Collaborators : Type := {
  json_dumps : Py.value -> string;
  yaml_dumps : Py.value -> string;
  pydantic_validation_err_diff_summary :
    ValidationErrCounter PydanticValidationErrRep (Py.value * Py.value * list Py.value) ->
    ValidationErrCounter PydanticValidationErrRep (Py.value * Py.value * list Py.value) ->
    string;
  jsonschema_validation_err_diff_summary :
    ValidationErrCounter JsonschemaValidationErrRep (list Py.value * list Py.value) ->
    ValidationErrCounter JsonschemaValidationErrRep (list Py.value * list Py.value) ->
    string;
  DANDISET_VALIDATION_REPORTS_FILE : string;
  ASSET_VALIDATION_REPORTS_FILE : string;
  DANDISET_VALIDATION_REPORTS_ADAPTER : string -> Py.result DandisetValidationReportsType;
  ASSET_VALIDATION_REPORTS_ADAPTER : string -> Py.result (list report)
}.

Definition PYDANTIC_ERRS1_BASE_FNAME : string := "pydantic_validation_errs1".
Definition PYDANTIC_ERRS2_BASE_FNAME : string := "pydantic_validation_errs2".
Definition PYDANTIC_ERRS_DIFF_BASE_FNAME : string := "pydantic_validation_errs_diff".
Definition JSONSCHEMA_ERRS1_BASE_FNAME : string := "jsonschema_validation_errs1".
Definition JSONSCHEMA_ERRS2_BASE_FNAME : string := "jsonschema_validation_errs2".
Definition JSONSCHEMA_ERRS_DIFF_BASE_FNAME : string := "jsonschema_validation_errs_diff".

Section Output.
Context `{Jsondiff} `{Collaborators}.


(** Modelled from the spec: [tools.write_data], which writes the data
    under the base name in two serializations, [.json] and [.yaml]. *)
Definition write_data (data : Py.value) (dir_ : PurePath) (base_fname : string)
    : FS.io unit :=
  FS.write_text (dir_ // (base_fname +:+ ".json")) (json_dumps data);;
  FS.write_text (dir_ // (base_fname +:+ ".yaml")) (yaml_dumps data).


(** The six data items of a diff report with their base file names. *)
Definition supporting_items (r : _DandiValidationDiffReport)
    : list (Py.value * string) :=
  [ (pydantic_errs_value (pydantic_validation_errs1 r), PYDANTIC_ERRS1_BASE_FNAME);
    (pydantic_errs_value (pydantic_validation_errs2 r), PYDANTIC_ERRS2_BASE_FNAME);
    (pydantic_validation_errs_diff r, PYDANTIC_ERRS_DIFF_BASE_FNAME);
    (jsonschema_errs_value (jsonschema_validation_errs1 r), JSONSCHEMA_ERRS1_BASE_FNAME);
    (jsonschema_errs_value (jsonschema_validation_errs2 r), JSONSCHEMA_ERRS2_BASE_FNAME);
    (jsonschema_validation_errs_diff r, JSONSCHEMA_ERRS_DIFF_BASE_FNAME) ].

Definition _output_supporting_files (r : _DandiValidationDiffReport)
    (report_dir : PurePath) : FS.io unit :=
  FS.mkdir report_dir true false;;
  FS.for_each
    (fun item =>
       let '(data, base_fname) := item in
       if Py.truthy data then write_data data report_dir base_fname
       else mret tt)
    (supporting_items r).







End Output.

(** ** [tools.py] and [cli/tools.py]: validation against a Pydantic model *)

(** What a validation method of a Pydantic model does with a record: it
    returns, raises [ValidationError] (whose [json()] is the serialized
    error array), or raises something else. *)
Inductive validation : Type :=
| Validated
| ValidationError (json : string)
| Crashed (e : Py.exn).

(** A Pydantic model class, through its two validation methods. *)
Record BaseModel : Type := {
  model_validate : pydict -> validation;
  model_validate_json : string -> validation
}.

(** [tools.pydantic_validate]; the data is a [dict] or a JSON string. *)
Definition pydantic_validate (data : pydict + string) (model : BaseModel)
    : Py.result string :=
  let validate_method :=
    match data with
    | inr json => fun _ : unit => model_validate_json model json
    | inl d => fun _ : unit => model_validate model d
    end in
  match validate_method tt with
  | ValidationError json => Ok json
  | Crashed e => Raise e
  | Validated => Ok "[]"
  end.

Module Cli.

(** The report of the [cli] package, through what [output_reports] reads
    from it; [summary_cells] stands for the cells of its row in the
    summary table. *)
Record DandisetValidationReport : Type := {
  dandiset_identifier : string;
  dandiset_version : string;
  dandiset_metadata : Py.value;
  pydantic_validation_errs : Py.value;
  linkml_validation_errs : Py.value;
  summary_cells : list string
}.

(** The serializers, the type adapters, the LinkML schema in YAML and the
    [Dandiset] model: all from other packages. *)
Class Collaborators : Type := {
  json_dump : Py.value -> string;
  yaml_dump : Py.value -> string;
  dandiset_metadata_adapter : Py.value -> Py.value;
  pydantic_validation_errs_adapter : Py.value -> Py.value;
  linkml_validation_errs_adapter : Py.value -> Py.value;
  dandi_linkml_schema_yml : string;
  Dandiset : BaseModel
}.

Definition nl : string := String (ascii_of_nat 10) EmptyString.

Section Tools.
Context `{Collaborators}.

(** [cli.tools.pydantic_validate] *)
Definition pydantic_validate (dandiset_metadata : pydict) : Py.result string :=
  match model_validate Dandiset dandiset_metadata with
  | ValidationError json => Ok json
  | Crashed e => Raise e
  | Validated => Ok "[]"
  end.

Definition output_dandi_linkml_schema (output_path : PurePath) : FS.io unit :=
  FS.write_text output_path dandi_linkml_schema_yml.

Definition _write_data (data : Py.value) (data_adapter : Py.value -> Py.value)
    (base_file_name : string) (output_dir : PurePath) : FS.io unit :=
  let serializable_data := data_adapter data in
  FS.write_text (output_dir // (base_file_name +:+ ".json"))
                (json_dump serializable_data);;
  FS.write_text (output_dir // (base_file_name +:+ ".yaml"))
                (yaml_dump serializable_data).

Definition _gen_row (cell_str_values : list string) : string :=
  "|" +:+ String.concat "|" cell_str_values +:+ "|" +:+ nl.

Definition summary_file_name : string := "summary.md".
Definition dandi_linkml_schema_file_name : string := "dandi-linkml-schema.yml".
Definition summary_headers : list string :=
  ["dandiset"; "version"; "schema_version"; "api_status"; "modified";
   "pydantic"; "linkml"].

Fixpoint dashes (n : nat) : string :=
  match n with
  | O => EmptyString
  | S n' => String "-" (dashes n')
  end.

(** The first steps of [output_reports]: an existing output path is
    removed, then the directory is created. *)
Definition recreate_output_dir (output_path : PurePath) : FS.io unit :=
  (fun s => if FS.exists_ s output_path then FS.rmtree output_path s
            else (Ok tt, s));;
  FS.mkdir output_path false false.

(** The rest of [output_reports]: the schema, the summary and the files
    of each report. *)
Definition write_report_contents (reports : list DandisetValidationReport)
    (output_path : PurePath) : FS.io unit :=
  let summary_f := output_path // summary_file_name in
  output_dandi_linkml_schema (output_path // dandi_linkml_schema_file_name);;
  FS.open_w summary_f;;
  FS.write summary_f
    ("[DANDI LinkML schema](./" +:+ dandi_linkml_schema_file_name +:+ ") "
     +:+ "(LinkML schema used in the LinkML validations)" +:+ nl);;
  FS.write summary_f nl;;
  FS.write summary_f
    (_gen_row ((fun h => " " +:+ h +:+ " ") <$> summary_headers)
     +:+ _gen_row ((fun h => dashes (String.length h + 2)) <$> summary_headers));;
  FS.for_each
    (fun r =>
       let report_dir :=
         output_path // dandiset_identifier r // dandiset_version r in
       FS.mkdir report_dir true false;;
       _write_data (dandiset_metadata r) dandiset_metadata_adapter
                   "metadata" report_dir;;
       _write_data (pydantic_validation_errs r) pydantic_validation_errs_adapter
                   "pydantic_validation_errs" report_dir;;
       _write_data (linkml_validation_errs r) linkml_validation_errs_adapter
                   "linkml_validation_errs" report_dir;;
       FS.write summary_f
         (_gen_row ((fun c => " " +:+ c +:+ " ") <$> summary_cells r)))
    reports.

Definition output_reports (reports : list DandisetValidationReport)
    (output_path : PurePath) : FS.io unit :=
  recreate_output_dir output_path;;
  write_report_contents reports output_path.

End Tools.

End Cli.

(** ** [tools.py]: the direct subdirectories of a path *)

(** The name under which [q] is an entry of the directory [p], if it is
    one. *)
Fixpoint entry_name (p q : PurePath) : option string :=
  match p, q with
  | [], [x] => Some x
  | a :: p', b :: q' => if String.eqb a b then entry_name p' q' else None
  | _, _ => None
  end.

(** [os.listdir(p)]: the names of the entries of a directory.  The order is
    the one the system gives, here the order of the keys of the tree; no
    property below depends on it. *)
Definition listdir (p : PurePath) : FS.io (list string) :=
  fun s =>
    match FS.stat s p with
    | Raise e => (Raise e, s)
    | Ok (FS.File _) => (Raise Py.NotADirectoryError, s)
    | Ok FS.Dir =>
        (Ok (omap (entry_name p)
               (List.filter (fun q => negb (FS.is_root q)) (elements (dom s)))), s)
    end.

(** [p.iterdir()]: each entry as the path of [p] with one more part. *)
Definition iterdir (p : PurePath) : FS.io (list PurePath) :=
  names ← listdir p;
  mret ((fun name => p ++ [name]) <$> names).

(** The generator [(p for p in entries if p.is_dir())], consumed. *)
Definition keep_dirs (entries : list PurePath) : FS.io (list PurePath) :=
  fun s => (Ok (List.filter (fun p => FS.is_dir s p) entries), s).

Definition iter_direct_subdirs (path : PurePath) : FS.io (list PurePath) :=
  fun s =>
    if negb (FS.is_dir s path)
    then (Raise (Py.ValueError ("The given path is not a directory: "
                                +:+ path_str path)), s)
    else (entries ← iterdir path; keep_dirs entries) s.

(** ** [tools.py] and [cli/tools.py]: the LinkML validators *)

(** The translator of [pydantic2linkml] and the validator of [linkml].
    [translate_defs n names] is what the call made after [n] earlier calls
    gives. *)
Class Linkml : Type := {
  SchemaDefinition : Type;
  ValidationPlugin : Type;
  ValidationResult : Type;
  translate_defs : nat -> list string -> Py.result SchemaDefinition;
  JsonschemaValidationPlugin : bool -> ValidationPlugin;
  Validator_validate :
    SchemaDefinition -> list ValidationPlugin -> pydict -> string ->
    list ValidationResult
}.

Definition DANDI_MODULE_NAMES : list string := ["dandischema.models"].

Section LinkmlValidator.
Context `{Linkml}.

(** The class attribute [_dandi_linkml_schema], with the number of calls of
    [translate_defs] made so far. *)
Record validator_class : Type := {
  _dandi_linkml_schema : option SchemaDefinition;
  translate_calls : nat
}.

(** An instance: the inner validator with its copy of the schema and its
    plugins. *)
Record DandiModelLinkmlValidator : Type := {
  inner_schema : SchemaDefinition;
  inner_plugins : list ValidationPlugin
}.

Definition get_dandi_linkml_schema (cls : validator_class)
    : Py.result SchemaDefinition * validator_class :=
  match _dandi_linkml_schema cls with
  | None =>
      match translate_defs (translate_calls cls) DANDI_MODULE_NAMES with
      | Ok schema =>
          (Ok schema, {| _dandi_linkml_schema := Some schema;
                         translate_calls := S (translate_calls cls) |})
      | Raise e =>
          (Raise e, {| _dandi_linkml_schema := None;
                       translate_calls := S (translate_calls cls) |})
      end
  | Some schema => (Ok schema, cls)
  end.

(** [DandiModelLinkmlValidator(validation_plugins)] and
    [DandisetLinkmlValidator(validation_plugins)] *)
Definition new_validator (validation_plugins : option (list ValidationPlugin))
    (cls : validator_class)
    : Py.result DandiModelLinkmlValidator * validator_class :=
  let validation_plugins :=
    match validation_plugins with
    | None => [JsonschemaValidationPlugin true]
    | Some plugins => plugins
    end in
  match get_dandi_linkml_schema cls with
  | (Ok schema, cls') =>
      (Ok {| inner_schema := schema; inner_plugins := validation_plugins |}, cls')
  | (Raise e, cls') => (Raise e, cls')
  end.

(** [DandiModelLinkmlValidator.validate] *)
Definition validate (self : DandiModelLinkmlValidator) (dandi_metadata : pydict)
    (dandi_metadata_class : string) : list ValidationResult :=
  Validator_validate (inner_schema self) (inner_plugins self)
                     dandi_metadata dandi_metadata_class.

(** [DandisetLinkmlValidator.validate] *)
Definition validate_dandiset (self : DandiModelLinkmlValidator)
    (dandiset_metadata : pydict) : list ValidationResult :=
  let dandiset_metadata_class := "Dandiset" in
  Validator_validate (inner_schema self) (inner_plugins self)
                     dandiset_metadata dandiset_metadata_class.

(** Constructing validators one after the other. *)
Fixpoint new_validators (args : list (option (list ValidationPlugin)))
    (cls : validator_class)
    : list (Py.result DandiModelLinkmlValidator) * validator_class :=
  match args with
  | [] => ([], cls)
  | a :: args' =>
      let '(v, cls1) := new_validator a cls in
      let '(vs, cls2) := new_validators args' cls1 in
      (v :: vs, cls2)
  end.

End LinkmlValidator.

(** ** [cli/tools.py]: counting errors by type *)

(** [str.casefold], a function of the Unicode tables. *)
Class Casefold : Type := { casefold : string -> string }.

Section ErrCounts.
Context `{Casefold}.

(** [sorted(l, key=key)]: stable, comparing the keys with [<]. *)
Definition sorted_by {A} (key : A -> string) (l : list A) : list A :=
  Py.sorted (fun a b => Py.str_lt (key a) (key b)) l.

(** An argument of [str.casefold] must be a [str]. *)
Definition str_arg (v : Py.value) : Py.result string :=
  match v with
  | Py.Str s => Ok s
  | _ => Raise (Py.TypeError "descriptor 'casefold' for 'str' objects doesn't apply")
  end.

(** [isorted(l)]: the keys of all elements are computed first, so every
    element of the result is a [str]. *)
Definition isorted (l : list Py.value) : Py.result (list string) :=
  strs ← Py.map_r str_arg l;
  mret (sorted_by casefold strs).

(** [collections.Counter]: the counts by element, in the order in which the
    elements were first met. *)
Fixpoint counter_incr (c : list (string * nat)) (x : string) : list (string * nat) :=
  match c with
  | [] => [(x, 1%nat)]
  | (y, n) :: c' =>
      if String.eqb y x then (y, S n) :: c' else (y, n) :: counter_incr c' x
  end.

Definition Counter (l : list string) : list (string * nat) :=
  foldl counter_incr [] l.

(** The generator [e["type"] for e in errs] is consumed before the sort
    starts. *)
Definition get_pydantic_err_counts (errs : list pydict)
    : Py.result (list (string * nat)) :=
  types ← Py.map_r (fun e => Py.getitem e "type") errs;
  sorted_types ← isorted types;
  mret (Counter sorted_types).

End ErrCounts.

(** * Vocabulary of the properties *)

(** A boolean comparison that is a strict total order. *)
Record strict_total {A} (lt : A -> A -> bool) : Prop := {
  st_irrefl : forall x, lt x x = false;
  st_trans : forall x y z, lt x y = true -> lt y z = true -> lt x z = true;
  st_total : forall x y, lt x y = true \/ x = y \/ lt y x = true
}.

(** Two location sequences that differ at most where both hold an integer. *)
Definition same_up_to_indices (l1 l2 : list Py.value) : Prop :=
  Forall2 (fun a b => a = b \/ (Py.isinstance_int a = true /\ Py.isinstance_int b = true))
          l1 l2.

(** Dandiset-level and asset-level reports. *)
Definition supported (r : report) : bool :=
  match r with
  | Object _ _ => false
  | _ => true
  end.

Definition is_asset (r : report) : bool :=
  match r with
  | AssetValidationReport _ _ => true
  | _ => false
  end.

Definition report_base (r : report) : option DandiBaseReport :=
  match r with
  | DandisetValidationReport v | AssetValidationReport v _ => Some (base v)
  | Object _ _ => None
  end.

Definition report_validation (r : report) : option ValidationReport :=
  match r with
  | DandisetValidationReport v | AssetValidationReport v _ => Some v
  | Object _ _ => None
  end.

Definition diff_report_base (r : diff_report) : option DandiBaseReport :=
  match r with
  | DandisetDiffObj d => Some (diff_base d)
  | AssetDiffObj d => Some (diff_base (asset_diff d))
  | OtherDiffObj _ _ => None
  end.

(** The key path that the dandiset scheme gives a report. *)
Definition dandiset_key (r : report) : PurePath :=
  match report_base r with
  | Some b => Path [dandiset_identifier b; dandiset_version b]
  | None => []
  end.

(** The key path of an asset-level report. *)
Definition asset_key (r : report) : PurePath :=
  match r with
  | AssetValidationReport v a =>
      [dandiset_identifier (base v); dandiset_version (base v); Py.str_int (asset_idx a)]
  | _ => []
  end.

(** An asset-level report whose identifier and version are plain path
    components. *)
Definition asset_ok (r : report) : bool :=
  match r with
  | AssetValidationReport v _ =>
      Pathlib.plain (dandiset_identifier (base v))
      && Pathlib.plain (dandiset_version (base v))
  | _ => false
  end.

(** A keyed collection of such reports. *)
Definition keyed_ok (rs : gmap PurePath report) : Prop :=
  forall k r, rs !! k = Some r -> asset_ok r = true /\ asset_key r = k.

(** The exceptions that the loop of [err_reps] can raise. *)
Definition loop_exn (e : Py.exn) : Prop :=
  match e with
  | Py.AttributeError _ | Py.KeyError _ => True
  | Py.TypeError msg =>
      msg = "expected str, bytes or os.PathLike object" \/ msg = "object is not iterable"
  | _ => False
  end.

(** At least one error from some validator. *)
Definition has_errors (r : ValidationReport) : Prop :=
  pydantic_validation_errs r <> [] \/ jsonschema_validation_errs r <> [].

(** The report of a collection under an entity key. *)
Definition dandiset_report_at (reports : DandisetValidationReportsType)
    (k : string * string) : option ValidationReport :=
  reports !! k.1 ≫= fun vers => vers !! k.2.

Definition has_errors_at (reports : DandisetValidationReportsType)
    (k : string * string) : Prop :=
  exists r, dandiset_report_at reports k = Some r /\ has_errors r.

Definition has_errors_under (rs : gmap PurePath report) (k : PurePath) : Prop :=
  exists r v, rs !! k = Some r /\ report_validation r = Some v /\ has_errors v.

(** The report that a collection of asset reports holds for a key: the
    last one, in input order, with that key. *)
Definition asset_report_at (reports : list report) (k : PurePath) : option report :=
  last (filter (fun r => asset_key r = k) reports).

Definition has_errors_in (reports : list report) (k : PurePath) : Prop :=
  exists r v, asset_report_at reports k = Some r
              /\ report_validation r = Some v /\ has_errors v.

(** The error lists of what is stored under a key, if anything. *)
Definition side_of (r : option report)
    : list pydict * list JsonschemaValidationErrorModel :=
  side_errs (r ≫= report_validation).

(** The entity key of a diff report. *)
Definition diff_key (d : _DandiValidationDiffReport) : string * string :=
  (dandiset_identifier (diff_base d), dandiset_version (diff_base d)).

(** The key path of an asset diff report, as [err_reps] and the writer
    build it. *)
Definition asset_diff_key (d : _AssetValidationDiffReport) : PurePath :=
  Path [dandiset_identifier (diff_base (asset_diff d));
        dandiset_version (diff_base (asset_diff d));
        Py.str_int (asset_idx (asset_fields d))].

(** A diff report of one of the two supported classes, as the object that
    a list of diff reports holds, and the fields shared by both classes. *)
Definition diff_obj (r : _DandiValidationDiffReport + _AssetValidationDiffReport)
    : diff_report :=
  match r with
  | inl d => DandisetDiffObj d
  | inr a => AssetDiffObj a
  end.

Definition diff_core (r : _DandiValidationDiffReport + _AssetValidationDiffReport)
    : _DandiValidationDiffReport :=
  match r with
  | inl d => d
  | inr a => asset_diff a
  end.

(** The verdict of path resolution on one more component. *)
Definition dir_verdict (n : option FS.node) : option Py.exn :=
  match n with
  | None => Some Py.FileNotFoundError
  | Some (FS.File _) => Some Py.NotADirectoryError
  | Some FS.Dir => None
  end.

(** [p] names an existing directory. *)
Definition dir_at (s : FS.t) (p : PurePath) : Prop :=
  FS.check_prefixes s [] p = None /\ FS.lookup_node s p = Some FS.Dir.

(** What a successful creation of the directory [p] leaves behind. *)
Definition made (p : PurePath) (s s1 : FS.t) : Prop :=
  FS.wf s1
  /\ FS.check_prefixes s1 [] p = None
  /\ FS.lookup_node s1 p = Some FS.Dir
  /\ forall q, ~ q `prefix_of` p -> s1 !! q = s !! q.

(** A directory in which files can be written: it exists and none of its
    entries is a directory. *)
Definition writable_dir (s : FS.t) (dir_ : PurePath) : Prop :=
  FS.wf s /\ dir_at s dir_ /\ forall x, FS.lookup_node s (dir_ ++ [x]) <> Some FS.Dir.

Definition write_all (files : list (PurePath * FS.node)) (s : FS.t) : FS.t :=
  foldl (fun m kv => <[kv.1 := kv.2]> m) s files.

Definition item_names (item : Py.value * string) : list string :=
  [item.2 +:+ ".json"; item.2 +:+ ".yaml"].

Definition plain_names (item : Py.value * string) : Prop :=
  Forall (fun n => Pathlib.plain n = true) (item_names item).



Section WriterVocabulary.
Context `{Collaborators}.

(** The files that the loop of [_output_supporting_files] writes for an
  item. *)
Definition item_files (dir_ : PurePath) (item : Py.value * string)
  : list (PurePath * FS.node) :=
if Py.truthy item.1
then [ (dir_ ++ [item.2 +:+ ".json"], FS.File (json_dumps item.1));
       (dir_ ++ [item.2 +:+ ".yaml"], FS.File (yaml_dumps item.1)) ]
else [].


End WriterVocabulary.

(** ** Sample data of the worked examples *)

(** Equality of two values, member by member. *)
Fixpoint same_value (a b : Py.value) : bool :=
  match a, b with
  | Py.None_, Py.None_ => true
  | Py.Bool x, Py.Bool y => Bool.eqb x y
  | Py.Int x, Py.Int y => (x =? y)%Z
  | Py.Str x, Py.Str y => String.eqb x y
  | Py.List l, Py.List l' =>
      (fix go (l l' : list Py.value) : bool :=
         match l, l' with
         | [], [] => true
         | x :: l, y :: l' => same_value x y && go l l'
         | _, _ => false
         end) l l'
  | Py.Dict d, Py.Dict d' =>
      (fix go (d d' : list (string * Py.value)) : bool :=
         match d, d' with
         | [], [] => true
         | (k, x) :: d, (k', y) :: d' =>
             String.eqb k k' && same_value x y && go d d'
         | _, _ => false
         end) d d'
  | _, _ => false
  end.

(** A stand-in for [jsondiff] on the sample data: the empty dict for equal
    values and otherwise the whole new value, which is what the compact
    syntax gives when the two values share nothing. *)
Definition replacement_diff : Jsondiff :=
  {| diff := fun a b => if same_value a b then Py.Dict [] else b |}.

Definition sample_err : pydict :=
  [("type", Py.Str "missing"); ("msg", Py.Str "Field required");
   ("loc", Py.List [Py.Str "assets"; Py.Int 3; Py.Str "id"])].

Definition jerr (i : Z) : JsonschemaValidationErrorModel :=
  {| message := "'id' is a required property";
     absolute_path := [Py.Str "assets"; Py.Int i];
     absolute_schema_path := [Py.Str "properties"; Py.Str "assets"; Py.Str "items";
                              Py.Str "required"] |}.

(** A dandiset validation report with the given Pydantic errors. *)
Definition dandiset_report (id_ ver : string) (errs : list pydict) : ValidationReport :=
  {| base := {| dandiset_identifier := id_; dandiset_version := ver |};
     pydantic_validation_errs := errs;
     jsonschema_validation_errs := [] |}.

Definition sample_reports (errs : list pydict) : DandisetValidationReportsType :=
  {[ "ds1" := {[ "draft" := dandiset_report "ds1" "draft" errs ]} ]}.

(** Two versions of one dandiset, with the given Pydantic errors. *)
Definition sample_versions (errs : list pydict) : DandisetValidationReportsType :=
  {[ "ds1" := <[ "0.240101.1" := dandiset_report "ds1" "0.240101.1" errs ]>
                {[ "draft" := dandiset_report "ds1" "draft" errs ]};
     "ds0" := {[ "draft" := dandiset_report "ds0" "draft" errs ]} ]}.

Definition sample_dandiset : report :=
  DandisetValidationReport (dandiset_report "000003" "draft" [sample_err]).

Definition sample_asset (idx : Z) : report :=
  AssetValidationReport (dandiset_report "000003" "draft" [sample_err])
    {| asset_id := None; asset_path := None; asset_idx := idx |}.

(** The same asset reported again, without errors. *)
Definition sample_asset_again (idx : Z) : report :=
  AssetValidationReport (dandiset_report "000003" "draft" [])
    {| asset_id := None; asset_path := None; asset_idx := idx |}.

(** An asset report whose identifier is not a single path component. *)
Definition nested_asset : report :=
  AssetValidationReport (dandiset_report "a/b" "draft" [sample_err])
    {| asset_id := None; asset_path := None; asset_idx := 0 |}.

(** An asset report, with an error, of the dandiset with the given
    identifier. *)
Definition dotted_asset (id_ : string) : report :=
  AssetValidationReport (dandiset_report id_ "draft" [sample_err])
    {| asset_id := None; asset_path := None; asset_idx := 0 |}.

(** One new Pydantic error on the second side, nothing else. *)
Definition sample_diff_report : _DandiValidationDiffReport :=
  @mk_diff_report replacement_diff "000003" "draft" [] [sample_err] [] [].

Definition sample_asset_diff (idx : Z) : _AssetValidationDiffReport :=
  {| asset_diff := sample_diff_report;
     asset_fields := {| asset_id := None; asset_path := None; asset_idx := idx |} |}.

(** Collaborators with fixed file names, whose adapters read any content as
    the given collections. *)
Definition sample_collaborators (assets : list report) : Collaborators :=
  {| json_dumps := fun _ => "json";
     yaml_dumps := fun _ => "yaml";
     pydantic_validation_err_diff_summary := fun _ _ => "pydantic summary";
     jsonschema_validation_err_diff_summary := fun _ _ => "jsonschema summary";
     DANDISET_VALIDATION_REPORTS_FILE := "dandiset_validation_reports.json";
     ASSET_VALIDATION_REPORTS_FILE := "asset_validation_reports.json";
     DANDISET_VALIDATION_REPORTS_ADAPTER := fun _ => Ok ∅;
     ASSET_VALIDATION_REPORTS_ADAPTER := fun _ => Ok assets |}.

(** The four report files in place and nothing where the output goes. *)
Definition ready_fs : FS.t :=
  list_to_map
    [ (["reports1"], FS.Dir);
      (["reports1"; "dandiset_validation_reports.json"], FS.File "[]");
      (["reports1"; "asset_validation_reports.json"], FS.File "[]");
      (["reports2"], FS.Dir);
      (["reports2"; "dandiset_validation_reports.json"], FS.File "[]");
      (["reports2"; "asset_validation_reports.json"], FS.File "[]") ].

(** The same with a regular file where the diff reports are to go. *)
Definition blocked_fs : FS.t :=
  <[ ["out"; "diff_reports"] := FS.File "blocked" ]> (<[ ["out"] := FS.Dir ]> ready_fs).

(** A model that accepts a record only when it is not empty. *)
Definition nonempty_model : BaseModel :=
  {| model_validate := fun d => match d with
                                | [] => ValidationError "[{...}]"
                                | _ => Validated
                                end;
     model_validate_json := fun json => if String.eqb json "{}"
                                        then ValidationError "[{...}]"
                                        else Validated |}.

Definition sample_cli_collaborators : Cli.Collaborators :=
  {| Cli.json_dump := fun _ => "json";
     Cli.yaml_dump := fun _ => "yaml";
     Cli.dandiset_metadata_adapter := fun v => v;
     Cli.pydantic_validation_errs_adapter := fun v => v;
     Cli.linkml_validation_errs_adapter := fun v => v;
     Cli.dandi_linkml_schema_yml := "id: dandi";
     Cli.Dandiset := nonempty_model |}.

Definition file_in_the_way : FS.t := {[ ["dandi-reports"] := FS.File "not a directory" ]}.

Definition old_reports : FS.t :=
  list_to_map [ (["dandi-reports"], FS.Dir);
                (["dandi-reports"; "summary.md"], FS.File "old") ].

(** ** Vocabulary of the further properties *)

(** At least one of the four error lists of a diff report is not empty. *)
Definition some_errs (d : _DandiValidationDiffReport) : Prop :=
  pydantic_validation_errs1 d <> [] \/ pydantic_validation_errs2 d <> []
  \/ jsonschema_validation_errs1 d <> [] \/ jsonschema_validation_errs2 d <> [].

Section BuilderVocabulary.
Context `{Jsondiff}.

(** The two diffs of a diff report are the diffs of its own lists. *)
Definition diffs_of_own_lists (d : _DandiValidationDiffReport) : Prop :=
  pydantic_validation_errs_diff d
  = diff (pydantic_errs_value (pydantic_validation_errs1 d))
         (pydantic_errs_value (pydantic_validation_errs2 d))
  /\ jsonschema_validation_errs_diff d
     = diff (jsonschema_errs_value (jsonschema_validation_errs1 d))
            (jsonschema_errs_value (jsonschema_validation_errs2 d)).

(** The diff report of the same entity with the two sides exchanged. *)
Definition swap_sides (d : _DandiValidationDiffReport) : _DandiValidationDiffReport :=
  mk_diff_report (dandiset_identifier (diff_base d)) (dandiset_version (diff_base d))
    (pydantic_validation_errs2 d) (pydantic_validation_errs1 d)
    (jsonschema_validation_errs2 d) (jsonschema_validation_errs1 d).

(** The asset diff report that a key of two keyed collections yields, if
    any: the first side's report, when there is one, gives the asset
    fields. *)
Definition asset_diff_at (rs1 rs2 : gmap PurePath report) (k : PurePath)
    : option _AssetValidationDiffReport :=
  let s1 := side_of (rs1 !! k) in
  let s2 := side_of (rs2 !! k) in
  match (match rs1 !! k with Some r => Some r | None => rs2 !! k end) with
  | Some (AssetValidationReport v a) =>
      if any_errs s1.1 s2.1 s1.2 s2.2
      then Some {| asset_diff :=
                     mk_diff_report (dandiset_identifier (base v))
                                    (dandiset_version (base v))
                                    s1.1 s2.1 s1.2 s2.2;
                   asset_fields := a |}
      else None
  | _ => None
  end.

End BuilderVocabulary.

(** A Pydantic error with the three members that [pydantic_err_rep] reads,
    the location being iterable. *)
Definition is_ok {A} (r : Py.result A) : bool :=
  match r with Ok _ => true | Raise _ => false end.

Definition err_ok (e : pydict) : bool :=
  is_ok (Py.getitem e "type") && is_ok (Py.getitem e "msg")
  && is_ok (loc ← Py.getitem e "loc"; Py.tuple_ loc).

(** [e.get(k)] *)
Definition get_or_none (e : pydict) (k : string) : Py.value :=
  match Py.getitem e k with
  | Ok v => v
  | Raise _ => Py.None_
  end.

(** The representation of a well-formed error found at [path]. *)
Definition rep_of (path : PurePath) (e : pydict) : PydanticValidationErrRep :=
  (get_or_none e "type", get_or_none e "msg",
   match Py.tuple_ (get_or_none e "loc") with Ok l => l | Raise _ => [] end,
   path).

(** The exceptions of a malformed Pydantic error. *)
Definition malformed_exn (e : Py.exn) : Prop :=
  e = Py.KeyError "type" \/ e = Py.KeyError "msg" \/ e = Py.KeyError "loc"
  \/ e = Py.TypeError "object is not iterable".

(** The instance paths of the two kinds of diff reports. *)
Definition dandiset_diff_path (d : _DandiValidationDiffReport) : PurePath :=
  Path [dandiset_identifier (diff_base d); dandiset_version (diff_base d)].

(** The four lists that [err_reps] returns for diff reports all of whose
    errors are well formed. *)
Definition reps_of {R} (core : R -> _DandiValidationDiffReport)
    (path : R -> PurePath) (rs : list R)
    : list PydanticValidationErrRep * list PydanticValidationErrRep
      * list JsonschemaValidationErrRep * list JsonschemaValidationErrRep :=
  (flat_map (fun r => rep_of (path r) <$> pydantic_validation_errs1 (core r)) rs,
   flat_map (fun r => rep_of (path r) <$> pydantic_validation_errs2 (core r)) rs,
   flat_map (fun r => (fun e => (e, path r)) <$> jsonschema_validation_errs1 (core r)) rs,
   flat_map (fun r => (fun e => (e, path r)) <$> jsonschema_validation_errs2 (core r)) rs).

(** Every Pydantic error of a diff report is well formed. *)
Definition errs_ok (d : _DandiValidationDiffReport) : bool :=
  forallb err_ok (pydantic_validation_errs1 d)
  && forallb err_ok (pydantic_validation_errs2 d).

(** ** Changes of the file system *)

(** No directory is lost or replaced between two states. *)
Definition dirs_kept (s s1 : FS.t) : Prop :=
  forall q, FS.lookup_node s q = Some FS.Dir -> FS.lookup_node s1 q = Some FS.Dir.

(** Whatever the action returns or raises, the state it leaves is related
    by [I] to the state it started from. *)
Definition keeps {A} (I : FS.t -> FS.t -> Prop) (m : FS.io A) : Prop :=
  forall s, I s (m s).2.

(** Nothing outside the tree below the directory [p] changes. *)
Definition only_below (p : PurePath) (s s1 : FS.t) : Prop :=
  dirs_kept s s1
  /\ (dir_at s p -> forall q, ~ p `prefix_of` q -> s1 !! q = s !! q).

(** An entry that exists at [f] stays as it is. *)
Definition leaves (f : PurePath) (s s1 : FS.t) : Prop :=
  FS.lookup_node s f <> None -> s1 !! f = s !! f.

(** Inserting at [g] is among the changes that [I] admits. *)
Definition allows (I : FS.t -> FS.t -> Prop) (g : PurePath) : Prop :=
  forall (s : FS.t) (n : FS.node),
    FS.lookup_node s g <> Some FS.Dir \/ FS.is_root g = true ->
    I s (<[g := n]> s).

(** Creating the directory [g] is among the changes that [I] admits. *)
Definition allows_mkdir (I : FS.t -> FS.t -> Prop) (g : PurePath) : Prop :=
  forall (s s1 : FS.t),
    dirs_kept s s1 ->
    (forall q, ~ q `prefix_of` g \/ FS.lookup_node s q <> None -> s1 !! q = s !! q) ->
    I s s1.

Section CliVocabulary.
Context `{Cli.Collaborators}.

(** The directory of a report below the output path. *)
Definition report_dir_of (output_path : PurePath) (r : Cli.DandisetValidationReport)
    : PurePath :=
  output_path // Cli.dandiset_identifier r // Cli.dandiset_version r.

(** What [output_reports] writes to the summary before the rows. *)
Definition summary_head : string :=
  "[DANDI LinkML schema](./" +:+ Cli.dandi_linkml_schema_file_name +:+ ") "
    +:+ "(LinkML schema used in the LinkML validations)" +:+ Cli.nl
  +:+ Cli.nl
  +:+ (Cli._gen_row ((fun h => " " +:+ h +:+ " ") <$> Cli.summary_headers)
       +:+ Cli._gen_row ((fun h => Cli.dashes (String.length h + 2))
                          <$> Cli.summary_headers)).

(** The row of a report in the summary. *)
Definition summary_row (r : Cli.DandisetValidationReport) : string :=
  Cli._gen_row ((fun c => " " +:+ c +:+ " ") <$> Cli.summary_cells r).

(** The paths of the summary and of the schema below the output path. *)
Definition summary_path (output_path : PurePath) : PurePath :=
  output_path // Cli.summary_file_name.
Definition schema_path (output_path : PurePath) : PurePath :=
  output_path // Cli.dandi_linkml_schema_file_name.

(** One round of the loop of [output_reports]. *)
Definition report_step (output_path : PurePath) (r : Cli.DandisetValidationReport)
    : FS.io unit :=
  let summary_f := output_path // Cli.summary_file_name in
  let report_dir :=
    output_path // Cli.dandiset_identifier r // Cli.dandiset_version r in
  FS.mkdir report_dir true false;;
  Cli._write_data (Cli.dandiset_metadata r) Cli.dandiset_metadata_adapter
                  "metadata" report_dir;;
  Cli._write_data (Cli.pydantic_validation_errs r) Cli.pydantic_validation_errs_adapter
                  "pydantic_validation_errs" report_dir;;
  Cli._write_data (Cli.linkml_validation_errs r) Cli.linkml_validation_errs_adapter
                  "linkml_validation_errs" report_dir;;
  FS.write summary_f
    (Cli._gen_row ((fun c => " " +:+ c +:+ " ") <$> Cli.summary_cells r)).

(** The files of a report in its directory. *)
Definition report_files_of (dir_ : PurePath) (r : Cli.DandisetValidationReport)
    : list (PurePath * string) :=
  [ (dir_ ++ ["metadata.json"],
     Cli.json_dump (Cli.dandiset_metadata_adapter (Cli.dandiset_metadata r)));
    (dir_ ++ ["metadata.yaml"],
     Cli.yaml_dump (Cli.dandiset_metadata_adapter (Cli.dandiset_metadata r)));
    (dir_ ++ ["pydantic_validation_errs.json"],
     Cli.json_dump (Cli.pydantic_validation_errs_adapter (Cli.pydantic_validation_errs r)));
    (dir_ ++ ["pydantic_validation_errs.yaml"],
     Cli.yaml_dump (Cli.pydantic_validation_errs_adapter (Cli.pydantic_validation_errs r)));
    (dir_ ++ ["linkml_validation_errs.json"],
     Cli.json_dump (Cli.linkml_validation_errs_adapter (Cli.linkml_validation_errs r)));
    (dir_ ++ ["linkml_validation_errs.yaml"],
     Cli.yaml_dump (Cli.linkml_validation_errs_adapter (Cli.linkml_validation_errs r))) ].

End CliVocabulary.

(** A report whose identifier and version are single path components that
    do not lead out of a directory. *)
Definition component (x : string) : bool :=
  Pathlib.plain x && negb (String.eqb x "..").

Definition report_named (r : Cli.DandisetValidationReport) : bool :=
  component (Cli.dandiset_identifier r) && component (Cli.dandiset_version r).

(** The number of elements of a list that equal [t]. *)
Definition occurrences (t : string) (l : list string) : nat :=
  length (filter (fun t' => t' = t) l).

(** The order of the keys of a counter of sorted strings: no key folds to
    less than a key before it. *)
Definition casefold_le `{Casefold} (t1 t2 : string) : Prop :=
  Py.str_lt (casefold t2) (casefold t1) = false.

(** ** More sample data *)

(** A translator that would give another schema at every call. *)
Definition sample_linkml : Linkml :=
  {| SchemaDefinition := string;
     ValidationPlugin := bool;
     ValidationResult := string;
     translate_defs := fun n _ => Ok ("schema " +:+ Py.str_int (Z.of_nat n));
     JsonschemaValidationPlugin := fun closed => closed;
     Validator_validate := fun _ _ _ _ => [] |}.

Definition fresh_class : @validator_class sample_linkml :=
  {| _dandi_linkml_schema := None; translate_calls := 0 |}.

(** Folding the letters A to Z, which is what [str.casefold] does on
    ASCII. *)
Definition ascii_fold (c : ascii) : ascii :=
  let n := nat_of_ascii c in
  if (65 <=? n)%nat && (n <=? 90)%nat then ascii_of_nat (n + 32) else c.

Fixpoint string_fold (s : string) : string :=
  match s with
  | EmptyString => EmptyString
  | String c s' => String (ascii_fold c) (string_fold s')
  end.

Definition ascii_casefold : Casefold := {| casefold := string_fold |}.

Definition typed_err (type_ : string) : pydict :=
  [("type", Py.Str type_); ("msg", Py.Str "invalid"); ("loc", Py.List [])].

Definition sample_cli_report (id_ ver : string) : Cli.DandisetValidationReport :=
  {| Cli.dandiset_identifier := id_;
     Cli.dandiset_version := ver;
     Cli.dandiset_metadata := Py.Dict [("id", Py.Str id_)];
     Cli.pydantic_validation_errs := Py.List [];
     Cli.linkml_validation_errs := Py.List [];
     Cli.summary_cells := [id_; ver] |}.

(** A tree with two dandiset directories and a file. *)
Definition manifests_fs : FS.t :=
  list_to_map
    [ (["manifests"], FS.Dir);
      (["manifests"; "000003"], FS.Dir);
      (["manifests"; "000004"], FS.Dir);
      (["manifests"; "README"], FS.File "text");
      (["manifests"; "000003"; "draft"], FS.Dir) ].

(** An existing report directory. *)
Definition written_fs : FS.t :=
  list_to_map [ (["out"], FS.Dir); (["out"; "000003"], FS.Dir);
                (["out"; "000003"; "draft"], FS.Dir) ].

(** ** Vocabulary of the diff command *)













(** * Properties *)

(** ** Orders and sorting *)

Lemma str_lt_spec x y : Py.str_lt x y = true <-> String.le x y /\ x <> y.
Proof.
  assert (Hrefl : forall s, (s ?= s)%string = Eq).
  { intros s. pose proof (String.compare_antisym s s) as Ha.
    destruct (s ?= s)%string; simpl in Ha; congruence. }
  unfold Py.str_lt, String.ltb, String.le, String.leb.
  destruct (x ?= y)%string eqn:E; simpl.
  - apply String.compare_eq_iff in E. subst. split; [discriminate | intros [_ Hn]; congruence].
  - split; [intros _ | done]. split; [done |]. intros ->. rewrite Hrefl in E. discriminate.
  - split; [discriminate | intros [[] _]].
Qed.

Lemma str_lt_strict_total : strict_total Py.str_lt.
Proof.
  split.
  - intros x. destruct (Py.str_lt x x) eqn:E; [| done].
    apply str_lt_spec in E as [_ Hn]. congruence.
  - intros x y z [Hxy Hn1]%str_lt_spec [Hyz Hn2]%str_lt_spec.
    apply str_lt_spec. split; [by etrans |].
    intros ->. apply Hn1. by apply (anti_symm String.le).
  - intros x y. destruct (decide (x = y)) as [-> | Hn]; [auto |].
    destruct (total String.le x y).
    + left. by apply str_lt_spec.
    + right; right. apply str_lt_spec. split; [done | congruence].
Qed.

Lemma pair_lt_strict_total : strict_total Py.pair_lt.
Proof.
  destruct str_lt_strict_total as [Hi Ht Htot].
  split.
  - intros [a b]. unfold Py.pair_lt; simpl. by rewrite !Hi, andb_false_r.
  - intros [a1 b1] [a2 b2] [a3 b3]. unfold Py.pair_lt; simpl.
    intros [H1 | [->%String.eqb_eq H1]%andb_true_iff]%orb_true_iff
           [H2 | [->%String.eqb_eq H2]%andb_true_iff]%orb_true_iff;
      apply orb_true_iff.
    + left; eauto.
    + by left.
    + by left.
    + right. rewrite String.eqb_refl; simpl. eauto.
  - intros [a1 b1] [a2 b2]. unfold Py.pair_lt; simpl.
    destruct (Htot a1 a2) as [H | [-> | H]].
    + left. by rewrite H.
    + rewrite String.eqb_refl, Hi; simpl.
      destruct (Htot b1 b2) as [H | [-> | H]]; [by left | by right; left | by right; right].
    + right; right. by rewrite H.
Qed.

Lemma strs_lt_strict_total : strict_total Py.strs_lt.
Proof.
  destruct str_lt_strict_total as [Hi Ht Htot].
  split.
  - intros x. induction x as [| a x IH]; simpl; [done |].
    by rewrite Hi, IH, andb_false_r.
  - intros x. induction x as [| a x IH]; intros [| b y] [| c z]; simpl; try done.
    intros [H1 | [->%String.eqb_eq H1]%andb_true_iff]%orb_true_iff
           [H2 | [->%String.eqb_eq H2]%andb_true_iff]%orb_true_iff;
      apply orb_true_iff.
    + left; eauto.
    + by left.
    + by left.
    + right. rewrite String.eqb_refl; simpl. eauto.
  - intros x. induction x as [| a x IH]; intros [| b y]; simpl; auto.
    destruct (Htot a b) as [H | [-> | H]].
    + left. by rewrite H.
    + rewrite String.eqb_refl, Hi; simpl.
      destruct (IH y) as [H | [-> | H]]; [by left | by right; left | by right; right].
    + right; right. by rewrite H.
Qed.

Section Sorting.
Context {A : Type} (lt : A -> A -> bool).

Lemma insort_perm x l : Py.insort lt x l ≡ₚ x :: l.
Proof.
  induction l as [| y l IH]; simpl; [done |].
  destruct (lt y x); [| done].
  rewrite IH. apply Permutation_swap.
Qed.

Lemma sorted_perm l : Py.sorted lt l ≡ₚ l.
Proof.
  induction l as [| x l IH]; simpl; [done |].
  unfold Py.sorted in *; simpl. by rewrite insort_perm, IH.
Qed.

Lemma elem_of_sorted x l : x ∈ Py.sorted lt l <-> x ∈ l.
Proof. by rewrite sorted_perm. Qed.

Context (Hlt : strict_total lt).

Lemma insort_sorted x l :
  StronglySorted (fun a b => lt a b = true) l -> x ∉ l ->
  StronglySorted (fun a b => lt a b = true) (Py.insort lt x l).
Proof.
  destruct Hlt as [Hi Ht Htot].
  induction 1 as [| y l Hs IH Hall]; intros Hx; simpl.
  - repeat constructor.
  - apply not_elem_of_cons in Hx as [Hxy Hx].
    destruct (lt y x) eqn:E.
    + constructor; [by apply IH |].
      rewrite insort_perm. by constructor.
    + assert (lt x y = true) as Hxy'.
      { destruct (Htot x y) as [? | [? | ?]]; [done | done | congruence]. }
      constructor; [by constructor |].
      constructor; [done |].
      eapply Forall_impl; [exact Hall |]. simpl. eauto.
Qed.

Lemma sorted_sorted l :
  NoDup l -> StronglySorted (fun a b => lt a b = true) (Py.sorted lt l).
Proof.
  induction 1 as [| x l Hx Hnd IH]; unfold Py.sorted in *; simpl; [constructor |].
  apply insort_sorted; [done |].
  fold (Py.sorted lt l). by rewrite elem_of_sorted.
Qed.

Lemma sorted_NoDup l : NoDup l -> NoDup (Py.sorted lt l).
Proof. by rewrite sorted_perm. Qed.
End Sorting.

(** ** Paths of plain components *)

Lemma split_sep_no_sep s : Pathlib.no_sep s = true -> Pathlib.split_sep s = [s].
Proof.
  induction s as [| c s IH]; simpl; [done |].
  intros [Hc Hs]%andb_true_iff. apply negb_true_iff in Hc.
  by rewrite Hc, IH.
Qed.

Lemma plain_not_abs s : Pathlib.plain s = true -> Pathlib.starts_with_sep s = false.
Proof.
  unfold Pathlib.plain. intros [_ Hs]%andb_true_iff.
  destruct s as [| c s]; simpl in *; [done |].
  apply andb_true_iff in Hs as [Hc _]. by apply negb_true_iff.
Qed.

Lemma parse_path_plain s : Pathlib.plain s = true -> Pathlib.parse_path s = [s].
Proof.
  intros Hp. pose proof (plain_not_abs s Hp) as Hna.
  unfold Pathlib.parse_path, Pathlib.splitroot. rewrite Hna; simpl.
  apply andb_true_iff in Hp as [Hk Hs].
  rewrite split_sep_no_sep by done. simpl. by rewrite Hk.
Qed.

Lemma truediv_plain p s : Pathlib.plain s = true -> p // s = p ++ [s].
Proof.
  intros Hp. unfold truediv. by rewrite plain_not_abs, parse_path_plain.
Qed.

Lemma foldl_truediv_plain acc segs :
  Forall (fun s => Pathlib.plain s = true) segs -> foldl truediv acc segs = acc ++ segs.
Proof.
  revert acc. induction segs as [| s segs IH]; intros acc Hall; simpl.
  - by rewrite app_nil_r.
  - inversion_clear Hall as [| ? ? Hs Hall'].
    rewrite truediv_plain by done. rewrite IH by done. by rewrite <- app_assoc.
Qed.

Lemma Path_plain segs :
  Forall (fun s => Pathlib.plain s = true) segs -> Path segs = segs.
Proof. apply (foldl_truediv_plain []). Qed.

(** ** Decimal numerals *)

Lemma int_str_str_int z : Py.int_str (Py.str_int z) = Ok z.
Proof.
  unfold Py.int_str, Py.str_int.
  rewrite NilZero.isi.
  - by rewrite DecimalZ.of_to.
  - destruct z; simpl; try discriminate.
    intros [= Hp]. by apply (DecimalPos.Unsigned.to_uint_nonnil p).
  - destruct z; simpl; try discriminate.
    intros [= Hp]. by apply (DecimalPos.Unsigned.to_uint_nonnil p).
Qed.

Lemma str_int_inj z1 z2 : Py.str_int z1 = Py.str_int z2 -> z1 = z2.
Proof.
  intros Heq. pose proof (int_str_str_int z1) as H1.
  rewrite Heq, int_str_str_int in H1. congruence.
Qed.

Lemma string_of_uint_digits d :
  Pathlib.no_sep (NilEmpty.string_of_uint d) = true
  /\ (d <> Nil -> Pathlib.keep_component (NilEmpty.string_of_uint d) = true).
Proof.
  induction d as [| d [IH _] | d [IH _] | d [IH _] | d [IH _] | d [IH _]
                   | d [IH _] | d [IH _] | d [IH _] | d [IH _] | d [IH _]];
    simpl; (split; [done |]); try done.
Qed.

Lemma str_int_plain z : Pathlib.plain (Py.str_int z) = true.
Proof.
  assert (Hu : forall d, Pathlib.plain (NilZero.string_of_uint d) = true).
  { intros d. unfold NilZero.string_of_uint, Pathlib.plain.
    destruct (string_of_uint_digits d) as [Hn Hk].
    destruct d; try done; apply andb_true_iff; (split; [by apply Hk | done]). }
  unfold Py.str_int. destruct (Z.to_int z) as [d | d]; simpl; [apply Hu |].
  specialize (Hu d). unfold Pathlib.plain in *.
  apply andb_true_iff in Hu as [Hk Hs].
  apply andb_true_iff. split; [| simpl; exact Hs].
  unfold Pathlib.keep_component. simpl.
  destruct (NilZero.string_of_uint d) eqn:E; [| done].
  unfold Pathlib.keep_component in Hk. done.
Qed.

Ltac unmonad :=
  unfold mbind, mret, result_bind, result_ret, io_bind, io_ret in *.

(** ** Comprehensions that may raise *)

Lemma bind_Ok {A B} (m : Py.result A) (k : A -> Py.result B) b :
  Py.bind m k = Ok b <-> exists a, m = Ok a /\ k a = Ok b.
Proof.
  destruct m as [a | e]; simpl; split.
  - eauto.
  - intros (a' & Ha & Hk). congruence.
  - discriminate.
  - intros (a' & Ha & _). discriminate.
Qed.

Lemma bind_Raise {A B} (m : Py.result A) (k : A -> Py.result B) e :
  Py.bind m k = Raise e <-> m = Raise e \/ exists a, m = Ok a /\ k a = Raise e.
Proof.
  destruct m as [a | e']; simpl; split.
  - eauto.
  - intros [Hm | (a' & Ha & Hk)]; congruence.
  - intros [= ->]. by left.
  - intros [Hm | (a' & Ha & _)]; congruence.
Qed.

Lemma map_r_Ok {A B} (f : A -> Py.result B) (g : A -> B) l :
  (forall x, x ∈ l -> f x = Ok (g x)) -> Py.map_r f l = Ok (map g l).
Proof.
  induction l as [| x l IH]; intros Hf; simpl; [done |].
  rewrite Hf by left. simpl. rewrite IH; [done |].
  intros y Hy. apply Hf. by right.
Qed.

Lemma map_r_Raise {A B} (f : A -> Py.result B) l e :
  Py.map_r f l = Raise e -> exists x, x ∈ l /\ f x = Raise e.
Proof.
  induction l as [| x l IH]; simpl; [done |].
  intros [Hx | (y & Hy & [Hl | (ys & _ & [=])]%bind_Raise)]%bind_Raise.
  - exists x. split; [left | done].
  - destruct (IH Hl) as (z & Hz & Hfz). exists z. split; [by right | done].
Qed.

Lemma map_r_Raise_at {A B} (f : A -> Py.result B) l1 x l2 e :
  (forall y, y ∈ l1 -> exists b, f y = Ok b) -> f x = Raise e ->
  Py.map_r f (l1 ++ x :: l2) = Raise e.
Proof.
  intros Hl1 Hx. induction l1 as [| y l1 IH]; simpl.
  - by rewrite Hx.
  - destruct (Hl1 y) as [b ->]; [left |]. simpl.
    rewrite IH; [done |]. intros z Hz. apply Hl1. by right.
Qed.

Lemma map_r_Forall2 {A B} (f : A -> Py.result B) l ys :
  Py.map_r f l = Ok ys <-> Forall2 (fun x y => f x = Ok y) l ys.
Proof.
  revert ys. induction l as [| x l IH]; intros ys; simpl.
  - split; [intros [= <-]; constructor | by inversion 1].
  - split.
    + intros Hm. apply bind_Ok in Hm as (y & Hy & Hm).
      apply bind_Ok in Hm as (ys' & Hys & [= <-]).
      constructor; [done | by apply IH].
    + inversion 1 as [| ? y ? ys' Hy Hys]; subst.
      apply IH in Hys. by rewrite Hy, Hys.
Qed.

(** ** The dictionary of a comprehension *)

Lemma foldl_insert_notin {V} (items : list (PurePath * V)) (m : gmap PurePath V) k :
  k ∉ items.*1 -> foldl (fun m kv => <[kv.1 := kv.2]> m) m items !! k = m !! k.
Proof.
  revert m. induction items as [| [k' v'] items IH]; intros m Hk; simpl; [done |].
  apply not_elem_of_cons in Hk as [Hne Hk]. simpl in *.
  rewrite IH by done. by rewrite lookup_insert_ne.
Qed.

Lemma dict_of_items_last {V} (l1 l2 : list (PurePath * V)) k v :
  k ∉ l2.*1 -> dict_of_items (l1 ++ (k, v) :: l2) !! k = Some v.
Proof.
  intros Hk. unfold dict_of_items. rewrite foldl_app. simpl.
  rewrite foldl_insert_notin by done. apply lookup_insert_eq.
Qed.

Lemma foldl_insert_lookup {V} (items : list (PurePath * V)) (m : gmap PurePath V) k v :
  foldl (fun m kv => <[kv.1 := kv.2]> m) m items !! k = Some v ->
  (k, v) ∈ items \/ m !! k = Some v.
Proof.
  revert m. induction items as [| [k' v'] items IH]; intros m; simpl; [auto |].
  intros [Hin | Hm]%IH; [left; by right |].
  destruct (decide (k' = k)) as [-> | Hne].
  - rewrite lookup_insert_eq in Hm. injection Hm as ->. left. by left.
  - rewrite lookup_insert_ne in Hm by done. by right.
Qed.

Lemma dict_of_items_lookup {V} (items : list (PurePath * V)) k v :
  dict_of_items items !! k = Some v -> (k, v) ∈ items.
Proof.
  intros [? | Hm]%foldl_insert_lookup; [done |]. by rewrite lookup_empty in Hm.
Qed.

Lemma foldl_insert_dom {V} (items : list (PurePath * V)) (m : gmap PurePath V) :
  dom (foldl (fun m kv => <[kv.1 := kv.2]> m) m items) = list_to_set items.*1 ∪ dom m.
Proof.
  revert m. induction items as [| [k v] items IH]; intros m; simpl.
  - set_solver.
  - rewrite IH, dom_insert_L. set_solver.
Qed.

Lemma dict_of_items_dom {V} (items : list (PurePath * V)) :
  dom (dict_of_items items) = list_to_set items.*1.
Proof. unfold dict_of_items. rewrite foldl_insert_dom. set_solver. Qed.

(** ** Keying *)

Lemma report_key_Raise parts r e :
  report_key parts r = Raise e -> exists name, e = Py.AttributeError name.
Proof.
  unfold report_key. unmonad.
  intros [Hm | (a & _ & [=])]%bind_Raise.
  apply map_r_Raise in Hm as (p & _ & [Hg | (a & _ & [=])]%bind_Raise).
  destruct r as [v | v a | cls attrs]; simpl in Hg.
  - repeat case_match; simplify_eq; eauto.
  - repeat case_match; simplify_eq; eauto.
  - clear -Hg. induction attrs as [| [n w] attrs IH]; simpl in Hg.
    + injection Hg as <-. eauto.
    + case_match; [done | auto].
Qed.

Lemma key_items_Raise parts (reports : list report) e :
  Py.map_r (fun r => k ← report_key parts r; mret (k, r)) reports = Raise e ->
  exists name, e = Py.AttributeError name.
Proof.
  intros (r & _ & Hr)%map_r_Raise. unmonad.
  apply bind_Raise in Hr as [Hr | (a & _ & [=])].
  by eapply report_key_Raise.
Qed.

Lemma report_key_dandiset r b :
  report_base r = Some b ->
  report_key ["dandiset_identifier"; "dandiset_version"] r
  = Ok (Path [dandiset_identifier b; dandiset_version b]).
Proof. destruct r; simpl; intros [= <-]; reflexivity. Qed.

Lemma unsupported_msg_inj cls cls' :
  "Unsupported report type: " +:+ cls = "Unsupported report type: " +:+ cls' -> cls = cls'.
Proof. apply (inj (String.app "Unsupported report type: ")). Qed.

(** ** Categories and validation outcomes *)

Lemma wildcard_same_up_to_indices l1 l2 :
  same_up_to_indices l1 l2 -> map wildcard l1 = map wildcard l2.
Proof.
  induction 1 as [| a b l1 l2 Hab _ IH]; simpl; [done |].
  f_equal; [| done].
  destruct Hab as [-> | [Ha Hb]]; [done |].
  unfold wildcard. by rewrite Ha, Hb.
Qed.

(** C2. Two error representations whose location sequences (the [loc] tuple
    of a pydantic error, the [absolute_path] of a jsonschema error) differ
    only at segments that are integers on both sides, and which agree
    elsewhere, get the same category key.  In the key every integer segment
    is the token ["[*]"], every other segment is unchanged, and the order of
    the segments is kept. *)
Theorem categorizer_erases_indices
    (type_ msg : Py.value) (loc1 loc2 : list Py.value) (path1 path2 : PurePath)
    (e1 e2 : JsonschemaValidationErrorModel)
    (Hloc : same_up_to_indices loc1 loc2)
    (Hmsg : message e1 = message e2)
    (Hschema : absolute_schema_path e1 = absolute_schema_path e2)
    (Hpath : same_up_to_indices (absolute_path e1) (absolute_path e2)) :
  pydantic_err_categorizer (type_, msg, loc1, path1)
  = pydantic_err_categorizer (type_, msg, loc2, path2)
  /\ jsonschema_err_categorizer (e1, path1) = jsonschema_err_categorizer (e2, path2)
  /\ (exists cat, pydantic_err_categorizer (type_, msg, loc1, path1) = (type_, msg, cat)
        /\ length cat = length loc1
        /\ forall (i : nat) v, loc1 !! i = Some v ->
             cat !! i = Some (if Py.isinstance_int v then Py.Str "[*]" else v))
  /\ (exists cat, jsonschema_err_categorizer (e1, path1) = (absolute_schema_path e1, cat)
        /\ length cat = length (absolute_path e1)
        /\ forall (i : nat) v, absolute_path e1 !! i = Some v ->
             cat !! i = Some (if Py.isinstance_int v then Py.Str "[*]" else v)).
Proof.
  repeat split.
  - simpl. by rewrite (wildcard_same_up_to_indices _ _ Hloc).
  - unfold jsonschema_err_categorizer; simpl.
    by rewrite Hschema, (wildcard_same_up_to_indices _ _ Hpath).
  - exists (map wildcard loc1). repeat split.
    + apply length_map.
    + intros i v Hi. change (map wildcard loc1) with (wildcard <$> loc1).
      by rewrite list_lookup_fmap, Hi.
  - exists (map wildcard (absolute_path e1)). repeat split.
    + apply length_map.
    + intros i v Hi. change (map wildcard (absolute_path e1)) with (wildcard <$> absolute_path e1).
      by rewrite list_lookup_fmap, Hi.
Qed.

Lemma categorizer_erases_indices_witness :
  pydantic_err_categorizer
    (Py.Str "missing", Py.Str "Field required",
     [Py.Str "assets"; Py.Int 3; Py.Str "id"], ["000003"; "draft"])
  = (Py.Str "missing", Py.Str "Field required",
     [Py.Str "assets"; Py.Str "[*]"; Py.Str "id"])
  /\ pydantic_err_categorizer
       (Py.Str "missing", Py.Str "Field required",
        [Py.Str "assets"; Py.Int 3; Py.Str "id"], ["000003"; "draft"])
     = pydantic_err_categorizer
         (Py.Str "missing", Py.Str "Field required",
          [Py.Str "assets"; Py.Int 7; Py.Str "id"], ["000004"; "draft"])
  /\ jsonschema_err_categorizer (jerr 3, ["000003"; "draft"])
     = jsonschema_err_categorizer (jerr 7, ["000004"; "draft"]).
Proof.
  split; [reflexivity |].
  assert (Hloc : same_up_to_indices [Py.Str "assets"; Py.Int 3; Py.Str "id"]
                                    [Py.Str "assets"; Py.Int 7; Py.Str "id"]).
  { repeat first [apply Forall2_nil | apply Forall2_cons]; auto. }
  assert (Hpath : same_up_to_indices (absolute_path (jerr 3)) (absolute_path (jerr 7))).
  { repeat first [apply Forall2_nil | apply Forall2_cons]; auto. }
  pose proof (categorizer_erases_indices (Py.Str "missing") (Py.Str "Field required")
                _ _ ["000003"; "draft"] ["000004"; "draft"] (jerr 3) (jerr 7)
                Hloc eq_refl eq_refl Hpath) as (H1 & H2 & _).
  split; [exact H1 | exact H2].
Defined.

(** C6. Neither [pydantic_validate] raises when the record fails
    validation: the serialized error array of the [ValidationError] is
    returned, and the string ["[]"] is returned when validation succeeds. *)
Theorem pydantic_validate_captures_failures
    (data : pydict + string) (model : BaseModel)
    (C : Cli.Collaborators) (dandiset_metadata : pydict) :
  let outcome := match data with
                 | inl d => model_validate model d
                 | inr json => model_validate_json model json
                 end in
  (forall errs, outcome = ValidationError errs ->
                pydantic_validate data model = Ok errs)
  /\ (outcome = Validated -> pydantic_validate data model = Ok "[]")
  /\ (forall errs, model_validate Cli.Dandiset dandiset_metadata = ValidationError errs ->
                   Cli.pydantic_validate dandiset_metadata = Ok errs)
  /\ (model_validate Cli.Dandiset dandiset_metadata = Validated ->
      Cli.pydantic_validate dandiset_metadata = Ok "[]").
Proof.
  unfold pydantic_validate, Cli.pydantic_validate.
  destruct data as [d | json]; simpl;
    (repeat split; [intros errs -> | intros -> | intros errs -> | intros ->]; reflexivity).
Qed.

(** ** Dispatch on the first element *)

Ltac raise_inv :=
  repeat match goal with
    | H : Py.bind _ _ = Raise _ |- _ => apply bind_Raise in H as [H | (? & ? & H)]
    end.

Lemma lookup_attr_Raise attrs name e :
  lookup_attr attrs name = Raise e -> e = Py.AttributeError name.
Proof.
  induction attrs as [| [n w] attrs IH]; simpl; [congruence |].
  case_match; [done | auto].
Qed.

Lemma diff_getattr_Raise r name e : diff_getattr r name = Raise e -> loop_exn e.
Proof.
  destruct r; simpl.
  - repeat case_match; intros [= <-]; done.
  - repeat case_match; intros [= <-]; done.
  - intros ->%lookup_attr_Raise. done.
Qed.

Lemma path_arg_Raise v e : path_arg v = Raise e -> loop_exn e.
Proof. destruct v; simpl; intros [= <-]; simpl; auto. Qed.

Lemma diff_errs_Raise r name e : diff_errs r name = Raise e -> loop_exn e.
Proof. destruct r; simpl; intros [= <-]; done. Qed.

Lemma getitem_Raise d k e : Py.getitem d k = Raise e -> loop_exn e.
Proof.
  induction d as [| [k' v] d IH]; simpl; [by intros [= <-] |].
  case_match; [done | auto].
Qed.

Lemma pydantic_err_rep_Raise err p e : pydantic_err_rep err p = Raise e -> loop_exn e.
Proof.
  unfold pydantic_err_rep. unmonad. intros Hr. raise_inv;
    try (eapply getitem_Raise; eassumption); try discriminate.
  destruct x1; simpl in Hr; try discriminate; injection Hr as <-; simpl; auto.
Qed.

Lemma err_reps_of_Raise ip r e :
  ip = instance_path_dandiset \/ ip = instance_path_asset ->
  err_reps_of ip r = Raise e -> loop_exn e.
Proof.
  intros Hip. unfold err_reps_of. unmonad. intros Hr. raise_inv;
    try (eapply diff_errs_Raise; eassumption); try discriminate.
  - destruct Hip as [-> | ->]; unfold instance_path_dandiset, instance_path_asset in Hr;
      unmonad; raise_inv;
      try (eapply diff_getattr_Raise; eassumption);
      try (eapply path_arg_Raise; eassumption); discriminate.
  - apply map_r_Raise in Hr as (err & _ & Herr). eapply pydantic_err_rep_Raise; eassumption.
  - apply map_r_Raise in Hr as (err & _ & Herr). eapply pydantic_err_rep_Raise; eassumption.
Qed.

Lemma loop_exn_not_unsupported cls :
  ~ loop_exn (Py.TypeError ("Unsupported report type: " +:+ cls)).
Proof. simpl. intros [? | ?]; discriminate. Qed.

(** *** The representations of a list of diff reports *)

Lemma getitem_Raise_key d k e : Py.getitem d k = Raise e -> e = Py.KeyError k.
Proof.
  induction d as [| [k' v] d IH]; simpl; [by intros [= <-] |].
  destruct (String.eqb k' k); [done | exact IH].
Qed.

Lemma tuple_Raise v e : Py.tuple_ v = Raise e -> e = Py.TypeError "object is not iterable".
Proof. destruct v; simpl; by intros [= <-]. Qed.

Lemma pydantic_err_rep_ok e p :
  err_ok e = true -> pydantic_err_rep e p = Ok (rep_of p e).
Proof.
  unfold err_ok, pydantic_err_rep, rep_of, get_or_none. unmonad.
  destruct (Py.getitem e "type"); [| done].
  destruct (Py.getitem e "msg"); [| done].
  destruct (Py.getitem e "loc") as [loc |]; [| done]. simpl.
  by destruct (Py.tuple_ loc).
Qed.

Lemma pydantic_err_rep_not_ok e p :
  err_ok e = false -> exists exn, pydantic_err_rep e p = Raise exn /\ malformed_exn exn.
Proof.
  unfold err_ok, pydantic_err_rep, malformed_exn. unmonad.
  destruct (Py.getitem e "type") eqn:E1; simpl.
  2: { apply getitem_Raise_key in E1 as ->. eauto. }
  destruct (Py.getitem e "msg") eqn:E2; simpl.
  2: { apply getitem_Raise_key in E2 as ->. eauto 6. }
  destruct (Py.getitem e "loc") as [loc |] eqn:E3; simpl.
  2: { apply getitem_Raise_key in E3 as ->. eauto 6. }
  destruct (Py.tuple_ loc) eqn:E4; simpl; [done |].
  apply tuple_Raise in E4 as ->. eauto 7.
Qed.

Lemma map_rep_ok errs p :
  forallb err_ok errs = true ->
  Py.map_r (fun e => pydantic_err_rep e p) errs = Ok (rep_of p <$> errs).
Proof.
  intros Hok. apply map_r_Ok. intros e He.
  apply pydantic_err_rep_ok. rewrite forallb_forall in Hok. apply Hok.
  by apply list_elem_of_In.
Qed.

Lemma map_rep_not_ok errs p :
  forallb err_ok errs = false ->
  exists exn, Py.map_r (fun e => pydantic_err_rep e p) errs = Raise exn
              /\ malformed_exn exn.
Proof.
  induction errs as [| e errs IH]; simpl; [done |].
  destruct (err_ok e) eqn:E; simpl.
  - intros Hf. destruct (IH Hf) as (exn & -> & Hexn).
    rewrite (pydantic_err_rep_ok _ _ E). simpl. eauto.
  - intros _. destruct (pydantic_err_rep_not_ok e p E) as (exn & -> & Hexn).
    simpl. eauto.
Qed.

Section ErrRepsOfList.
Context {R : Type} (wrap : R -> diff_report)
        (core : R -> _DandiValidationDiffReport) (path : R -> PurePath)
        (ip : diff_report -> Py.result PurePath).
Context (Hcore : forall r name, diff_errs (wrap r) name = Ok (core r)).
Context (Hpath : forall r, ip (wrap r) = Ok (path r)).

Lemma err_reps_of_wrapped r :
  err_reps_of ip (wrap r)
  = if errs_ok (core r)
    then Ok (rep_of (path r) <$> pydantic_validation_errs1 (core r),
             rep_of (path r) <$> pydantic_validation_errs2 (core r),
             (fun e => (e, path r)) <$> jsonschema_validation_errs1 (core r),
             (fun e => (e, path r)) <$> jsonschema_validation_errs2 (core r))
    else err_reps_of ip (wrap r).
Proof.
  unfold errs_ok. destruct (forallb err_ok (pydantic_validation_errs1 (core r))) eqn:E1;
    [| done].
  destruct (forallb err_ok (pydantic_validation_errs2 (core r))) eqn:E2; [| done].
  simpl. unfold err_reps_of. unmonad. rewrite Hpath. simpl.
  rewrite !Hcore. simpl. rewrite (map_rep_ok _ _ E1). simpl.
  by rewrite (map_rep_ok _ _ E2).
Qed.

Lemma err_reps_of_malformed r :
  errs_ok (core r) = false ->
  exists exn, err_reps_of ip (wrap r) = Raise exn /\ malformed_exn exn.
Proof.
  unfold errs_ok, err_reps_of. unmonad. rewrite Hpath. simpl. rewrite !Hcore. simpl.
  destruct (forallb err_ok (pydantic_validation_errs1 (core r))) eqn:E1; simpl.
  - intros E2. rewrite (map_rep_ok _ _ E1). simpl.
    destruct (map_rep_not_ok _ (path r) E2) as (exn & -> & Hexn). simpl. eauto.
  - intros _. destruct (map_rep_not_ok _ (path r) E1) as (exn & -> & Hexn).
    simpl. eauto.
Qed.

Lemma map_err_reps_of rs :
  forallb (fun r => errs_ok (core r)) rs = true ->
  Py.map_r (err_reps_of ip) (wrap <$> rs)
  = Ok ((fun r => (rep_of (path r) <$> pydantic_validation_errs1 (core r),
                   rep_of (path r) <$> pydantic_validation_errs2 (core r),
                   (fun e => (e, path r)) <$> jsonschema_validation_errs1 (core r),
                   (fun e => (e, path r)) <$> jsonschema_validation_errs2 (core r)))
        <$> rs).
Proof.
  induction rs as [| r rs IH]; [done |]. simpl.
  intros [Hr Hrs]%andb_true_iff. rewrite err_reps_of_wrapped, Hr. simpl.
  change (list_fmap R diff_report wrap rs) with (wrap <$> rs).
  by rewrite (IH Hrs).
Qed.

Lemma map_err_reps_of_malformed rs :
  forallb (fun r => errs_ok (core r)) rs = false ->
  exists exn, Py.map_r (err_reps_of ip) (wrap <$> rs) = Raise exn /\ malformed_exn exn.
Proof.
  induction rs as [| r rs IH]; [done |]. simpl.
  destruct (errs_ok (core r)) eqn:Hr; simpl.
  - intros Hrs. rewrite err_reps_of_wrapped, Hr. simpl.
    change (list_fmap R diff_report wrap rs) with (wrap <$> rs).
    destruct (IH Hrs) as (exn & -> & Hexn). simpl. eauto.
  - intros _. destruct (err_reps_of_malformed r Hr) as (exn & -> & Hexn). simpl. eauto.
Qed.

Lemma bind_Ok_l {A B} (a : A) (k : A -> Py.result B) : Py.bind (Ok a) k = k a.
Proof. done. Qed.

Lemma concat_fmap_flat {A B} (f : A -> list B) (l : list A) :
  concat (f <$> l) = flat_map f l.
Proof. induction l as [| x l IH]; [done |]. simpl. by rewrite <- IH. Qed.

Lemma err_reps_wrapped rs :
  (forall r0, head rs = Some r0 -> select_instance_path (wrap r0) = Ok ip) ->
  forallb (fun r => errs_ok (core r)) rs = true ->
  err_reps (wrap <$> rs) = Ok (reps_of core path rs).
Proof.
  intros Hhd Hok. destruct rs as [| r0 rs]; [done |].
  pose proof (Hhd r0 eq_refl) as Hsel.
  pose proof (map_err_reps_of _ Hok) as Hm.
  unfold err_reps. rewrite fmap_cons in *. unmonad.
  rewrite Hsel, bind_Ok_l, Hm, bind_Ok_l.
  unfold reps_of. rewrite <- !list_fmap_compose.
  by rewrite <- !concat_fmap_flat.
Qed.

Lemma err_reps_wrapped_malformed rs :
  (forall r0, head rs = Some r0 -> select_instance_path (wrap r0) = Ok ip) ->
  forallb (fun r => errs_ok (core r)) rs = false ->
  exists exn, err_reps (wrap <$> rs) = Raise exn /\ malformed_exn exn.
Proof.
  intros Hhd Hbad. destruct rs as [| r0 rs]; [done |].
  pose proof (Hhd r0 eq_refl) as Hsel.
  destruct (map_err_reps_of_malformed _ Hbad) as (exn & Hm & Hexn).
  unfold err_reps. rewrite fmap_cons in *. unmonad.
  rewrite Hsel, bind_Ok_l, Hm. simpl. eauto.
Qed.

End ErrRepsOfList.

Lemma instance_path_asset_ok d :
  instance_path_asset (AssetDiffObj d) = Ok (asset_diff_key d).
Proof. done. Qed.

Lemma err_reps_of_asset_scheme_on_dandiset d :
  err_reps_of instance_path_asset (DandisetDiffObj d) = Raise (Py.AttributeError "asset_idx").
Proof. done. Qed.

(** C9, as amended.  [_key_reports] and [err_reps] choose the keying scheme
    from the first element alone: the unsupported-type error is raised exactly
    when the collection is not empty and its first element is neither a
    dandiset-level nor an asset-level report.  After a dandiset-level first
    element every supported element is keyed by identifier and version,
    without raising, and [err_reps] gives every representation, those of
    asset-level elements included, the two-part path; after an asset-level
    first element the three-part scheme is applied to every element, and a
    dandiset-level element, which has no asset index, raises an attribute
    error in both functions. *)
Theorem dispatch_inspects_first_element :
  (forall reports cls,
      _key_reports reports = Raise (Py.ValueError ("Unsupported report type: " +:+ cls))
      <-> exists attrs rest, reports = Object cls attrs :: rest)
  /\ (forall rs cls,
      err_reps rs = Raise (Py.TypeError ("Unsupported report type: " +:+ cls))
      <-> exists attrs rest, rs = OtherDiffObj cls attrs :: rest)
  /\ (forall v rest,
      forallb supported rest = true ->
      _key_reports (DandisetValidationReport v :: rest)
      = Ok (dict_of_items
              ((fun r => (dandiset_key r, r)) <$> (DandisetValidationReport v :: rest))))
  /\ (forall v a l1 v' l2,
      forallb is_asset l1 = true ->
      _key_reports (AssetValidationReport v a :: l1 ++ DandisetValidationReport v' :: l2)
      = Raise (Py.AttributeError "asset_idx"))
  /\ (forall d r b,
      diff_report_base r = Some b ->
      select_instance_path (DandisetDiffObj d) = Ok instance_path_dandiset
      /\ instance_path_dandiset r = Ok (Path [dandiset_identifier b; dandiset_version b]))
  /\ (forall a d,
      select_instance_path (AssetDiffObj a) = Ok instance_path_asset
      /\ instance_path_asset (DandisetDiffObj d) = Raise (Py.AttributeError "asset_idx"))
  /\ (forall d rest,
      forallb (fun r => errs_ok (diff_core r)) (inl d :: rest) = true ->
      err_reps (diff_obj <$> inl d :: rest)
      = Ok (reps_of diff_core (fun r => dandiset_diff_path (diff_core r))
                    (inl d :: rest)))
  /\ (forall a rest,
      forallb (fun r => errs_ok (asset_diff r)) (a :: rest) = true ->
      err_reps (AssetDiffObj <$> a :: rest)
      = Ok (reps_of asset_diff asset_diff_key (a :: rest)))
  /\ (forall a l1 d l2,
      forallb (fun r => errs_ok (asset_diff r)) (a :: l1) = true ->
      err_reps ((AssetDiffObj <$> a :: l1) ++ DandisetDiffObj d :: l2)
      = Raise (Py.AttributeError "asset_idx")).
Proof.
  split; [| split; [| split; [| split; [| split; [| split; [| split; [| split]]]]]]].
  - intros reports cls. split.
    + destruct reports as [| r0 rest]; [done |].
      unfold _key_reports. unmonad.
      intros [Hr | (parts & _ & [Hr | (? & _ & [=])]%bind_Raise)]%bind_Raise.
      * destruct r0 as [v | v a | cls' attrs]; simpl in Hr; try discriminate.
        injection Hr as Hr. apply (inj (String.app EmptyString)) in Hr. subst. by exists attrs, rest.
      * apply key_items_Raise in Hr as [? [=]].
    + intros (attrs & rest & ->). reflexivity.
  - intros rs cls. split.
    + destruct rs as [| r0 rest]; [done |].
      unfold err_reps. unmonad.
      intros [Hr | (ip & Hip & [Hr | (? & _ & [=])]%bind_Raise)]%bind_Raise.
      * destruct r0 as [d | d | cls' attrs]; simpl in Hr; try discriminate.
        injection Hr as Hr. apply (inj (String.app EmptyString)) in Hr. subst. by exists attrs, rest.
      * apply map_r_Raise in Hr as (r & _ & Hr).
        apply err_reps_of_Raise in Hr.
        -- by apply loop_exn_not_unsupported in Hr.
        -- destruct r0; simpl in Hip; simplify_eq; auto.
    + intros (attrs & rest & ->). reflexivity.
  - intros v rest Hrest. unfold _key_reports. unmonad. simpl key_parts. cbv beta iota.
    unfold Py.bind at 1.
    rewrite (map_r_Ok _ (fun r => (dandiset_key r, r))); [done |].
    intros r Hr. assert (supported r = true) as Hs.
    { apply elem_of_cons in Hr as [-> | Hr]; [done |].
      rewrite forallb_forall in Hrest. apply Hrest. by apply list_elem_of_In. }
    destruct r as [w | w b | ? ?]; [| | done];
      unfold dandiset_key; simpl report_base;
      by erewrite report_key_dandiset.
  - intros v a l1 v' l2 Hl1. unfold _key_reports. unmonad. simpl key_parts.
    unfold Py.bind at 1. rewrite app_comm_cons.
    rewrite (map_r_Raise_at _ (AssetValidationReport v a :: l1) _ l2
               (Py.AttributeError "asset_idx")); [done | | done].
    intros r Hr. assert (is_asset r = true) as Hs.
    { apply elem_of_cons in Hr as [-> | Hr]; [done |].
      rewrite forallb_forall in Hl1. apply Hl1. by apply list_elem_of_In. }
    destruct r; try done. eauto.
  - intros d r b Hb. split; [done |].
    destruct r; simpl in Hb; simplify_eq; reflexivity.
  - intros a d. split; reflexivity.
  - intros d rest Hok.
    apply (err_reps_wrapped diff_obj diff_core
             (fun r => dandiset_diff_path (diff_core r)) instance_path_dandiset);
      [by intros [] | by intros [] | by intros ? [= <-] | done].
  - intros a rest Hok.
    apply (err_reps_wrapped AssetDiffObj asset_diff asset_diff_key instance_path_asset);
      [done | done | by intros ? [= <-] | done].
  - intros a l1 d l2 Hok.
    pose proof (map_err_reps_of AssetDiffObj asset_diff asset_diff_key
                  instance_path_asset (fun _ _ => eq_refl) (fun _ => eq_refl)
                  (a :: l1) Hok) as Hm.
    rewrite fmap_cons in *. cbn [app]. unfold err_reps. unmonad.
    cbn [select_instance_path]. rewrite bind_Ok_l. rewrite app_comm_cons.
    change (AssetDiffObj a :: (AssetDiffObj <$> l1)) with (AssetDiffObj <$> a :: l1).
    rewrite (map_r_Raise_at _ (AssetDiffObj <$> a :: l1) (DandisetDiffObj d) l2
               (Py.AttributeError "asset_idx")); [done | | done].
    intros y Hy. apply map_r_Forall2 in Hm.
    apply list_elem_of_lookup in Hy as (i & Hi).
    destruct (Forall2_lookup_l _ _ _ _ _ Hm Hi) as (b & _ & Hb). eauto.
Qed.

(** C10. When two reports of a collection have the same key path, and every
    report of the collection can be keyed, [_key_reports] raises nothing and
    the mapping holds the later of them under that key. *)
Theorem key_reports_later_report_wins
    (reports : list report) (r0 : report) (parts : list string)
    (i j : nat) (ri rj : report) (k : PurePath)
    (Hhd : head reports = Some r0)
    (Hparts : key_parts r0 = Ok parts)
    (Hkeys : forall r, r ∈ reports -> exists k', report_key parts r = Ok k')
    (Hij : (i < j)%nat)
    (Hi : reports !! i = Some ri)
    (Hj : reports !! j = Some rj)
    (Hki : report_key parts ri = Ok k)
    (Hkj : report_key parts rj = Ok k)
    (Hlast : forall j' rj', (j < j')%nat -> reports !! j' = Some rj' ->
                            report_key parts rj' <> Ok k) :
  exists m, _key_reports reports = Ok m /\ m !! k = Some rj.
Proof.
  set (keyf := fun r => match report_key parts r with Ok k' => k' | Raise _ => [] end).
  assert (Hitems : Py.map_r (fun r => k ← report_key parts r; mret (k, r)) reports
                   = Ok (map (fun r => (keyf r, r)) reports)).
  { apply map_r_Ok. intros r Hr. destruct (Hkeys r Hr) as [k' Hk'].
    unfold keyf. by rewrite Hk'. }
  exists (dict_of_items (map (fun r => (keyf r, r)) reports)). split.
  - destruct reports as [| r0' rest]; [done |]. simpl in Hhd. injection Hhd as ->.
    unfold _key_reports. unmonad. rewrite Hparts.
    unfold Py.bind at 1. cbv beta. by rewrite Hitems.
  - rewrite <- (take_drop_middle reports j rj Hj), map_app. simpl.
    replace (keyf rj) with k by (unfold keyf; by rewrite Hkj).
    apply dict_of_items_last.
    intros ((k' & r) & Heq & Hin)%list_elem_of_fmap. simpl in Heq. subst k'.
    apply list_elem_of_fmap in Hin as (r' & [= Hk Hr] & Hr'). subst r'.
    apply list_elem_of_lookup in Hr' as [n Hn]. rewrite lookup_drop in Hn.
    destruct (Hkeys r) as [k' Hk']; [by eapply list_elem_of_lookup_2 |].
    apply (Hlast (S j + n)%nat r); [lia | done |].
    unfold keyf in Hk. rewrite Hk' in Hk. by subst.
Qed.

(** ** The diff builders *)

Lemma elem_of_entries reports k :
  k ∈ get_validation_reports_entries reports <-> is_Some (dandiset_report_at reports k).
Proof.
  unfold get_validation_reports_entries, dandiset_report_at.
  rewrite elem_of_list_to_set, list_elem_of_In, in_flat_map. split.
  - intros ([id_ vers] & Hin & Hk). simpl in *.
    apply list_elem_of_In, elem_of_map_to_list in Hin.
    apply list_elem_of_In, list_elem_of_fmap in Hk as (ver & -> & Hver).
    apply elem_of_elements, elem_of_dom in Hver. simpl. by rewrite Hin.
  - destruct k as [id_ ver]. simpl. intros [r Hr].
    destruct (reports !! id_) as [vers |] eqn:Hid; [| done]. simpl in Hr.
    exists (id_, vers). split.
    + by apply list_elem_of_In, elem_of_map_to_list.
    + apply list_elem_of_In, list_elem_of_fmap. exists ver. split; [done |].
      apply elem_of_elements, elem_of_dom. eauto.
Qed.

Lemma lookup_default_report (reports : DandisetValidationReportsType) id_ ver :
  default ∅ (reports !! id_) !! ver = dandiset_report_at reports (id_, ver).
Proof.
  unfold dandiset_report_at. simpl. destruct (reports !! id_); simpl; [done |].
  apply lookup_empty.
Qed.

Lemma list_truthy_spec {A} (l : list A) : Py.list_truthy l = true <-> l <> [].
Proof. destruct l; simpl; split; congruence. Qed.

Lemma any_errs_side r1 r2 :
  any_errs (side_errs r1).1 (side_errs r2).1 (side_errs r1).2 (side_errs r2).2 = true
  <-> (exists r, r1 = Some r /\ has_errors r) \/ (exists r, r2 = Some r /\ has_errors r).
Proof.
  unfold any_errs, has_errors. rewrite !orb_true_iff, !list_truthy_spec.
  destruct r1 as [r1 |], r2 as [r2 |]; simpl; split.
  all: try (intros [[[? | ?] | ?] | ?]; try done; eauto 6).
  all: intros [(r & [= <-] & [? | ?]) | (r & [= <-] & [? | ?])]; tauto || eauto.
Qed.

Section DiffBuilder.
Context `{Jsondiff}.

Lemma dandiset_diff_entry_spec reports1 reports2 k :
  let r1 := dandiset_report_at reports1 k in
  let r2 := dandiset_report_at reports2 k in
  dandiset_diff_entry reports1 reports2 k
  = if any_errs (side_errs r1).1 (side_errs r2).1 (side_errs r1).2 (side_errs r2).2
    then Some (mk_diff_report k.1 k.2 (side_errs r1).1 (side_errs r2).1
                 (side_errs r1).2 (side_errs r2).2)
    else None.
Proof.
  destruct k as [id_ ver]. unfold dandiset_diff_entry.
  rewrite !lookup_default_report. simpl.
  destruct (side_errs (dandiset_report_at reports1 (id_, ver))) as [p1 j1].
  destruct (side_errs (dandiset_report_at reports2 (id_, ver))) as [p2 j2].
  simpl. by destruct (any_errs p1 p2 j1 j2).
Qed.

Lemma elem_of_dandiset_entries reports1 reports2 k :
  k ∈ dandiset_entries reports1 reports2
  <-> k ∈ get_validation_reports_entries reports1
          ∪ get_validation_reports_entries reports2.
Proof. unfold dandiset_entries. by rewrite elem_of_sorted, elem_of_elements. Qed.

Lemma dandiset_diff_reports_elem reports1 reports2 d :
  d ∈ _dandiset_validation_diff_reports reports1 reports2
  <-> exists k, k ∈ dandiset_entries reports1 reports2
                /\ dandiset_diff_entry reports1 reports2 k = Some d.
Proof. unfold _dandiset_validation_diff_reports. by rewrite list_elem_of_omap. Qed.

Lemma dandiset_diff_entry_key reports1 reports2 k d :
  dandiset_diff_entry reports1 reports2 k = Some d -> diff_key d = k.
Proof.
  rewrite dandiset_diff_entry_spec. simpl. case_match; [| done].
  intros [= <-]. by destruct k.
Qed.

Lemma dandiset_keys_spec reports1 reports2 k :
  k ∈ diff_key <$> _dandiset_validation_diff_reports reports1 reports2
  <-> k ∈ get_validation_reports_entries reports1
          ∪ get_validation_reports_entries reports2
      /\ (has_errors_at reports1 k \/ has_errors_at reports2 k).
Proof.
  rewrite list_elem_of_fmap. split.
  - intros (d & -> & (k' & Hk & Hd)%dandiset_diff_reports_elem).
    pose proof (dandiset_diff_entry_key _ _ _ _ Hd) as ->.
    split; [by apply elem_of_dandiset_entries |].
    rewrite dandiset_diff_entry_spec in Hd. simpl in Hd.
    case_match eqn:Hany; [| done]. apply any_errs_side in Hany.
    unfold has_errors_at. naive_solver.
  - intros [Hk Herr].
    assert (Hany : any_errs
              (side_errs (dandiset_report_at reports1 k)).1
              (side_errs (dandiset_report_at reports2 k)).1
              (side_errs (dandiset_report_at reports1 k)).2
              (side_errs (dandiset_report_at reports2 k)).2 = true).
    { apply any_errs_side. unfold has_errors_at in Herr. naive_solver. }
    pose proof (dandiset_diff_entry_spec reports1 reports2 k) as Hd.
    simpl in Hd. rewrite Hany in Hd.
    eexists. split; [symmetry; by eapply dandiset_diff_entry_key |].
    apply dandiset_diff_reports_elem. exists k. split; [| done].
    by apply elem_of_dandiset_entries.
Qed.
End DiffBuilder.

Lemma for_append_Ok {A B} (body : A -> Py.result (option B)) (g : A -> option B) l :
  (forall x, x ∈ l -> body x = Ok (g x)) -> Py.for_append body l = Ok (omap g l).
Proof.
  induction l as [| x l IH]; intros Hb; simpl; [done |].
  rewrite Hb by left. simpl. rewrite IH.
  - simpl. by destruct (g x).
  - intros y Hy. apply Hb. by right.
Qed.

Lemma report_key_asset r :
  asset_ok r = true ->
  report_key ["dandiset_identifier"; "dandiset_version"; "asset_idx"] r = Ok (asset_key r).
Proof.
  destruct r as [v | v a | ? ?]; simpl; try done.
  intros [Hi Hv]%andb_true_iff. unfold report_key. simpl. unmonad. simpl.
  f_equal. apply Path_plain. repeat constructor; try done. apply str_int_plain.
Qed.

Lemma key_reports_assets reports :
  forallb asset_ok reports = true ->
  _key_reports reports = Ok (dict_of_items ((fun r => (asset_key r, r)) <$> reports)).
Proof.
  intros Hok. destruct reports as [| r0 rest]; [done |].
  unfold _key_reports. unmonad.
  assert (key_parts r0 = Ok ["dandiset_identifier"; "dandiset_version"; "asset_idx"]) as ->.
  { simpl in Hok. apply andb_true_iff in Hok as [H0 _]. by destruct r0. }
  unfold Py.bind at 1. cbv beta.
  rewrite (map_r_Ok _ (fun r => (asset_key r, r))); [done |].
  intros r Hr. rewrite report_key_asset; [done |].
  rewrite forallb_forall in Hok. apply Hok. by apply list_elem_of_In.
Qed.

Lemma keyed_ok_dict reports :
  forallb asset_ok reports = true ->
  keyed_ok (dict_of_items ((fun r => (asset_key r, r)) <$> reports)).
Proof.
  intros Hok k r Hr. apply dict_of_items_lookup in Hr.
  apply list_elem_of_fmap in Hr as (r' & [= -> <-] & Hin).
  split; [| done]. rewrite forallb_forall in Hok. apply Hok. by apply list_elem_of_In.
Qed.

Lemma side_errs_obj_ok r :
  (forall r', r = Some r' -> asset_ok r' = true) ->
  side_errs_obj r = Ok (side_of r).
Proof.
  destruct r as [r |]; [| done]. intros Hok. specialize (Hok r eq_refl).
  by destruct r.
Qed.

Section AssetBuilder.
Context `{Jsondiff}.

Lemma asset_diff_entry_spec rs1 rs2 k :
  keyed_ok rs1 -> keyed_ok rs2 -> k ∈ dom rs1 ∪ dom rs2 ->
  let s1 := side_of (rs1 !! k) in
  let s2 := side_of (rs2 !! k) in
  exists o, asset_diff_entry rs1 rs2 k = Ok o
    /\ if any_errs s1.1 s2.1 s1.2 s2.2
       then exists d id_ ver,
              o = Some d /\ asset_diff_key d = k
              /\ asset_diff d = mk_diff_report id_ ver s1.1 s2.1 s1.2 s2.2
       else o = None.
Proof.
  intros Hk1 Hk2 Hk s1 s2. unfold asset_diff_entry. unmonad.
  rewrite (side_errs_obj_ok (rs1 !! k)) by (intros r Hr; by apply (Hk1 k)).
  rewrite (side_errs_obj_ok (rs2 !! k)) by (intros r Hr; by apply (Hk2 k)).
  simpl. fold s1 s2. destruct s1 as [p1 j1], s2 as [p2 j2]. simpl.
  destruct (any_errs p1 p2 j1 j2); simpl; [| eauto].
  assert (exists r, (rs1 !! k = Some r \/ (rs1 !! k = None /\ rs2 !! k = Some r))
                    /\ asset_ok r = true /\ asset_key r = k) as (r & Hr & Hok & Hkey).
  { destruct (rs1 !! k) as [r |] eqn:E1.
    - exists r. destruct (Hk1 k r E1). auto.
    - apply elem_of_union in Hk as [Hd | Hd]; apply elem_of_dom in Hd as [r Hr];
        [congruence |].
      exists r. destruct (Hk2 k r Hr). auto. }
  destruct r as [v | v a | ? ?]; try done. simpl in Hok, Hkey.
  apply andb_true_iff in Hok as [Hi Hv].
  assert (first_attr get_asset_id "asset_id" (rs1 !! k) (rs2 !! k) = Ok (asset_id a)
          /\ first_attr get_asset_path "asset_path" (rs1 !! k) (rs2 !! k)
             = Ok (asset_path a)) as [-> ->].
  { destruct Hr as [-> | [-> ->]]; done. }
  simpl. subst k. simpl. rewrite int_str_str_int. simpl.
  eexists. split; [done |]. do 3 eexists. split; [done |]. split; [| done].
  unfold asset_diff_key. simpl. apply Path_plain.
  repeat constructor; try done. apply str_int_plain.
Qed.

Lemma asset_diff_reports_ok reports1 reports2 :
  forallb asset_ok reports1 = true -> forallb asset_ok reports2 = true ->
  exists rs1 rs2 g,
    _key_reports reports1 = Ok rs1 /\ _key_reports reports2 = Ok rs2
    /\ keyed_ok rs1 /\ keyed_ok rs2
    /\ (forall k, k ∈ asset_entries rs1 rs2 -> asset_diff_entry rs1 rs2 k = Ok (g k))
    /\ _asset_validation_diff_reports reports1 reports2
       = Ok (omap g (asset_entries rs1 rs2)).
Proof.
  intros Hok1 Hok2.
  pose proof (key_reports_assets _ Hok1) as Hrs1.
  pose proof (key_reports_assets _ Hok2) as Hrs2.
  pose proof (keyed_ok_dict _ Hok1) as Hk1.
  pose proof (keyed_ok_dict _ Hok2) as Hk2.
  set (rs1 := dict_of_items ((fun r => (asset_key r, r)) <$> reports1)) in *.
  set (rs2 := dict_of_items ((fun r => (asset_key r, r)) <$> reports2)) in *.
  set (g := fun k => match asset_diff_entry rs1 rs2 k with
                     | Ok o => o
                     | Raise _ => None
                     end).
  assert (Hg : forall k, k ∈ asset_entries rs1 rs2 ->
                         asset_diff_entry rs1 rs2 k = Ok (g k)).
  { intros k Hk. unfold asset_entries in Hk.
    rewrite elem_of_sorted, elem_of_elements in Hk.
    destruct (asset_diff_entry_spec rs1 rs2 k Hk1 Hk2 Hk) as (o & Ho & _).
    unfold g. by rewrite Ho. }
  exists rs1, rs2, g. do 5 (split; [done |]).
  unfold _asset_validation_diff_reports. unmonad. rewrite Hrs1, Hrs2. simpl.
  by apply for_append_Ok.
Qed.

Lemma asset_keys_spec rs1 rs2 g k :
  keyed_ok rs1 -> keyed_ok rs2 ->
  (forall k, k ∈ asset_entries rs1 rs2 -> asset_diff_entry rs1 rs2 k = Ok (g k)) ->
  k ∈ asset_diff_key <$> omap g (asset_entries rs1 rs2)
  <-> k ∈ dom rs1 ∪ dom rs2 /\ (has_errors_under rs1 k \/ has_errors_under rs2 k).
Proof.
  intros Hk1 Hk2 Hg.
  assert (Hent : forall k, k ∈ asset_entries rs1 rs2 <-> k ∈ dom rs1 ∪ dom rs2).
  { intros k'. unfold asset_entries. by rewrite elem_of_sorted, elem_of_elements. }
  assert (Hunder : forall k,
    any_errs (side_of (rs1 !! k)).1 (side_of (rs2 !! k)).1
             (side_of (rs1 !! k)).2 (side_of (rs2 !! k)).2 = true
    <-> has_errors_under rs1 k \/ has_errors_under rs2 k).
  { intros k'. unfold side_of. rewrite any_errs_side. unfold has_errors_under.
    split.
    - intros [(v & Hv & He) | (v & Hv & He)];
        apply bind_Some in Hv as (r & Hr & Hv); [left | right]; eauto.
    - intros [(r & v & Hr & Hv & He) | (r & v & Hr & Hv & He)]; [left | right];
        exists v; (split; [| done]); rewrite Hr; done. }
  rewrite list_elem_of_fmap. split.
  - intros (d & -> & (k' & Hk' & Hd)%list_elem_of_omap).
    pose proof Hk' as Hin%Hent.
    destruct (asset_diff_entry_spec rs1 rs2 k' Hk1 Hk2 Hin) as (o & Ho & Hspec).
    rewrite (Hg k' Hk') in Ho. injection Ho as <-. simpl in Hspec.
    destruct (any_errs _ _ _ _) eqn:Hany; [| congruence].
    destruct Hspec as (d' & id_ & ver & Hd' & Hkey & _).
    rewrite Hd in Hd'. injection Hd' as <-. rewrite Hkey.
    split; [done |]. by apply Hunder.
  - intros [Hin Herr]. apply Hunder in Herr.
    destruct (asset_diff_entry_spec rs1 rs2 k Hk1 Hk2 Hin) as (o & Ho & Hspec).
    simpl in Hspec. rewrite Herr in Hspec.
    destruct Hspec as (d & id_ & ver & -> & Hkey & _).
    exists d. split; [done |]. apply list_elem_of_omap. exists k.
    split; [by apply Hent |]. rewrite (Hg k) in Ho by (by apply Hent). congruence.
Qed.
End AssetBuilder.

Lemma omap_key_sublist {A B} (f : A -> option B) (key : B -> A) l :
  (forall x y, x ∈ l -> f x = Some y -> key y = x) ->
  key <$> omap f l `sublist_of` l.
Proof.
  induction l as [| x l IH]; intros Hk; simpl; [done |].
  assert (key <$> omap f l `sublist_of` l) as IH'.
  { apply IH. intros y z Hy. apply Hk. by right. }
  destruct (f x) as [y |] eqn:E; simpl.
  - rewrite (Hk x y) by (done || left). by apply sublist_skip.
  - by apply sublist_cons.
Qed.

(** *** What a collection holds for a key *)

Lemma dict_of_items_snoc {V} (items : list (PurePath * V)) k v :
  dict_of_items (items ++ [(k, v)]) = <[k := v]> (dict_of_items items).
Proof. unfold dict_of_items. by rewrite foldl_snoc. Qed.

Lemma keyed_lookup_last (key : report -> PurePath) (reports : list report) k :
  dict_of_items ((fun r => (key r, r)) <$> reports) !! k
  = last (filter (fun r => key r = k) reports).
Proof.
  induction reports as [| r reports IH] using rev_ind; [done |].
  rewrite fmap_app, filter_app. cbn [fmap list_fmap].
  rewrite dict_of_items_snoc, filter_cons, filter_nil.
  destruct (decide (key r = k)) as [<- | Hne].
  - by rewrite lookup_insert_eq, last_snoc.
  - by rewrite lookup_insert_ne, app_nil_r.
Qed.

Lemma last_elem_of {A} (l : list A) x : last l = Some x -> x ∈ l.
Proof.
  destruct l as [| y l] using rev_ind; [done |].
  rewrite last_snoc. intros [= ->]. apply elem_of_app. right. left.
Qed.

Lemma asset_report_at_elem reports k r :
  asset_report_at reports k = Some r -> r ∈ reports /\ asset_key r = k.
Proof.
  intros Hr%last_elem_of. by apply list_elem_of_filter in Hr as [? ?].
Qed.

Lemma asset_report_at_is_Some reports k :
  is_Some (asset_report_at reports k) <-> exists r, r ∈ reports /\ asset_key r = k.
Proof.
  split.
  - intros [r Hr]. exists r. by apply asset_report_at_elem.
  - intros (r & Hr & Hk). unfold asset_report_at.
    assert (r ∈ filter (fun r => asset_key r = k) reports) as Hin
        by by apply list_elem_of_filter.
    destruct (filter (fun r => asset_key r = k) reports) as [| y l] using rev_ind.
    + by apply elem_of_nil in Hin.
    + rewrite last_snoc. by eexists.
Qed.

Lemma key_reports_lookup reports :
  forallb asset_ok reports = true ->
  exists rs, _key_reports reports = Ok rs /\ keyed_ok rs
             /\ forall k, rs !! k = asset_report_at reports k.
Proof.
  intros Hok. eexists. split; [by apply key_reports_assets |].
  split; [by apply keyed_ok_dict |]. intros k. apply keyed_lookup_last.
Qed.

Lemma has_errors_under_in (rs : gmap PurePath report) reports k :
  (forall k, rs !! k = asset_report_at reports k) ->
  has_errors_under rs k <-> has_errors_in reports k.
Proof. intros Hrs. unfold has_errors_under, has_errors_in. by rewrite Hrs. Qed.

Lemma elem_of_asset_entries (rs1 rs2 : gmap PurePath report) reports1 reports2 k :
  (forall k, rs1 !! k = asset_report_at reports1 k) ->
  (forall k, rs2 !! k = asset_report_at reports2 k) ->
  k ∈ asset_entries rs1 rs2
  <-> exists r, r ∈ reports1 ++ reports2 /\ asset_key r = k.
Proof.
  intros H1 H2. unfold asset_entries.
  rewrite elem_of_sorted, elem_of_elements, elem_of_union, !elem_of_dom, H1, H2.
  rewrite !asset_report_at_is_Some. setoid_rewrite elem_of_app. naive_solver.
Qed.

Lemma sublist_StronglySorted {A} (R : A -> A -> Prop) (l1 l2 : list A) :
  l1 `sublist_of` l2 -> StronglySorted R l2 -> StronglySorted R l1.
Proof.
  induction 1 as [| x l1 l2 Hsub IH | x l1 l2 Hsub IH]; intros Hs; [done | |].
  - apply StronglySorted_inv in Hs as [Hs Hall]. constructor; [by apply IH |].
    apply Forall_forall. intros y Hy. rewrite Forall_forall in Hall.
    apply Hall. by eapply elem_of_sublist.
  - apply StronglySorted_inv in Hs as [Hs _]. by apply IH.
Qed.

Section Builders.
Context `{Jsondiff}.

Lemma asset_diff_entry_at (rs1 rs2 : gmap PurePath report) (k : PurePath) :
  keyed_ok rs1 -> keyed_ok rs2 -> k ∈ dom rs1 ∪ dom rs2 ->
  asset_diff_entry rs1 rs2 k = Ok (asset_diff_at rs1 rs2 k).
Proof.
  intros Hk1 Hk2 Hk. unfold asset_diff_entry, asset_diff_at. unmonad.
  rewrite (side_errs_obj_ok (rs1 !! k)) by (intros r Hr; by apply (Hk1 k)).
  rewrite (side_errs_obj_ok (rs2 !! k)) by (intros r Hr; by apply (Hk2 k)).
  simpl. destruct (side_of (rs1 !! k)) as [p1 j1], (side_of (rs2 !! k)) as [p2 j2].
  simpl.
  assert (exists r, match rs1 !! k with Some r => Some r | None => rs2 !! k end = Some r
                    /\ (rs1 !! k = Some r \/ (rs1 !! k = None /\ rs2 !! k = Some r))
                    /\ asset_ok r = true /\ asset_key r = k)
    as (r & -> & Hr & Hok & Hkey).
  { destruct (rs1 !! k) as [r |] eqn:E1.
    - exists r. destruct (Hk1 k r E1). auto.
    - apply elem_of_union in Hk as [Hd | Hd]; apply elem_of_dom in Hd as [r Hr];
        [congruence |].
      exists r. destruct (Hk2 k r Hr). auto. }
  destruct r as [v | v a | ? ?]; try done. simpl in Hok, Hkey.
  destruct (any_errs p1 p2 j1 j2); simpl; [| done].
  assert (first_attr get_asset_id "asset_id" (rs1 !! k) (rs2 !! k) = Ok (asset_id a)
          /\ first_attr get_asset_path "asset_path" (rs1 !! k) (rs2 !! k)
             = Ok (asset_path a)) as [-> ->].
  { destruct Hr as [-> | [-> ->]]; done. }
  simpl. subst k. simpl. rewrite int_str_str_int. simpl.
  by destruct a.
Qed.

Lemma asset_diff_reports_at (reports1 reports2 : list report) :
  forallb asset_ok reports1 = true -> forallb asset_ok reports2 = true ->
  exists rs1 rs2,
    _key_reports reports1 = Ok rs1 /\ _key_reports reports2 = Ok rs2
    /\ keyed_ok rs1 /\ keyed_ok rs2
    /\ (forall k, rs1 !! k = asset_report_at reports1 k)
    /\ (forall k, rs2 !! k = asset_report_at reports2 k)
    /\ _asset_validation_diff_reports reports1 reports2
       = Ok (omap (asset_diff_at rs1 rs2) (asset_entries rs1 rs2)).
Proof.
  intros Hok1 Hok2.
  destruct (key_reports_lookup _ Hok1) as (rs1 & Hr1 & Hk1 & Hl1).
  destruct (key_reports_lookup _ Hok2) as (rs2 & Hr2 & Hk2 & Hl2).
  exists rs1, rs2. do 6 (split; [done |]).
  unfold _asset_validation_diff_reports. unmonad. rewrite Hr1, Hr2. simpl.
  apply for_append_Ok. intros k Hk. apply asset_diff_entry_at; [done | done |].
  by apply elem_of_sorted, elem_of_elements in Hk.
Qed.

Lemma first_present_keyed (rs1 rs2 : gmap PurePath report) k r :
  keyed_ok rs1 -> keyed_ok rs2 ->
  match rs1 !! k with Some r => Some r | None => rs2 !! k end = Some r ->
  asset_ok r = true /\ asset_key r = k.
Proof.
  intros Hk1 Hk2 Hr. destruct (rs1 !! k) as [r' |] eqn:E1.
  - injection Hr as ->. by apply Hk1.
  - by apply Hk2.
Qed.

Lemma asset_diff_at_Some rs1 rs2 k d :
  keyed_ok rs1 -> keyed_ok rs2 ->
  asset_diff_at rs1 rs2 k = Some d ->
  asset_diff_key d = k
  /\ exists v, (match rs1 !! k with Some r => Some r | None => rs2 !! k end)
               = Some (AssetValidationReport v (asset_fields d)).
Proof.
  intros Hk1 Hk2. unfold asset_diff_at.
  destruct (match rs1 !! k with Some r => Some r | None => rs2 !! k end)
    as [[v | v a | ? ?] |] eqn:E; try done.
  destruct (any_errs _ _ _ _); [| done]. intros [= <-]. simpl.
  split; [| by eexists].
  destruct (first_present_keyed _ _ _ _ Hk1 Hk2 E) as [Hok Hkey].
  simpl in Hok. apply andb_true_iff in Hok as [Hi Hv].
  rewrite <- Hkey. unfold asset_diff_key. simpl. apply Path_plain.
  repeat constructor; try done. apply str_int_plain.
Qed.

(** The diff reports of the asset builder, key by key. *)
Lemma asset_diff_reports_elem (reports1 reports2 : list report) :
  forallb asset_ok reports1 = true -> forallb asset_ok reports2 = true ->
  exists rs1 rs2 rs,
    _key_reports reports1 = Ok rs1 /\ _key_reports reports2 = Ok rs2
    /\ (forall k, rs1 !! k = asset_report_at reports1 k)
    /\ (forall k, rs2 !! k = asset_report_at reports2 k)
    /\ _asset_validation_diff_reports reports1 reports2 = Ok rs
    /\ asset_diff_key <$> rs `sublist_of` asset_entries rs1 rs2
    /\ forall d k, d ∈ rs /\ asset_diff_key d = k <-> asset_diff_at rs1 rs2 k = Some d.
Proof.
  intros Hok1 Hok2.
  destruct (asset_diff_reports_at _ _ Hok1 Hok2)
    as (rs1 & rs2 & Hr1 & Hr2 & Hk1 & Hk2 & Hl1 & Hl2 & Hrs).
  exists rs1, rs2, (omap (asset_diff_at rs1 rs2) (asset_entries rs1 rs2)).
  do 5 (split; [done |]). split.
  - apply omap_key_sublist. intros k d _ Hd.
    by destruct (asset_diff_at_Some _ _ _ _ Hk1 Hk2 Hd).
  - intros d k. rewrite list_elem_of_omap. split.
    + intros [(k' & _ & Hd) <-].
      by destruct (asset_diff_at_Some _ _ _ _ Hk1 Hk2 Hd) as [-> _].
    + intros Hd. destruct (asset_diff_at_Some _ _ _ _ Hk1 Hk2 Hd) as [Hkey (v & Hv)].
      split; [| done]. exists k. split; [| done].
      unfold asset_entries. rewrite elem_of_sorted, elem_of_elements, elem_of_union.
      rewrite !elem_of_dom. destruct (rs1 !! k); [left | right]; by eexists.
Qed.

(** C1, as amended.  The entity keys of the produced diff reports are
    exactly the keys of the two collections for which some side's report has
    a non-empty error list; so a key without errors on either side has no
    diff report.  For asset reports, whose identifiers and versions are
    single path components, the report a collection holds for a key is the
    last one in input order. *)
Theorem diff_reports_cover_keys_with_errors
    (dandiset_reports1 dandiset_reports2 : DandisetValidationReportsType)
    (asset_reports1 asset_reports2 : list report)
    (Hok1 : forallb asset_ok asset_reports1 = true)
    (Hok2 : forallb asset_ok asset_reports2 = true) :
  (forall k,
      k ∈ diff_key <$> _dandiset_validation_diff_reports dandiset_reports1 dandiset_reports2
      <-> (is_Some (dandiset_report_at dandiset_reports1 k)
           \/ is_Some (dandiset_report_at dandiset_reports2 k))
          /\ (has_errors_at dandiset_reports1 k \/ has_errors_at dandiset_reports2 k))
  /\ exists rs,
       _asset_validation_diff_reports asset_reports1 asset_reports2 = Ok rs
       /\ forall k,
            k ∈ asset_diff_key <$> rs
            <-> (exists r, r ∈ asset_reports1 ++ asset_reports2 /\ asset_key r = k)
                /\ (has_errors_in asset_reports1 k \/ has_errors_in asset_reports2 k).
Proof.
  split.
  - intros k. rewrite dandiset_keys_spec, elem_of_union, !elem_of_entries. done.
  - destruct (asset_diff_reports_ok _ _ Hok1 Hok2)
      as (rs1 & rs2 & g & Hrs1 & Hrs2 & Hk1 & Hk2 & Hg & Hrs).
    destruct (key_reports_lookup _ Hok1) as (rs1' & Hr1' & _ & Hl1).
    destruct (key_reports_lookup _ Hok2) as (rs2' & Hr2' & _ & Hl2).
    assert (rs1' = rs1) as -> by congruence.
    assert (rs2' = rs2) as -> by congruence.
    exists (omap g (asset_entries rs1 rs2)). split; [done |]. intros k.
    rewrite (asset_keys_spec rs1 rs2 g k Hk1 Hk2 Hg).
    rewrite <- (elem_of_asset_entries rs1 rs2 _ _ k Hl1 Hl2).
    rewrite (has_errors_under_in rs1 _ k Hl1), (has_errors_under_in rs2 _ k Hl2).
    unfold asset_entries. by rewrite elem_of_sorted, elem_of_elements.
Qed.

(** C3, as amended.  The entries iterated are the keys of both collections,
    strictly sorted: dandiset keys as pairs of strings, asset keys (of
    reports whose identifiers and versions are single path components) as
    paths, part by part, every part compared as a string, the decimal
    numeral of the asset index included.  The emitted diff reports follow
    that order: their keys are a strictly sorted sublist of the entries. *)
Theorem diff_reports_follow_sorted_keys
    (dandiset_reports1 dandiset_reports2 : DandisetValidationReportsType)
    (asset_reports1 asset_reports2 : list report)
    (Hok1 : forallb asset_ok asset_reports1 = true)
    (Hok2 : forallb asset_ok asset_reports2 = true) :
  (let entries := dandiset_entries dandiset_reports1 dandiset_reports2 in
   let keys :=
     diff_key <$> _dandiset_validation_diff_reports dandiset_reports1 dandiset_reports2 in
   (forall k, k ∈ entries
              <-> is_Some (dandiset_report_at dandiset_reports1 k)
                  \/ is_Some (dandiset_report_at dandiset_reports2 k))
   /\ StronglySorted (fun a b => Py.pair_lt a b = true) entries
   /\ keys `sublist_of` entries
   /\ StronglySorted (fun a b => Py.pair_lt a b = true) keys)
  /\ (exists rs1 rs2 rs,
        _key_reports asset_reports1 = Ok rs1
        /\ _key_reports asset_reports2 = Ok rs2
        /\ _asset_validation_diff_reports asset_reports1 asset_reports2 = Ok rs
        /\ (forall k, k ∈ asset_entries rs1 rs2
                      <-> exists r, r ∈ asset_reports1 ++ asset_reports2
                                    /\ asset_key r = k)
        /\ StronglySorted (fun a b => Pathlib.lt a b = true) (asset_entries rs1 rs2)
        /\ asset_diff_key <$> rs `sublist_of` asset_entries rs1 rs2
        /\ StronglySorted (fun a b => Pathlib.lt a b = true) (asset_diff_key <$> rs))
  /\ (forall id1 ver1 id2 ver2,
        Py.pair_lt (id1, ver1) (id2, ver2)
        = Py.str_lt id1 id2 || (String.eqb id1 id2 && Py.str_lt ver1 ver2))
  /\ (forall id1 ver1 idx1 id2 ver2 idx2,
        Pathlib.lt [id1; ver1; Py.str_int idx1] [id2; ver2; Py.str_int idx2]
        = Py.str_lt id1 id2
          || (String.eqb id1 id2
              && (Py.str_lt ver1 ver2
                  || (String.eqb ver1 ver2
                      && Py.str_lt (Py.str_int idx1) (Py.str_int idx2))))).
Proof.
  split; [| split; [| split]].
  - assert (Hs : StronglySorted (fun a b => Py.pair_lt a b = true)
                   (dandiset_entries dandiset_reports1 dandiset_reports2)).
    { apply sorted_sorted; [apply pair_lt_strict_total | apply NoDup_elements]. }
    assert (Hsub : diff_key <$> _dandiset_validation_diff_reports
                                  dandiset_reports1 dandiset_reports2
                   `sublist_of` dandiset_entries dandiset_reports1 dandiset_reports2).
    { apply omap_key_sublist. intros k d _. apply dandiset_diff_entry_key. }
    split; [| split; [done | split; [done | by eapply sublist_StronglySorted]]].
    intros k. by rewrite elem_of_dandiset_entries, elem_of_union, !elem_of_entries.
  - destruct (asset_diff_reports_elem _ _ Hok1 Hok2)
      as (rs1 & rs2 & rs & Hr1 & Hr2 & Hl1 & Hl2 & Hrs & Hsub & _).
    assert (Hs : StronglySorted (fun a b => Pathlib.lt a b = true)
                   (asset_entries rs1 rs2)).
    { apply sorted_sorted; [apply strs_lt_strict_total | apply NoDup_elements]. }
    exists rs1, rs2, rs. do 3 (split; [done |]).
    split; [intros k; by apply elem_of_asset_entries |].
    split; [done |]. split; [done |]. by eapply sublist_StronglySorted.
  - reflexivity.
  - intros. unfold Pathlib.lt. simpl.
    by rewrite andb_false_r, orb_false_r.
Qed.
End Builders.

(** C3, counterexample: with errors on the assets at index 2 and index 10 of
    one dandiset version, the diff report of index 10 comes first. *)
Lemma asset_index_compared_as_text :
  exists rs,
    @_asset_validation_diff_reports replacement_diff [sample_asset 2; sample_asset 10] []
    = Ok rs
    /\ (fun d => asset_idx (asset_fields d)) <$> rs = [10; 2].
Proof. eexists. split; vm_compute; reflexivity. Qed.

(** Why C3 asks for identifiers that are single path components: the
    identifier ["./b"] is smaller than ["a"] as a string, and its report
    comes after the report of ["a"], because the key path drops the dot. *)
Lemma asset_identifier_compared_as_path :
  Py.str_lt "./b" "a" = true
  /\ exists rs,
       @_asset_validation_diff_reports replacement_diff
         [dotted_asset "./b"; dotted_asset "a"] [] = Ok rs
       /\ (fun d => dandiset_identifier (diff_base (asset_diff d))) <$> rs = ["a"; "b"].
Proof. split; [reflexivity |]. eexists. split; vm_compute; reflexivity. Qed.

(** C1, counterexample: an asset report with errors whose identifier spans
    two path components is the report of its key in the first collection,
    and has errors; its key path has four parts, the builder raises when it
    unpacks them, and no diff report is produced for the key. *)
Lemma nested_identifier_has_no_diff_report :
  has_errors_in [nested_asset] (asset_key nested_asset)
  /\ asset_ok nested_asset = false
  /\ report_key ["dandiset_identifier"; "dandiset_version"; "asset_idx"] nested_asset
     = Ok ["a"; "b"; "draft"; "0"]
  /\ @_asset_validation_diff_reports replacement_diff [nested_asset] []
     = Raise (Py.ValueError "too many values to unpack (expected 3)").
Proof.
  split.
  - exists nested_asset, (dandiset_report "a/b" "draft" [sample_err]).
    split; [reflexivity |]. split; [reflexivity |]. left. discriminate.
  - split; [reflexivity |]. split; vm_compute; reflexivity.
Qed.

Section OneSided.
Context `{Jsondiff}.



End OneSided.


(** ** The file system *)

Lemma check_prefixes_snoc s pre rest x :
  rest <> [] ->
  FS.check_prefixes s pre (rest ++ [x])
  = match FS.check_prefixes s pre rest with
    | Some e => Some e
    | None => dir_verdict (FS.lookup_node s (pre ++ rest))
    end.
Proof.
  revert pre. induction rest as [| y rest IH]; intros pre Hne; [done |].
  destruct rest as [| z rest].
  - simpl. by destruct (FS.lookup_node s (pre ++ [y])) as [[] |].
  - change ((y :: z :: rest) ++ [x]) with (y :: (z :: rest) ++ [x]).
    change (FS.check_prefixes s pre (y :: (z :: rest) ++ [x]))
      with (match FS.lookup_node s (pre ++ [y]) with
            | None => Some Py.FileNotFoundError
            | Some (FS.File _) => Some Py.NotADirectoryError
            | Some FS.Dir => FS.check_prefixes s (pre ++ [y]) ((z :: rest) ++ [x])
            end).
    change (FS.check_prefixes s pre (y :: z :: rest))
      with (match FS.lookup_node s (pre ++ [y]) with
            | None => Some Py.FileNotFoundError
            | Some (FS.File _) => Some Py.NotADirectoryError
            | Some FS.Dir => FS.check_prefixes s (pre ++ [y]) (z :: rest)
            end).
    destruct (FS.lookup_node s (pre ++ [y])) as [[] |]; try done.
    rewrite IH by done. by rewrite <- app_assoc.
Qed.

Lemma check_prefixes_child s p x :
  FS.check_prefixes s [] (p ++ [x])
  = match FS.check_prefixes s [] p with
    | Some e => Some e
    | None => dir_verdict (FS.lookup_node s p)
    end.
Proof.
  destruct p as [| y p]; [done |].
  by rewrite check_prefixes_snoc.
Qed.

(** Resolution only looks at proper prefixes. *)
Lemma check_prefixes_ext s s' pre rest :
  (forall q, q `prefix_of` rest -> q <> rest -> q <> [] ->
             FS.lookup_node s' (pre ++ q) = FS.lookup_node s (pre ++ q)) ->
  FS.check_prefixes s' pre rest = FS.check_prefixes s pre rest.
Proof.
  revert pre. induction rest as [| y rest IH]; intros pre Hext; [done |].
  destruct rest as [| z rest]; [done |].
  change (FS.check_prefixes s' pre (y :: z :: rest))
    with (match FS.lookup_node s' (pre ++ [y]) with
          | None => Some Py.FileNotFoundError
          | Some (FS.File _) => Some Py.NotADirectoryError
          | Some FS.Dir => FS.check_prefixes s' (pre ++ [y]) (z :: rest)
          end).
  change (FS.check_prefixes s pre (y :: z :: rest))
    with (match FS.lookup_node s (pre ++ [y]) with
          | None => Some Py.FileNotFoundError
          | Some (FS.File _) => Some Py.NotADirectoryError
          | Some FS.Dir => FS.check_prefixes s (pre ++ [y]) (z :: rest)
          end).
  rewrite (Hext [y]); [| by apply prefix_cons, prefix_nil | done | done].
  destruct (FS.lookup_node s (pre ++ [y])) as [[] |]; try done.
  apply IH. intros q Hq Hne Hnil.
  rewrite <- !app_assoc. apply (Hext (y :: q)); [by apply prefix_cons | congruence | done].
Qed.

Lemma check_prefixes_prefix s p q :
  FS.check_prefixes s [] q = None -> p `prefix_of` q -> p <> q ->
  FS.check_prefixes s [] p = None /\ FS.lookup_node s p = Some FS.Dir.
Proof.
  intros Hq [r ->] Hne. revert Hq Hne.
  induction r as [| x r IH] using rev_ind; intros Hq Hne.
  - by rewrite app_nil_r in Hne.
  - rewrite app_assoc, check_prefixes_child in Hq.
    destruct (FS.check_prefixes s [] (p ++ r)) as [e |] eqn:E; [done |].
    destruct r as [| y r] using rev_ind.
    + rewrite app_nil_r in *. split; [done |].
      by destruct (FS.lookup_node s p) as [[] |].
    + apply IH; [done |]. intros Heq.
      apply (f_equal length) in Heq. rewrite !length_app in Heq. simpl in Heq. lia.
Qed.

Lemma lookup_node_insert_ne (s : FS.t) (p q : PurePath) (n : FS.node) :
  p <> q -> FS.lookup_node (<[p := n]> s) q = FS.lookup_node s q.
Proof. intros Hne. unfold FS.lookup_node. by rewrite lookup_insert_ne. Qed.

Lemma check_prefixes_insert (s : FS.t) (p q : PurePath) (n : FS.node) :
  ~ (p `prefix_of` q /\ p <> q) ->
  FS.check_prefixes (<[p := n]> s) [] q = FS.check_prefixes s [] q.
Proof.
  intros Hp. apply check_prefixes_ext. intros r Hr Hne _. simpl.
  apply lookup_node_insert_ne. intros ->. by apply Hp.
Qed.

Lemma wf_insert (s : FS.t) (p : PurePath) (n : FS.node) :
  FS.wf s -> FS.check_prefixes s [] p = None ->
  FS.lookup_node s p <> Some FS.Dir ->
  FS.wf (<[p := n]> s).
Proof.
  intros Hwf Hp Hnew q m Hq.
  assert (FS.check_prefixes s [] q = None) as Hcq.
  { destruct (decide (p = q)) as [<- | Hne]; [done |].
    rewrite lookup_insert_ne in Hq by done. by eapply Hwf. }
  destruct (decide (p `prefix_of` q /\ p <> q)) as [[Hpre Hne] |];
    [| by rewrite check_prefixes_insert].
  by destruct (check_prefixes_prefix s p q Hcq Hpre Hne) as [_ Hdir].
Qed.

Lemma is_dir_spec s p : FS.is_dir s p = true <-> dir_at s p.
Proof.
  unfold FS.is_dir, FS.stat, dir_at.
  destruct (FS.check_prefixes s [] p); [split; [done | by intros [? _]] |].
  destruct (FS.lookup_node s p) as [[] |]; split; try done; by intros [_ ?].
Qed.

Lemma lookup_node_not_root s p : FS.lookup_node s p = None -> FS.is_root p = false.
Proof. unfold FS.lookup_node. by destruct (FS.is_root p). Qed.

Lemma os_mkdir_Ok p s s1 :
  FS.wf s -> FS.os_mkdir p s = (Ok tt, s1) ->
  made p s s1 /\ FS.lookup_node s p = None.
Proof.
  intros Hwf. unfold FS.os_mkdir.
  destruct (FS.check_prefixes s [] p) eqn:Hc; [done |].
  destruct (FS.lookup_node s p) eqn:Hl; [done |].
  intros [= <-]. split; [| done]. repeat split.
  - apply wf_insert; [done | done | congruence].
  - rewrite check_prefixes_insert; [done |]. by intros [_ ?].
  - unfold FS.lookup_node. rewrite (lookup_node_not_root s p Hl).
    apply lookup_insert_eq.
  - intros q Hq. apply lookup_insert_ne. intros ->. by apply Hq.
Qed.

Lemma os_mkdir_Raise p s e s' : FS.os_mkdir p s = (Raise e, s') -> s' = s.
Proof.
  unfold FS.os_mkdir. repeat case_match; congruence.
Qed.

Lemma os_mkdir_not_found p s s' :
  FS.os_mkdir p s = (Raise Py.FileNotFoundError, s') -> ~ dir_at s p.
Proof.
  unfold FS.os_mkdir, dir_at.
  destruct (FS.check_prefixes s [] p); [by intros _ [? _] |].
  by destruct (FS.lookup_node s p).
Qed.

Lemma mkdir_flat_Ok p exist_ok s s1 :
  FS.wf s -> FS.mkdir_flat p exist_ok s = (Ok tt, s1) ->
  made p s s1 /\ (exist_ok = false -> ~ dir_at s p).
Proof.
  intros Hwf. unfold FS.mkdir_flat.
  destruct (FS.os_mkdir p s) as [[[] | e] s'] eqn:E.
  - intros [= <-]. destruct (os_mkdir_Ok p s s' Hwf E) as [Hm Hl].
    split; [done |]. intros _ [_ Hd]. congruence.
  - assert (Hcases : (if exist_ok && FS.is_dir s p then (Ok tt, s) else (Raise e, s))
                     = (Ok tt, s1) -> made p s s1 /\ (exist_ok = false -> ~ dir_at s p)).
    { destruct exist_ok; simpl; [| done].
      destruct (FS.is_dir s p) eqn:Hd; [| done]. intros [= <-].
      apply is_dir_spec in Hd as [Hc Hl]. split; [| done]. by repeat split. }
    destruct e; done.
Qed.

Lemma made_trans p q s s1 s2 :
  q `prefix_of` p -> made q s s1 -> made p s1 s2 -> made p s s2.
Proof.
  intros Hqp (_ & _ & _ & Hf1) (Hwf & Hc & Hl & Hf2). repeat split; try done.
  intros r Hr. rewrite Hf2 by done. apply Hf1. intros Hrq. apply Hr. by etrans.
Qed.

Lemma mkdir_rev_Ok rp parents exist_ok s s1 :
  FS.wf s -> FS.mkdir_rev rp parents exist_ok s = (Ok tt, s1) ->
  made (rev rp) s s1 /\ (exist_ok = false -> ~ dir_at s (rev rp)).
Proof.
  revert parents exist_ok s s1.
  induction rp as [| x rp IH]; intros parents exist_ok s s1 Hwf.
  - cbn [FS.mkdir_rev]. set (p := rev []).
    destruct (FS.os_mkdir p s) as [[[] | e] s'] eqn:E.
    + intros [= <-]. destruct (os_mkdir_Ok p s s' Hwf E) as [Hm Hl].
      split; [done |]. intros _ [_ Hd]. congruence.
    + assert (Hcases : (if exist_ok && FS.is_dir s p then (Ok tt, s) else (Raise e, s))
                       = (Ok tt, s1) -> made p s s1 /\ (exist_ok = false -> ~ dir_at s p)).
      { destruct exist_ok; simpl; [| done].
        destruct (FS.is_dir s p) eqn:Hd; [| done]. intros [= <-].
        apply is_dir_spec in Hd as [Hc Hl]. split; [| done]. by repeat split. }
      destruct e; done.
  - cbn [FS.mkdir_rev]. set (p := rev (x :: rp)).
    destruct (FS.os_mkdir p s) as [[[] | e] s'] eqn:E.
    + intros [= <-]. destruct (os_mkdir_Ok p s s' Hwf E) as [Hm Hl].
      split; [done |]. intros _ [_ Hd]. congruence.
    + assert (Hcases : (if exist_ok && FS.is_dir s p then (Ok tt, s) else (Raise e, s))
                       = (Ok tt, s1) -> made p s s1 /\ (exist_ok = false -> ~ dir_at s p)).
      { destruct exist_ok; simpl; [| done].
        destruct (FS.is_dir s p) eqn:Hd; [| done]. intros [= <-].
        apply is_dir_spec in Hd as [Hc Hl]. split; [| done]. by repeat split. }
      destruct e; try done.
      destruct (negb parents || FS.is_root p); [done |].
      destruct (FS.mkdir_rev rp true true s) as [[[] | e'] s1'] eqn:E'; [| done].
      intros Hflat.
      destruct (IH _ _ _ _ Hwf E') as [Hm1 _].
      destruct (mkdir_flat_Ok p exist_ok s1' s1 (proj1 Hm1) Hflat) as [Hm2 _].
      split.
      * eapply made_trans; [| exact Hm1 | exact Hm2].
        unfold p. simpl. by apply prefix_app_r.
      * intros _. by eapply os_mkdir_not_found.
Qed.

Lemma mkdir_Ok p parents exist_ok s s1 :
  FS.wf s -> FS.mkdir p parents exist_ok s = (Ok tt, s1) ->
  made p s s1 /\ (exist_ok = false -> ~ dir_at s p).
Proof.
  intros Hwf Hm. unfold FS.mkdir in Hm.
  apply mkdir_rev_Ok in Hm; [| done]. by rewrite rev_involutive in Hm.
Qed.

Lemma write_text_Ok (f : PurePath) (text : string) (s : FS.t) :
  FS.check_prefixes s [] f = None -> FS.lookup_node s f <> Some FS.Dir ->
  FS.write_text f text s = (Ok tt, <[f := FS.File text]> s).
Proof.
  intros Hc Hl. unfold FS.write_text, FS.bind, FS.open_w. rewrite Hc.
  assert ((match FS.lookup_node s f with
           | Some FS.Dir => (Raise Py.IsADirectoryError, s)
           | _ => (Ok tt, <[f := FS.File EmptyString]> s)
           end) = (Ok tt, <[f := FS.File EmptyString]> s)) as ->.
  { by destruct (FS.lookup_node s f) as [[] |]. }
  unfold FS.write. rewrite lookup_insert_eq. by rewrite insert_insert_eq.
Qed.

Lemma child_not_root p x : FS.is_root (p ++ [x]) = true -> p = [].
Proof. destruct p as [| y [| z p]]; simpl; done. Qed.

(** Nothing lies below a path that is not a directory. *)
Lemma wf_no_child s p x :
  FS.wf s -> ~ dir_at s p -> s !! (p ++ [x]) = None.
Proof.
  intros Hwf Hnd. destruct (s !! (p ++ [x])) as [n |] eqn:E; [| done].
  apply Hwf in E. rewrite check_prefixes_child in E.
  destruct (FS.check_prefixes s [] p) eqn:Hc; [done |].
  destruct (FS.lookup_node s p) as [[] |] eqn:Hl; try done.
  by destruct Hnd.
Qed.

(** ** Supporting files *)

Lemma writable_dir_write (s : FS.t) (dir_ : PurePath) (name text : string) :
  writable_dir s dir_ ->
  FS.write_text (dir_ ++ [name]) text s = (Ok tt, <[dir_ ++ [name] := FS.File text]> s)
  /\ writable_dir (<[dir_ ++ [name] := FS.File text]> s) dir_.
Proof.
  intros (Hwf & [Hc Hl] & Hch).
  assert (Hcf : FS.check_prefixes s [] (dir_ ++ [name]) = None).
  { rewrite check_prefixes_child, Hc, Hl. done. }
  assert (Hne : dir_ ++ [name] <> dir_).
  { intros Heq. apply (f_equal length) in Heq. rewrite length_app in Heq. simpl in Heq. lia. }
  split; [by apply write_text_Ok |]. split; [by apply wf_insert |]. split; [split |].
  - rewrite check_prefixes_insert; [done |]. intros [Hp _].
    apply prefix_length in Hp. rewrite length_app in Hp. simpl in Hp. lia.
  - by rewrite lookup_node_insert_ne.
  - intros x. destruct (decide (dir_ ++ [name] = dir_ ++ [x])) as [<- | Hx].
    + unfold FS.lookup_node. destruct (FS.is_root (dir_ ++ [name])) eqn:Hr.
      * specialize (Hch name). unfold FS.lookup_node in Hch. by rewrite Hr in Hch.
      * by rewrite lookup_insert_eq.
    + rewrite lookup_node_insert_ne by done. apply Hch.
Qed.

Section SupportingFiles.
Context `{Jsondiff} `{Collaborators}.


Lemma supporting_loop (dir_ : PurePath) (items : list (Py.value * string)) (s : FS.t) :
  writable_dir s dir_ -> Forall plain_names items ->
  FS.for_each
    (fun item =>
       let '(data, base_fname) := item in
       if Py.truthy data then write_data data dir_ base_fname else mret tt)
    items s
  = (Ok tt, write_all (flat_map (item_files dir_) items) s).
Proof.
  revert s. induction items as [| [data base_fname] items IH]; intros s Hw Hall; [done |].
  inversion_clear Hall as [| ? ? Hpl Hall'].
  inversion_clear Hpl as [| ? ? Hj Hpl']. inversion_clear Hpl' as [| ? ? Hy _].
  simpl in Hj, Hy.
  cbn [FS.for_each flat_map]. unfold write_all. rewrite foldl_app.
  fold (write_all (item_files dir_ (data, base_fname)) s).
  fold (write_all (flat_map (item_files dir_) items)
          (write_all (item_files dir_ (data, base_fname)) s)).
  unfold FS.bind at 1. unfold item_files at 2. simpl fst; simpl snd.
  destruct (Py.truthy data) eqn:Ht.
  - unfold write_data. unmonad. unfold FS.bind at 1.
    rewrite !truediv_plain by done.
    destruct (writable_dir_write s dir_ (base_fname +:+ ".json") (json_dumps data) Hw)
      as [-> Hw1].
    destruct (writable_dir_write _ dir_ (base_fname +:+ ".yaml") (yaml_dumps data) Hw1)
      as [-> Hw2].
    exact (IH _ Hw2 Hall').
  - exact (IH _ Hw Hall').
Qed.

Lemma item_files_keys dir_ item :
  (item_files dir_ item).*1 `sublist_of` (fun n => dir_ ++ [n]) <$> item_names item.
Proof.
  unfold item_files, item_names. destruct (Py.truthy item.1); simpl.
  - done.
  - apply sublist_nil_l.
Qed.

Lemma flat_item_files_keys dir_ items :
  (flat_map (item_files dir_) items).*1
    `sublist_of` (fun n => dir_ ++ [n]) <$> flat_map item_names items.
Proof.
  induction items as [| item items IH]; [done |].
  cbn [flat_map]. rewrite !fmap_app.
  apply sublist_app; [apply item_files_keys | done].
Qed.

Lemma write_all_notin (files : list (PurePath * FS.node)) (s : FS.t) (f : PurePath) :
  f ∉ files.*1 -> write_all files s !! f = s !! f.
Proof. apply foldl_insert_notin. Qed.

Lemma written_files_lookup (dir_ : PurePath) (items : list (Py.value * string))
    (s : FS.t) (data : Py.value) (base_fname : string) :
  NoDup (flat_map item_names items) ->
  (data, base_fname) ∈ items ->
  (write_all (flat_map (item_files dir_) items) s !! (dir_ ++ [base_fname +:+ ".json"])
   = if Py.truthy data then Some (FS.File (json_dumps data))
     else s !! (dir_ ++ [base_fname +:+ ".json"]))
  /\ (write_all (flat_map (item_files dir_) items) s !! (dir_ ++ [base_fname +:+ ".yaml"])
      = if Py.truthy data then Some (FS.File (yaml_dumps data))
        else s !! (dir_ ++ [base_fname +:+ ".yaml"])).
Proof.
  revert s. induction items as [| item items IH]; intros s Hnd Hin.
  { by apply elem_of_nil in Hin. }
  cbn [flat_map] in *. apply NoDup_app in Hnd as (Hnd1 & Hdis & Hnd2).
  unfold write_all. rewrite foldl_app.
  fold (write_all (item_files dir_ item) s).
  fold (write_all (flat_map (item_files dir_) items) (write_all (item_files dir_ item) s)).
  assert (Hkeys : forall n, n ∈ item_names item ->
            (dir_ ++ [n]) ∉ (flat_map (item_files dir_) items).*1).
  { intros n Hn Hk.
    apply (fun Hx => elem_of_sublist _ _ _ Hx (flat_item_files_keys dir_ items)) in Hk.
    apply list_elem_of_fmap in Hk as (n' & Heq & Hn').
    apply app_inv_head in Heq. injection Heq as <-. exact (Hdis n Hn Hn'). }
  apply elem_of_cons in Hin as [<- | Hin].
  - rewrite (write_all_notin _ _ (dir_ ++ [base_fname +:+ ".json"]))
      by (apply Hkeys; unfold item_names; simpl; set_solver).
    rewrite (write_all_notin _ _ (dir_ ++ [base_fname +:+ ".yaml"]))
      by (apply Hkeys; unfold item_names; simpl; set_solver).
    unfold item_files. simpl fst; simpl snd. destruct (Py.truthy data); [| split; reflexivity].
    unfold write_all. simpl. split.
    + rewrite lookup_insert_ne; [apply lookup_insert_eq |].
      intros Heq. apply app_inv_head in Heq. injection Heq as Heq.
      apply NoDup_cons in Hnd1 as [Hn _]. apply Hn. simpl. rewrite <- Heq. left.
    + apply lookup_insert_eq.
  - destruct (IH (write_all (item_files dir_ item) s) Hnd2 Hin) as [Hj Hy].
    rewrite Hj, Hy.
    assert (Hothers : forall n, n ∈ item_names (data, base_fname) ->
              write_all (item_files dir_ item) s !! (dir_ ++ [n]) = s !! (dir_ ++ [n])).
    { intros n Hn. apply write_all_notin. intros Hk.
      apply (fun Hx => elem_of_sublist _ _ _ Hx (item_files_keys dir_ item)) in Hk.
      apply list_elem_of_fmap in Hk as (n' & Heq & Hn').
      apply app_inv_head in Heq. injection Heq as <-.
      apply (Hdis n Hn'). rewrite list_elem_of_In, in_flat_map.
      exists (data, base_fname). split; by apply list_elem_of_In. }
    rewrite (Hothers (base_fname +:+ ".json"))
      by (unfold item_names; simpl; set_solver).
    rewrite (Hothers (base_fname +:+ ".yaml"))
      by (unfold item_names; simpl; set_solver).
    done.
Qed.
End SupportingFiles.

Lemma pydantic_errs_truthy errs :
  Py.truthy (pydantic_errs_value errs) = true <-> errs <> [].
Proof. destruct errs; simpl; split; congruence. Qed.

Lemma jsonschema_errs_truthy errs :
  Py.truthy (jsonschema_errs_value errs) = true <-> errs <> [].
Proof. destruct errs; simpl; split; congruence. Qed.

Lemma made_writable (p : PurePath) (s s1 : FS.t) :
  FS.wf s -> made p s s1 -> ~ dir_at s p ->
  writable_dir s1 p /\ forall x, s1 !! (p ++ [x]) = None.
Proof.
  intros Hwf (Hwf1 & Hc & Hl & Hframe) Hnd.
  assert (Hp : p <> []). { intros ->. by apply Hnd. }
  assert (Hnone : forall x, s1 !! (p ++ [x]) = None).
  { intros x. rewrite Hframe; [by apply wf_no_child |].
    intros Hpre%prefix_length. rewrite length_app in Hpre. simpl in Hpre. lia. }
  split; [| done]. split; [done |]. split; [done |].
  intros x. unfold FS.lookup_node.
  destruct (FS.is_root (p ++ [x])) eqn:Hr; [by apply child_not_root in Hr |].
  by rewrite Hnone.
Qed.

Section Writer.
Context `{Jsondiff} `{Collaborators}.

Lemma supporting_items_names r :
  Forall plain_names (supporting_items r)
  /\ NoDup (flat_map item_names (supporting_items r)).
Proof.
  split.
  - repeat constructor.
  - apply (bool_decide_unpack _). vm_compute. reflexivity.
Qed.

(** C8. Once the report directory is created, [_output_supporting_files]
    succeeds, and for each of the six data items the [.json] and [.yaml]
    files exist afterwards exactly when the item is non-empty, holding its
    two serializations; if the directory cannot be created nothing else is
    done. *)
Theorem supporting_files_only_for_nonempty_data
    (r : _DandiValidationDiffReport) (report_dir : PurePath) (s : FS.t)
    (Hwf : FS.wf s) :
  (forall s1,
      FS.mkdir report_dir true false s = (Ok tt, s1) ->
      exists s',
        _output_supporting_files r report_dir s = (Ok tt, s')
        /\ forall data base_fname,
             (data, base_fname) ∈ supporting_items r ->
             s' !! (report_dir // (base_fname +:+ ".json"))
             = (if Py.truthy data then Some (FS.File (json_dumps data)) else None)
             /\ s' !! (report_dir // (base_fname +:+ ".yaml"))
                = (if Py.truthy data then Some (FS.File (yaml_dumps data)) else None))
  /\ (forall e s1,
      FS.mkdir report_dir true false s = (Raise e, s1) ->
      _output_supporting_files r report_dir s = (Raise e, s1))
  /\ (forall errs, Py.truthy (pydantic_errs_value errs) = true <-> errs <> [])
  /\ (forall errs, Py.truthy (jsonschema_errs_value errs) = true <-> errs <> []).
Proof.
  split; [| split; [| split]].
  - intros s1 Hmk.
    destruct (mkdir_Ok _ _ _ _ _ Hwf Hmk) as [Hmade Hnd].
    destruct (made_writable _ _ _ Hwf Hmade (Hnd eq_refl)) as [Hw Hnone].
    destruct (supporting_items_names r) as [Hplain Hnodup].
    exists (write_all (flat_map (item_files report_dir) (supporting_items r)) s1).
    split.
    + unfold _output_supporting_files. unmonad. unfold FS.bind at 1. rewrite Hmk.
      by apply supporting_loop.
    + intros data base_fname Hin.
      assert (Hpl : plain_names (data, base_fname)).
      { rewrite Forall_forall in Hplain. by apply Hplain. }
      inversion_clear Hpl as [| ? ? Hj Hpl']. inversion_clear Hpl' as [| ? ? Hy _].
      simpl in Hj, Hy. rewrite !truediv_plain by done.
      destruct (written_files_lookup report_dir _ s1 data base_fname Hnodup Hin)
        as [-> ->].
      by rewrite !Hnone.
  - intros e s1 Hmk. unfold _output_supporting_files. unmonad.
    unfold FS.bind. by rewrite Hmk.
  - apply pydantic_errs_truthy.
  - apply jsonschema_errs_truthy.
Qed.
End Writer.

(** ** Recreating the output directory *)

Lemma mkdir_rev_os_Ok (rp : list string) (parents exist_ok : bool) (s s' : FS.t) :
  FS.os_mkdir (rev rp) s = (Ok tt, s') ->
  FS.mkdir_rev rp parents exist_ok s = (Ok tt, s').
Proof. intros Hos. destruct rp; cbn [FS.mkdir_rev]; by rewrite Hos. Qed.

Section OutputReports.
Context `{Cli.Collaborators}.

(** C7. If the output path is an existing non-directory, [output_reports]
    raises [NotADirectoryError] and changes nothing.  If it is an existing
    directory, it is removed with all below it and created anew, empty,
    before the report contents are written into it. *)
Theorem output_reports_recreates_directory
    (reports : list Cli.DandisetValidationReport) (output_path : PurePath) (s : FS.t) :
  (forall c,
      FS.stat s output_path = Ok (FS.File c) ->
      Cli.output_reports reports output_path s = (Raise Py.NotADirectoryError, s))
  /\ (FS.is_dir s output_path = true -> FS.is_root output_path = false ->
      exists s1,
        Cli.recreate_output_dir output_path s = (Ok tt, s1)
        /\ s1 !! output_path = Some FS.Dir
        /\ (forall q, output_path `prefix_of` q -> q <> output_path -> s1 !! q = None)
        /\ (forall q, ~ output_path `prefix_of` q -> s1 !! q = s !! q)
        /\ Cli.output_reports reports output_path s
           = Cli.write_report_contents reports output_path s1).
Proof.
  split.
  - intros c Hstat. unfold Cli.output_reports, Cli.recreate_output_dir. unmonad.
    unfold FS.bind, FS.exists_, FS.rmtree. by rewrite Hstat.
  - intros Hdir Hroot. pose proof Hdir as [Hc Hl]%is_dir_spec.
    set (s0 := filter (fun kv : PurePath * FS.node => ~ output_path `prefix_of` kv.1) s).
    assert (Hrm : FS.rmtree output_path s = (Ok tt, s0)).
    { unfold FS.rmtree, FS.stat. rewrite Hc, Hl, Hroot. done. }
    assert (Hs0 : forall q, ~ output_path `prefix_of` q -> s0 !! q = s !! q).
    { intros q Hq. unfold s0. destruct (s !! q) as [n |] eqn:E.
      - by apply map_lookup_filter_Some.
      - apply map_lookup_filter_None. left. done. }
    assert (Hs0' : forall q, output_path `prefix_of` q -> s0 !! q = None).
    { intros q Hq. unfold s0. apply map_lookup_filter_None. right.
      intros n _ Hn. by apply Hn. }
    assert (Hmk : FS.mkdir output_path false false s0
                  = (Ok tt, <[output_path := FS.Dir]> s0)).
    { unfold FS.mkdir. apply mkdir_rev_os_Ok. rewrite rev_involutive.
      unfold FS.os_mkdir.
      assert (FS.check_prefixes s0 [] output_path = None) as ->.
      { rewrite <- Hc. apply check_prefixes_ext. intros q Hq Hne _. simpl.
        unfold FS.lookup_node. destruct (FS.is_root q); [done |].
        apply Hs0. intros Hpre. apply Hne. by apply (anti_symm prefix). }
      unfold FS.lookup_node. rewrite Hroot, Hs0' by done. done. }
    exists (<[output_path := FS.Dir]> s0).
    assert (Hrec : Cli.recreate_output_dir output_path s
                   = (Ok tt, <[output_path := FS.Dir]> s0)).
    { unfold Cli.recreate_output_dir. unmonad. unfold FS.bind.
      unfold FS.exists_, FS.stat. rewrite Hc, Hl. by rewrite Hrm. }
    split; [done |]. split; [apply lookup_insert_eq |]. split; [| split].
    + intros q Hq Hne. rewrite lookup_insert_ne by done. by apply Hs0'.
    + intros q Hq. rewrite lookup_insert_ne; [by apply Hs0 |].
      intros ->. by apply Hq.
    + unfold Cli.output_reports. unmonad. unfold FS.bind at 1. by rewrite Hrec.
Qed.
End OutputReports.

(** ** Creating directories along a clear path *)




Lemma dir_at_prefix (s : FS.t) (p q : PurePath) :
  dir_at s p -> q `prefix_of` p -> FS.lookup_node s q = Some FS.Dir.
Proof.
  intros [Hc Hl] Hq. destruct (decide (q = p)) as [-> | Hne]; [done |].
  by destruct (check_prefixes_prefix s q p Hc Hq Hne).
Qed.






(** ** A fresh output directory *)



(** ** The writer of one class of diff reports *)




Section WriterSuccess.
Context `{Jsondiff} `{Collaborators}.






End WriterSuccess.

(** ** The diff command *)







Section DiffCommand.
Context `{Jsondiff} `{Collaborators}.








(** *** What the builders hand to the writer *)




(** *** The two writers *)






End DiffCommand.


(** * Further properties of the code *)

(** ** The diff builders *)

Lemma for_append_elem {A B} (body : A -> Py.result (option B)) l rs y :
  Py.for_append body l = Ok rs -> y ∈ rs ->
  exists x, x ∈ l /\ body x = Ok (Some y).
Proof.
  revert rs. induction l as [| x l IH]; intros rs Hrs Hy; simpl in Hrs.
  - injection Hrs as <-. by apply elem_of_nil in Hy.
  - apply bind_Ok in Hrs as (o & Ho & Hrs).
    apply bind_Ok in Hrs as (rs' & Hrs' & Hrs). injection Hrs as <-.
    destruct o as [r |].
    + apply elem_of_cons in Hy as [-> | Hy].
      * exists x. split; [left | done].
      * destruct (IH _ Hrs' Hy) as (x' & Hx' & Hb). exists x'. split; [by right | done].
    + destruct (IH _ Hrs' Hy) as (x' & Hx' & Hb). exists x'. split; [by right | done].
Qed.

Lemma any_errs_some_errs `{Jsondiff} id_ ver p1 p2 j1 j2 :
  any_errs p1 p2 j1 j2 = true ->
  some_errs (mk_diff_report id_ ver p1 p2 j1 j2)
  /\ diffs_of_own_lists (mk_diff_report id_ ver p1 p2 j1 j2).
Proof.
  intros Ha. split; [| done].
  unfold any_errs in Ha. unfold some_errs. simpl.
  rewrite !orb_true_iff, !list_truthy_spec in Ha. tauto.
Qed.

Lemma any_errs_comm p1 p2 j1 j2 : any_errs p2 p1 j2 j1 = any_errs p1 p2 j1 j2.
Proof.
  unfold any_errs.
  destruct (Py.list_truthy p1), (Py.list_truthy p2),
           (Py.list_truthy j1), (Py.list_truthy j2); done.
Qed.

Section MoreBuilders.
Context `{Jsondiff}.

Lemma asset_diff_entry_Some rs1 rs2 k d :
  asset_diff_entry rs1 rs2 k = Ok (Some d) ->
  some_errs (asset_diff d) /\ diffs_of_own_lists (asset_diff d).
Proof.
  unfold asset_diff_entry. unmonad. intros Hd.
  apply bind_Ok in Hd as ([p1 j1] & _ & Hd).
  apply bind_Ok in Hd as ([p2 j2] & _ & Hd).
  destruct (any_errs p1 p2 j1 j2) eqn:Ha; simpl in Hd; [| done].
  apply bind_Ok in Hd as (aid & _ & Hd).
  apply bind_Ok in Hd as (apath & _ & Hd).
  apply bind_Ok in Hd as ([[id_ ver] idx_str] & _ & Hd).
  apply bind_Ok in Hd as (idx & _ & Hd).
  injection Hd as <-. simpl. by apply any_errs_some_errs.
Qed.

(** X1.  Every diff report that a builder returns records at least one
    error on one of the two sides, and its two diff members are the diffs
    of the error lists the report itself carries.  For the asset builder
    this holds of whatever it returns, whatever the reports were. *)
Theorem diff_reports_carry_errors
    (dandiset_reports1 dandiset_reports2 : DandisetValidationReportsType)
    (asset_reports1 asset_reports2 : list report) :
  (forall d,
      d ∈ _dandiset_validation_diff_reports dandiset_reports1 dandiset_reports2 ->
      some_errs d /\ diffs_of_own_lists d)
  /\ (forall rs d,
      _asset_validation_diff_reports asset_reports1 asset_reports2 = Ok rs ->
      d ∈ rs ->
      some_errs (asset_diff d) /\ diffs_of_own_lists (asset_diff d)).
Proof.
  split.
  - intros d Hd. apply dandiset_diff_reports_elem in Hd as (k & _ & Hk).
    rewrite dandiset_diff_entry_spec in Hk.
    destruct (any_errs _ _ _ _) eqn:Ha; [| done].
    injection Hk as <-. by apply any_errs_some_errs.
  - intros rs d Hrs Hd. unfold _asset_validation_diff_reports in Hrs. unmonad.
    apply bind_Ok in Hrs as (rs1 & _ & Hrs).
    apply bind_Ok in Hrs as (rs2 & _ & Hrs).
    destruct (for_append_elem _ _ _ _ Hrs Hd) as (k & _ & Hk).
    by eapply asset_diff_entry_Some.
Qed.

Lemma pair_sorted_NoDup (l : list (string * string)) :
  NoDup l -> NoDup (Py.sorted Py.pair_lt l).
Proof. apply sorted_NoDup. Qed.

(** X2.  A builder returns at most one diff report for an entity: the
    keys of the reports it returns are pairwise different. *)
Theorem diff_reports_keys_distinct
    (dandiset_reports1 dandiset_reports2 : DandisetValidationReportsType)
    (asset_reports1 asset_reports2 : list report)
    (Hok1 : forallb asset_ok asset_reports1 = true)
    (Hok2 : forallb asset_ok asset_reports2 = true) :
  NoDup (diff_key <$> _dandiset_validation_diff_reports dandiset_reports1 dandiset_reports2)
  /\ exists rs,
       _asset_validation_diff_reports asset_reports1 asset_reports2 = Ok rs
       /\ NoDup (asset_diff_key <$> rs).
Proof.
  split.
  - apply (sublist_NoDup _ (dandiset_entries dandiset_reports1 dandiset_reports2));
      [apply (sorted_NoDup Py.pair_lt), NoDup_elements |].
    apply omap_key_sublist. intros k d _ Hd. by eapply dandiset_diff_entry_key.
  - destruct (asset_diff_reports_ok asset_reports1 asset_reports2 Hok1 Hok2)
      as (rs1 & rs2 & g & _ & _ & Hk1 & Hk2 & Hg & ->).
    eexists. split; [done |].
    apply (sublist_NoDup _ (asset_entries rs1 rs2));
      [apply (sorted_NoDup Pathlib.lt), NoDup_elements |].
    apply omap_key_sublist. intros k d Hk Hd.
    assert (k ∈ dom rs1 ∪ dom rs2) as Hdom.
    { by apply elem_of_sorted, elem_of_elements in Hk. }
    destruct (asset_diff_entry_spec rs1 rs2 k Hk1 Hk2 Hdom) as (o & Ho & Hspec).
    rewrite (Hg k Hk), Hd in Ho. injection Ho as <-.
    destruct (any_errs _ _ _ _); [| done].
    by destruct Hspec as (d' & ? & ? & [= <-] & ? & _).
Qed.

Lemma swap_mk id_ ver p1 p2 j1 j2 :
  swap_sides (mk_diff_report id_ ver p1 p2 j1 j2) = mk_diff_report id_ ver p2 p1 j2 j1.
Proof. done. Qed.

Lemma omap_fmap_r {A B C} (f : A -> option B) (g : B -> C) (l : list A) :
  omap (fun x => g <$> f x) l = g <$> omap f l.
Proof.
  induction l as [| x l IH]; [done |]. csimpl.
  destruct (f x); csimpl; by rewrite IH.
Qed.

(** X3.  Exchanging the two collections exchanges the two sides of every
    dandiset diff report and changes nothing else: the same entities are
    reported, in the same order. *)
Theorem dandiset_diff_reports_swap
    (reports1 reports2 : DandisetValidationReportsType) :
  _dandiset_validation_diff_reports reports2 reports1
  = swap_sides <$> _dandiset_validation_diff_reports reports1 reports2.
Proof.
  unfold _dandiset_validation_diff_reports, dandiset_entries.
  rewrite (union_comm_L (get_validation_reports_entries reports2)).
  rewrite <- (omap_fmap_r (dandiset_diff_entry reports1 reports2) swap_sides).
  apply list_omap_ext, Forall2_same_length_lookup_2; [done |].
  intros i k k' Hk Hk'. assert (k' = k) as -> by congruence.
  rewrite !dandiset_diff_entry_spec. rewrite any_errs_comm.
  by destruct (any_errs _ _ _ _).
Qed.

End MoreBuilders.

Section AssetFieldsOfReports.
Context `{Jsondiff}.

Lemma asset_key_inj v1 a1 v2 a2 :
  asset_key (AssetValidationReport v1 a1) = asset_key (AssetValidationReport v2 a2) ->
  dandiset_identifier (base v1) = dandiset_identifier (base v2)
  /\ dandiset_version (base v1) = dandiset_version (base v2)
  /\ asset_idx a1 = asset_idx a2.
Proof. simpl. intros [= ? ? Hidx]. by apply str_int_inj in Hidx. Qed.

(** X4.  The asset identifier, path and index of an asset diff report are
    those of the report that the first collection holds for its key; they
    come from the second collection only when the first has no report for
    that asset. *)
Theorem asset_diff_fields_from_first_side
    (asset_reports1 asset_reports2 : list report)
    (Hok1 : forallb asset_ok asset_reports1 = true)
    (Hok2 : forallb asset_ok asset_reports2 = true) :
  exists rs,
    _asset_validation_diff_reports asset_reports1 asset_reports2 = Ok rs
    /\ forall d,
         d ∈ rs ->
         match asset_report_at asset_reports1 (asset_diff_key d) with
         | Some r => exists v, r = AssetValidationReport v (asset_fields d)
         | None =>
             exists v,
               asset_report_at asset_reports2 (asset_diff_key d)
               = Some (AssetValidationReport v (asset_fields d))
         end.
Proof.
  destruct (asset_diff_reports_at asset_reports1 asset_reports2 Hok1 Hok2)
    as (rs1 & rs2 & Hr1 & Hr2 & Hk1 & Hk2 & Hl1 & Hl2 & Hrs).
  eexists. split; [done |].
  intros d Hd. apply list_elem_of_omap in Hd as (k & _ & Hd).
  destruct (asset_diff_at_Some _ _ _ _ Hk1 Hk2 Hd) as (-> & v & Hv).
  rewrite <- Hl1, <- Hl2.
  destruct (rs1 !! k); [injection Hv as -> |]; eauto.
Qed.

(** X5.  Exchanging the two collections of asset reports exchanges the two
    sides of every asset diff report; the reports concern the same assets,
    in the same order. *)
Theorem asset_diff_reports_swap
    (asset_reports1 asset_reports2 : list report)
    (Hok1 : forallb asset_ok asset_reports1 = true)
    (Hok2 : forallb asset_ok asset_reports2 = true) :
  exists rs rs',
    _asset_validation_diff_reports asset_reports1 asset_reports2 = Ok rs
    /\ _asset_validation_diff_reports asset_reports2 asset_reports1 = Ok rs'
    /\ asset_diff <$> rs' = (fun d => swap_sides (asset_diff d)) <$> rs
    /\ asset_diff_key <$> rs' = asset_diff_key <$> rs.
Proof.
  destruct (asset_diff_reports_at asset_reports1 asset_reports2 Hok1 Hok2)
    as (rs1 & rs2 & Hr1 & Hr2 & Hk1 & Hk2 & _ & _ & Hrs).
  destruct (asset_diff_reports_at asset_reports2 asset_reports1 Hok2 Hok1)
    as (rs2' & rs1' & Hr2' & Hr1' & _ & _ & _ & _ & Hrs').
  assert (rs2' = rs2) as -> by congruence.
  assert (rs1' = rs1) as -> by congruence.
  eexists _, _. do 2 (split; [done |]).
  unfold asset_entries. rewrite (union_comm_L (dom rs2)).
  assert (forall k,
    match asset_diff_at rs2 rs1 k, asset_diff_at rs1 rs2 k with
    | Some d', Some d =>
        asset_diff d' = swap_sides (asset_diff d) /\ asset_diff_key d' = asset_diff_key d
    | None, None => True
    | _, _ => False
    end) as Hrel.
  { intros k. unfold asset_diff_at. cbv zeta.
    rewrite (any_errs_comm (side_of (rs1 !! k)).1 (side_of (rs2 !! k)).1
                           (side_of (rs1 !! k)).2 (side_of (rs2 !! k)).2).
    destruct (rs1 !! k) as [r1 |] eqn:E1; destruct (rs2 !! k) as [r2 |] eqn:E2.
    - destruct (Hk1 _ _ E1) as [Ho1 Hy1]. destruct (Hk2 _ _ E2) as [Ho2 Hy2].
      destruct r1 as [| v1 a1 |], r2 as [| v2 a2 |]; try done.
      destruct (any_errs _ _ _ _); [| done].
      assert (asset_key (AssetValidationReport v2 a2)
              = asset_key (AssetValidationReport v1 a1)) as Hsame by congruence.
      apply asset_key_inj in Hsame as (Hi & Hv & Hx).
      split.
      + simpl. rewrite swap_mk. by rewrite Hi, Hv.
      + unfold asset_diff_key. simpl. by rewrite Hi, Hv, Hx.
    - destruct (Hk1 _ _ E1) as [Ho1 _]. destruct r1; try done.
      by destruct (any_errs _ _ _ _).
    - destruct (Hk2 _ _ E2) as [Ho2 _]. destruct r2; try done.
      by destruct (any_errs _ _ _ _).
    - done. }
  generalize (Py.sorted Pathlib.lt (elements (dom rs1 ∪ dom rs2))).
  intros l. induction l as [| k l [IH1 IH2]]; [done |]. csimpl.
  specialize (Hrel k).
  destruct (asset_diff_at rs2 rs1 k), (asset_diff_at rs1 rs2 k); try done; csimpl.
  destruct Hrel as [-> ->]. by rewrite IH1, IH2.
Qed.

End AssetFieldsOfReports.

(** ** Keying reports *)

Lemma key_items_Forall2 parts (reports : list report) items :
  Py.map_r (fun r => k ← report_key parts r; mret (k, r)) reports = Ok items ->
  items.*2 = reports
  /\ Forall2 (fun r k => report_key parts r = Ok k) reports items.*1.
Proof.
  intros Hm. apply map_r_Forall2 in Hm.
  induction Hm as [| r [k r'] reports items Hr Hm [IH1 IH2]]; [done |].
  unmonad. apply bind_Ok in Hr as (k' & Hk' & [= <- <-]). csimpl.
  split; [by rewrite IH1 | by constructor].
Qed.

(** X6.  The mapping that [_key_reports] returns has exactly the key paths
    of the reports as its keys, and what it holds under a key is one of the
    given reports with that key path.  When the key paths are pairwise
    different, nothing is lost: there is one entry per report, and every
    report is found under its key path. *)
Theorem key_reports_keeps_keys
    (reports : list report) (r0 : report) (parts : list string)
    (keys : list PurePath)
    (Hhd : head reports = Some r0)
    (Hparts : key_parts r0 = Ok parts)
    (Hkeys : Py.map_r (report_key parts) reports = Ok keys) :
  exists m,
    _key_reports reports = Ok m
    /\ dom m = list_to_set keys
    /\ (forall k r, m !! k = Some r -> r ∈ reports /\ report_key parts r = Ok k)
    /\ (NoDup keys ->
        size m = length reports
        /\ forall r, r ∈ reports -> exists k, report_key parts r = Ok k /\ m !! k = Some r).
Proof.
  apply map_r_Forall2 in Hkeys.
  assert (Py.map_r (fun r => k ← report_key parts r; mret (k, r)) reports
          = Ok (zip keys reports)) as Hitems.
  { apply map_r_Forall2. clear Hhd.
    induction Hkeys as [| r k reports keys Hr Hk IH]; [constructor |].
    simpl. constructor; [| done]. unmonad. by rewrite Hr. }
  pose proof (Forall2_length _ _ _ Hkeys) as Hlen.
  assert ((zip keys reports).*1 = keys) as Hfst by (apply fst_zip; lia).
  assert ((zip keys reports).*2 = reports) as Hsnd by (apply snd_zip; lia).
  exists (dict_of_items (zip keys reports)). split; [| split; [| split]].
  - destruct reports as [| r reports]; [done |]. injection Hhd as ->.
    unfold _key_reports. unmonad. rewrite Hparts. simpl.
    change (Py.bind (Py.map_r (fun r => Py.bind (report_key parts r)
                                          (fun k => Ok (k, r))) (r0 :: reports))
                    (fun items => Ok (dict_of_items items))
            = Ok (dict_of_items (zip keys (r0 :: reports)))).
    unmonad. by rewrite Hitems.
  - by rewrite dict_of_items_dom, Hfst.
  - intros k r Hm. apply dict_of_items_lookup in Hm.
    apply list_elem_of_lookup in Hm as (i & Hi).
    apply lookup_zip_Some in Hi as [Hki Hri].
    split; [by eapply list_elem_of_lookup_2 |].
    exact (Forall2_lookup_lr _ _ _ _ _ _ Hkeys Hri Hki).
  - intros Hnd. split.
    + rewrite <- size_dom, dict_of_items_dom, Hfst.
      rewrite size_list_to_set by done. lia.
    + intros r Hr. apply list_elem_of_lookup in Hr as (i & Hi).
      destruct (Forall2_lookup_l _ _ _ _ _ Hkeys Hi) as (k & Hki & Hk).
      exists k. split; [done |].
      assert (zip keys reports !! i = Some (k, r)) as Hz by by apply lookup_zip_Some.
      apply list_elem_of_split_length in Hz as (l1 & l2 & Heq & Hl1).
      rewrite Heq. apply dict_of_items_last.
      rewrite <- Hfst, Heq, fmap_app, fmap_cons in Hnd. simpl in Hnd.
      apply NoDup_app in Hnd as (_ & _ & Hnd). by apply NoDup_cons in Hnd as [? _].
Qed.

(** ** Error representations *)

(** X7.  [err_reps] is all or nothing: when some Pydantic error of some
    diff report lacks one of the members [type], [msg], [loc], or has a
    location that is not iterable, the call raises ([KeyError] for the
    missing member, [TypeError] for the location) and returns no partial
    lists. *)
Theorem err_reps_raises_on_malformed_error
    (dandiset_diffs : list _DandiValidationDiffReport)
    (asset_diffs : list _AssetValidationDiffReport) :
  (forallb errs_ok dandiset_diffs = false ->
   exists exn, err_reps (DandisetDiffObj <$> dandiset_diffs) = Raise exn
               /\ malformed_exn exn)
  /\ (forallb (fun d => errs_ok (asset_diff d)) asset_diffs = false ->
      exists exn, err_reps (AssetDiffObj <$> asset_diffs) = Raise exn
                  /\ malformed_exn exn).
Proof.
  split.
  - by apply (err_reps_wrapped_malformed DandisetDiffObj (fun d => d) dandiset_diff_path
                instance_path_dandiset).
  - by apply (err_reps_wrapped_malformed AssetDiffObj asset_diff asset_diff_key
                instance_path_asset).
Qed.

Lemma wildcard_no_int v : Py.isinstance_int (wildcard v) = false.
Proof. unfold wildcard. by destruct (Py.isinstance_int v) eqn:E. Qed.

Lemma wildcard_all_no_int l :
  Forall (fun v => Py.isinstance_int v = false) (map wildcard l).
Proof.
  induction l as [| v l IH]; simpl; constructor; [apply wildcard_no_int | done].
Qed.

Lemma wildcard_idem l : map wildcard (map wildcard l) = map wildcard l.
Proof.
  induction l as [| v l IH]; [done |]. simpl. rewrite IH. f_equal.
  unfold wildcard at 1. by rewrite wildcard_no_int.
Qed.

(** X8.  A category never holds an integer index: every integer (or
    boolean) segment of the location has been replaced, so categorizing a
    representation that carries a category as its location gives that
    category back. *)
Theorem categories_hold_no_index
    (err : PydanticValidationErrRep) (jerr : JsonschemaValidationErrRep)
    (path : PurePath) :
  let cat := pydantic_err_categorizer err in
  let jcat := jsonschema_err_categorizer jerr in
  Forall (fun v => Py.isinstance_int v = false) cat.2
  /\ Forall (fun v => Py.isinstance_int v = false) jcat.2
  /\ pydantic_err_categorizer (cat.1.1, cat.1.2, cat.2, path) = cat
  /\ jcat.1 = absolute_schema_path jerr.1
  /\ map wildcard jcat.2 = jcat.2.
Proof.
  destruct err as [[[type_ msg] loc] p], jerr as [e p']. simpl.
  split; [| split; [| split; [| split]]].
  - apply wildcard_all_no_int.
  - apply wildcard_all_no_int.
  - by rewrite wildcard_idem.
  - done.
  - apply wildcard_idem.
Qed.

(** ** What the file operations change *)

Lemma dirs_kept_refl s : dirs_kept s s.
Proof. by intros q. Qed.

Lemma dirs_kept_trans s1 s2 s3 : dirs_kept s1 s2 -> dirs_kept s2 s3 -> dirs_kept s1 s3.
Proof. intros H12 H23 q Hq. by apply H23, H12. Qed.

Lemma check_prefixes_kept s s1 pre rest :
  dirs_kept s s1 ->
  FS.check_prefixes s pre rest = None -> FS.check_prefixes s1 pre rest = None.
Proof.
  intros Hk. revert pre. induction rest as [| x rest IH]; intros pre; [done |].
  destruct rest as [| y rest]; [done |].
  change (FS.check_prefixes s pre (x :: y :: rest))
    with (match FS.lookup_node s (pre ++ [x]) with
          | None => Some Py.FileNotFoundError
          | Some (FS.File _) => Some Py.NotADirectoryError
          | Some FS.Dir => FS.check_prefixes s (pre ++ [x]) (y :: rest)
          end).
  change (FS.check_prefixes s1 pre (x :: y :: rest))
    with (match FS.lookup_node s1 (pre ++ [x]) with
          | None => Some Py.FileNotFoundError
          | Some (FS.File _) => Some Py.NotADirectoryError
          | Some FS.Dir => FS.check_prefixes s1 (pre ++ [x]) (y :: rest)
          end).
  destruct (FS.lookup_node s (pre ++ [x])) as [[] |] eqn:E; try done.
  rewrite (Hk _ E). apply IH.
Qed.

Lemma dir_at_kept s s1 q : dirs_kept s s1 -> dir_at s q -> dir_at s1 q.
Proof. intros Hk [Hc Hl]. split; [by eapply check_prefixes_kept | by apply Hk]. Qed.

Lemma dirs_kept_insert (s : FS.t) (g : PurePath) (n : FS.node) :
  FS.lookup_node s g <> Some FS.Dir \/ FS.is_root g = true ->
  dirs_kept s (<[g := n]> s).
Proof.
  intros Hg q Hq. destruct (decide (q = g)) as [-> | Hne].
  - destruct Hg as [Hg | Hroot]; [done |]. unfold FS.lookup_node. by rewrite Hroot.
  - by rewrite lookup_node_insert_ne.
Qed.

Lemma lookup_node_same (s s1 : FS.t) (q : PurePath) :
  s1 !! q = s !! q -> FS.lookup_node s1 q = FS.lookup_node s q.
Proof. intros Hq. unfold FS.lookup_node. by rewrite Hq. Qed.

Lemma os_mkdir_Ok_touch p s s1 :
  FS.os_mkdir p s = (Ok tt, s1) ->
  s1 = <[p := FS.Dir]> s /\ FS.check_prefixes s [] p = None /\ FS.lookup_node s p = None.
Proof.
  unfold FS.os_mkdir. destruct (FS.check_prefixes s [] p); [done |].
  destruct (FS.lookup_node s p); [done |]. by intros [= <-].
Qed.

Lemma insert_dir_outcome (p : PurePath) (s : FS.t) :
  FS.check_prefixes s [] p = None -> FS.lookup_node s p = None ->
  dirs_kept s (<[p := FS.Dir]> s)
  /\ (forall q, q <> p -> (<[p := FS.Dir]> s) !! q = s !! q)
  /\ dir_at (<[p := FS.Dir]> s) p
  /\ ~ dir_at s p.
Proof.
  intros Hc Hl. split; [| split; [| split]].
  - apply dirs_kept_insert. left. congruence.
  - intros q Hq. by apply lookup_insert_ne.
  - split.
    + rewrite check_prefixes_insert; [done |]. by intros [_ ?].
    + unfold FS.lookup_node. rewrite (lookup_node_not_root s p Hl).
      apply lookup_insert_eq.
  - intros [_ Hd]. congruence.
Qed.

Lemma exist_ok_branch (exist_ok : bool) s p e (r : Py.result unit) s1 :
  (if exist_ok && FS.is_dir s p then (Ok tt, s) else (Raise e, s)) = (r, s1) ->
  s1 = s /\ (r = Ok tt -> dir_at s p /\ exist_ok = true).
Proof.
  destruct exist_ok; simpl.
  - destruct (FS.is_dir s p) eqn:Hd; intros [= <- <-]; [| done].
    split; [done |]. intros _. by apply is_dir_spec in Hd.
  - by intros [= <- <-].
Qed.

Lemma mkdir_flat_outcome p exist_ok s r s1 :
  FS.mkdir_flat p exist_ok s = (r, s1) ->
  dirs_kept s s1
  /\ (forall q, q <> p \/ FS.lookup_node s q <> None -> s1 !! q = s !! q)
  /\ (r = Ok tt -> dir_at s1 p)
  /\ (r = Ok tt -> exist_ok = false -> ~ dir_at s p).
Proof.
  unfold FS.mkdir_flat. destruct (FS.os_mkdir p s) as [[[] | e] s'] eqn:E.
  - intros [= <- <-]. destruct (os_mkdir_Ok_touch _ _ _ E) as (-> & Hc & Hl).
    destruct (insert_dir_outcome p s Hc Hl) as (Hk & Hf & Hd & Hn).
    split; [done |]. split; [| done].
    intros q [Hq | Hq]; [by apply Hf |]. apply Hf. congruence.
  - intros Hr.
    assert (s1 = s /\ (r = Ok tt -> dir_at s p /\ exist_ok = true)) as [-> Hok].
    { destruct e; try (by eapply exist_ok_branch). by injection Hr as <- <-. }
    split; [apply dirs_kept_refl |]. split; [done |].
    split; [by intros [? _]%Hok |]. intros [_ ->]%Hok. done.
Qed.

Lemma mkdir_rev_outcome rp parents exist_ok s r s1 :
  FS.mkdir_rev rp parents exist_ok s = (r, s1) ->
  dirs_kept s s1
  /\ (forall q, ~ q `prefix_of` rev rp \/ FS.lookup_node s q <> None -> s1 !! q = s !! q)
  /\ (r = Ok tt -> dir_at s1 (rev rp))
  /\ (r = Ok tt -> exist_ok = false -> ~ dir_at s (rev rp)).
Proof.
  revert parents exist_ok s r s1.
  induction rp as [| x rp IH]; intros parents exist_ok s r s1.
  - change (FS.mkdir_rev [] parents exist_ok s) with (FS.mkdir_flat (rev []) exist_ok s).
    intros (Hk & Hf & Hd & Hn)%mkdir_flat_outcome. split; [done |].
    split; [| done]. intros q [Hq | Hq]; apply Hf; [| by right].
    left. intros ->. by apply Hq.
  - cbn [FS.mkdir_rev]. set (p := rev (x :: rp)).
    destruct (FS.os_mkdir p s) as [[[] | e] s'] eqn:E.
    + intros [= <- <-]. destruct (os_mkdir_Ok_touch _ _ _ E) as (-> & Hc & Hl).
      destruct (insert_dir_outcome p s Hc Hl) as (Hk & Hf & Hd & Hn).
      split; [done |]. split; [| done].
      intros q [Hq | Hq]; apply Hf; [intros ->; by apply Hq | congruence].
    + assert (Hother :
        (if exist_ok && FS.is_dir s p then (Ok tt, s) else (Raise e, s)) = (r, s1) ->
        dirs_kept s s1
        /\ (forall q, ~ q `prefix_of` p \/ FS.lookup_node s q <> None -> s1 !! q = s !! q)
        /\ (r = Ok tt -> dir_at s1 p)
        /\ (r = Ok tt -> exist_ok = false -> ~ dir_at s p)).
      { intros [-> Hok]%exist_ok_branch.
        split; [apply dirs_kept_refl |]. split; [done |].
        split; [by intros [? _]%Hok |]. intros [_ ->]%Hok. done. }
      destruct e; try exact Hother. clear Hother.
      destruct (negb parents || FS.is_root p).
      { intros [= <- <-]. split; [apply dirs_kept_refl |]. done. }
      destruct (FS.mkdir_rev rp true true s) as [[[] | e'] s1'] eqn:E'.
      * destruct (IH _ _ _ _ _ E') as (Hk1 & Hf1 & _ & _).
        intros (Hk2 & Hf2 & Hd2 & _)%mkdir_flat_outcome.
        assert (rev rp `prefix_of` p) as Hpre.
        { unfold p. simpl. by apply prefix_app_r. }
        split; [by eapply dirs_kept_trans |]. split; [| split; [done |]].
        -- intros q Hq.
           assert (s1' !! q = s !! q) as Hq1.
           { apply Hf1. destruct Hq as [Hq | Hq]; [left | by right].
             intros Hqp. apply Hq. by etrans. }
           rewrite <- Hq1. apply Hf2.
           destruct Hq as [Hq | Hq]; [left; intros ->; by apply Hq |].
           right. by rewrite (lookup_node_same _ _ _ Hq1).
        -- intros _ _. by eapply os_mkdir_not_found.
      * intros [= <- <-]. destruct (IH _ _ _ _ _ E') as (Hk1 & Hf1 & _ & _).
        split; [done |]. split; [| done].
        intros q [Hq | Hq]; apply Hf1; [left | by right].
        intros Hqp. apply Hq. etrans; [exact Hqp |].
        unfold p. simpl. by apply prefix_app_r.
Qed.

Lemma mkdir_outcome p parents exist_ok s r s1 :
  FS.mkdir p parents exist_ok s = (r, s1) ->
  dirs_kept s s1
  /\ (forall q, ~ q `prefix_of` p \/ FS.lookup_node s q <> None -> s1 !! q = s !! q)
  /\ (r = Ok tt -> dir_at s1 p)
  /\ (r = Ok tt -> exist_ok = false -> ~ dir_at s p).
Proof.
  unfold FS.mkdir. intros Hm%mkdir_rev_outcome. by rewrite rev_involutive in Hm.
Qed.

Lemma mkdir_no_parents p exist_ok s :
  FS.mkdir p false exist_ok s = FS.mkdir_flat p exist_ok s.
Proof.
  unfold FS.mkdir. rewrite <- (rev_involutive p) at 2.
  destruct (rev p) as [| x rp]; [done |].
  cbn [FS.mkdir_rev]. unfold FS.mkdir_flat.
  destruct (FS.os_mkdir (rev (x :: rp)) s) as [[[] | e] s']; [done |].
  by destruct e.
Qed.

Lemma open_w_outcome f s (r : Py.result unit) s1 :
  FS.open_w f s = (r, s1) ->
  s1 = s /\ r <> Ok tt
  \/ r = Ok tt /\ s1 = <[f := FS.File EmptyString]> s
     /\ FS.lookup_node s f <> Some FS.Dir.
Proof.
  unfold FS.open_w. destruct (FS.check_prefixes s [] f).
  { intros [= <- <-]. by left. }
  destruct (FS.lookup_node s f) as [[] |] eqn:E; intros [= <- <-];
    [right | by left | right]; done.
Qed.

Lemma write_outcome f text s (r : Py.result unit) s1 :
  FS.write f text s = (r, s1) ->
  s1 = s /\ r <> Ok tt
  \/ r = Ok tt /\ exists c, s !! f = Some (FS.File c)
                            /\ s1 = <[f := FS.File (c +:+ text)]> s.
Proof.
  unfold FS.write. destruct (s !! f) as [[c |] |] eqn:E; intros [= <- <-];
    [right | by left | by left]. eauto.
Qed.

Lemma file_not_dir (s : FS.t) (f : PurePath) (c : string) :
  s !! f = Some (FS.File c) ->
  FS.lookup_node s f <> Some FS.Dir \/ FS.is_root f = true.
Proof.
  intros Hf. unfold FS.lookup_node. destruct (FS.is_root f); [by right | left].
  by rewrite Hf.
Qed.

Lemma bind_io_Ok {A B} (m : FS.io A) (k : A -> FS.io B) s b s' :
  FS.bind m k s = (Ok b, s') ->
  exists a s1, m s = (Ok a, s1) /\ k a s1 = (Ok b, s').
Proof.
  unfold FS.bind. destruct (m s) as [[a | e] s1]; [eauto | done].
Qed.

Section Keeps.
Context (I : FS.t -> FS.t -> Prop).
Context (Irefl : forall s, I s s).
Context (Itrans : forall s1 s2 s3, I s1 s2 -> I s2 s3 -> I s1 s3).

Lemma keeps_ret {A} (a : A) : keeps I (FS.ret a).
Proof. intros s. apply Irefl. Qed.

Lemma keeps_lift {A} (r : Py.result A) : keeps I (FS.lift r).
Proof. intros s. apply Irefl. Qed.

Lemma keeps_bind {A B} (m : FS.io A) (k : A -> FS.io B) :
  keeps I m -> (forall a, keeps I (k a)) -> keeps I (FS.bind m k).
Proof.
  intros Hm Hk s. unfold FS.bind. specialize (Hm s).
  destruct (m s) as [[a | e] s1]; simpl in *; [| done].
  eapply Itrans; [exact Hm | apply Hk].
Qed.

Lemma keeps_for_each {A} (body : A -> FS.io unit) (l : list A) :
  (forall x, x ∈ l -> keeps I (body x)) -> keeps I (FS.for_each body l).
Proof.
  induction l as [| x l IH]; intros Hb; simpl; [apply keeps_ret |].
  apply keeps_bind; [apply Hb; left |].
  intros _. apply IH. intros y Hy. apply Hb. by right.
Qed.

Lemma keeps_open_w f : allows I f -> keeps I (FS.open_w f).
Proof.
  intros Hf s. destruct (FS.open_w f s) as [r s1] eqn:E. simpl.
  apply open_w_outcome in E as [[-> _] | (_ & -> & Hl)]; [apply Irefl |].
  apply Hf. by left.
Qed.

Lemma keeps_write f text : allows I f -> keeps I (FS.write f text).
Proof.
  intros Hf s. destruct (FS.write f text s) as [r s1] eqn:E. simpl.
  apply write_outcome in E as [[-> _] | (_ & c & Hc & ->)]; [apply Irefl |].
  apply Hf. by eapply file_not_dir.
Qed.

Lemma keeps_write_text f text : allows I f -> keeps I (FS.write_text f text).
Proof.
  intros Hf. unfold FS.write_text. apply keeps_bind; [by apply keeps_open_w |].
  intros _. by apply keeps_write.
Qed.

Lemma keeps_mkdir g parents exist_ok :
  allows_mkdir I g -> keeps I (FS.mkdir g parents exist_ok).
Proof.
  intros Hg s. destruct (FS.mkdir g parents exist_ok s) as [r s1] eqn:E. simpl.
  apply mkdir_outcome in E as (Hk & Hf & _). by apply Hg.
Qed.

End Keeps.

Lemma only_below_refl p s : only_below p s s.
Proof. split; [apply dirs_kept_refl | done]. Qed.

Lemma only_below_trans p s1 s2 s3 :
  only_below p s1 s2 -> only_below p s2 s3 -> only_below p s1 s3.
Proof.
  intros [Hk1 Hf1] [Hk2 Hf2]. split; [by eapply dirs_kept_trans |].
  intros Hd q Hq. rewrite Hf2; [by apply Hf1 | by eapply dir_at_kept | done].
Qed.

Lemma leaves_refl f s : leaves f s s.
Proof. by intros _. Qed.

Lemma leaves_trans f s1 s2 s3 : leaves f s1 s2 -> leaves f s2 s3 -> leaves f s1 s3.
Proof.
  intros H12 H23 Hf. rewrite H23; [by apply H12 |].
  by rewrite (lookup_node_same _ _ _ (H12 Hf)).
Qed.

Lemma allows_dirs_kept g : allows dirs_kept g.
Proof. intros s n Hg. by apply dirs_kept_insert. Qed.

Lemma allows_mkdir_dirs_kept g : allows_mkdir dirs_kept g.
Proof. by intros s s1 Hk _. Qed.

Lemma allows_only_below p g : p `prefix_of` g -> allows (only_below p) g.
Proof.
  intros Hpg s n Hg. split; [by apply dirs_kept_insert |].
  intros _ q Hq. apply lookup_insert_ne. intros ->. by apply Hq.
Qed.

Lemma allows_mkdir_only_below p g : p `prefix_of` g -> allows_mkdir (only_below p) g.
Proof.
  intros Hpg s s1 Hk Hf. split; [done |]. intros Hd q Hq. apply Hf.
  destruct (decide (q `prefix_of` g)) as [Hqg | Hqg]; [right | by left].
  destruct (prefix_weak_total _ _ _ Hpg Hqg) as [Hpq | Hqp]; [done |].
  by rewrite (dir_at_prefix s p q Hd Hqp).
Qed.

Lemma allows_leaves f g : g <> f -> allows (leaves f) g.
Proof. intros Hne s n _ _. by apply lookup_insert_ne. Qed.

Lemma allows_mkdir_leaves f g : allows_mkdir (leaves f) g.
Proof. intros s s1 _ Hf Hl. apply Hf. by right. Qed.

(** ** Writing into a directory that is already there *)

Lemma mkdir_exists (p : PurePath) (parents : bool) (s : FS.t) :
  FS.exists_ s p = true ->
  FS.mkdir p parents false s = (Raise Py.FileExistsError, s).
Proof.
  unfold FS.exists_, FS.stat. intros Hex.
  assert (FS.os_mkdir p s = (Raise Py.FileExistsError, s)) as Hos.
  { unfold FS.os_mkdir. destruct (FS.check_prefixes s [] p); [done |].
    by destruct (FS.lookup_node s p). }
  unfold FS.mkdir. rewrite <- (rev_involutive p) in Hos.
  destruct (rev p) as [| x rp]; cbn [FS.mkdir_rev]; by rewrite Hos.
Qed.

(** X9.  [_output_supporting_files] never writes into something that is
    already there: when the report directory exists, be it a directory or
    a file, the call raises [FileExistsError] and the file system is left
    as it was. *)
Theorem supporting_files_refuse_existing_path `{Collaborators}
    (r : _DandiValidationDiffReport) (report_dir : PurePath) (s : FS.t)
    (Hex : FS.exists_ s report_dir = true) :
  _output_supporting_files r report_dir s = (Raise Py.FileExistsError, s).
Proof.
  unfold _output_supporting_files. unmonad. unfold FS.bind.
  by rewrite (mkdir_exists _ _ _ Hex).
Qed.

(** ** The report writer of the [cli] package *)

Lemma write_text_outcome f text s s1 :
  FS.write_text f text s = (Ok tt, s1) -> s1 = <[f := FS.File text]> s.
Proof.
  unfold FS.write_text. intros ([] & s0 & Ho & Hw)%bind_io_Ok.
  apply open_w_outcome in Ho as [[_ ?] | (_ & -> & _)]; [done |].
  apply write_outcome in Hw as [[_ ?] | (_ & c & Hc & ->)]; [done |].
  rewrite lookup_insert_eq in Hc. injection Hc as <-.
  by rewrite insert_insert_eq.
Qed.

Lemma snoc_ne_last {A} (l1 l2 : list A) (x y : A) : x <> y -> l1 ++ [x] <> l2 ++ [y].
Proof. intros Hne Heq. by apply app_inj_tail in Heq as [_ ?]. Qed.

Lemma snoc_ne_init {A} (l1 l2 : list A) (x y : A) : l1 <> l2 -> l1 ++ [x] <> l2 ++ [y].
Proof. intros Hne Heq. by apply app_inj_tail in Heq as [? _]. Qed.

Lemma child_lookup_node (s : FS.t) (p : PurePath) (x : string) :
  Pathlib.starts_with_sep x = false ->
  FS.lookup_node s (p ++ [x]) = s !! (p ++ [x]).
Proof.
  intros Hx. unfold FS.lookup_node.
  destruct (FS.is_root (p ++ [x])) eqn:E; [| done].
  apply child_not_root in E as Hp. subst p. simpl in E. congruence.
Qed.

Lemma rmtree_frame p s (r : Py.result unit) s1 :
  FS.rmtree p s = (r, s1) -> forall q, ~ p `prefix_of` q -> s1 !! q = s !! q.
Proof.
  unfold FS.rmtree. destruct (FS.stat s p) as [[c |] | e];
    try (by intros [= <- <-]).
  intros Hr q Hq.
  assert (s1 = filter (fun kv : PurePath * FS.node => ~ p `prefix_of` kv.1) s) as ->.
  { destruct (FS.is_root p); by injection Hr as <- <-. }
  destruct (s !! q) as [n |] eqn:E.
  - by apply map_lookup_filter_Some.
  - apply map_lookup_filter_None. by left.
Qed.

Lemma recreate_outcome p s (r : Py.result unit) s1 :
  Cli.recreate_output_dir p s = (r, s1) ->
  (forall q, ~ p `prefix_of` q -> s1 !! q = s !! q) /\ (r = Ok tt -> dir_at s1 p).
Proof.
  unfold Cli.recreate_output_dir. unmonad. unfold FS.bind.
  destruct (if FS.exists_ s p then FS.rmtree p s else (Ok tt, s))
    as [[[] | e] s0] eqn:E.
  - rewrite mkdir_no_parents. intros (Hk & Hf & Hd & _)%mkdir_flat_outcome.
    split; [| done]. intros q Hq. rewrite Hf.
    + destruct (FS.exists_ s p); [by eapply rmtree_frame | by injection E as <-].
    + left. intros ->. by apply Hq.
  - intros [= <- <-]. split; [| done]. intros q Hq.
    destruct (FS.exists_ s p); [by eapply rmtree_frame | done].
Qed.

Ltac names_differ :=
  let E := fresh in intros E; vm_compute in E; discriminate E.

Section CliOutput.
Context `{Cli.Collaborators}.

Lemma summary_path_eq p : summary_path p = p ++ ["summary.md"].
Proof. by apply truediv_plain. Qed.

Lemma schema_path_eq p : schema_path p = p ++ ["dandi-linkml-schema.yml"].
Proof. by apply truediv_plain. Qed.

Lemma write_data_Ok data adapter name dir_ s s1 :
  Pathlib.plain (name +:+ ".json") = true ->
  Pathlib.plain (name +:+ ".yaml") = true ->
  Cli._write_data data adapter name dir_ s = (Ok tt, s1) ->
  s1 = <[dir_ ++ [name +:+ ".yaml"] := FS.File (Cli.yaml_dump (adapter data))]>
         (<[dir_ ++ [name +:+ ".json"] := FS.File (Cli.json_dump (adapter data))]> s).
Proof.
  intros Hj Hy. unfold Cli._write_data. unmonad.
  intros ([] & s0 & H1 & H2)%bind_io_Ok.
  rewrite (truediv_plain _ _ Hj) in H1. rewrite (truediv_plain _ _ Hy) in H2.
  apply write_text_outcome in H1 as ->. by apply write_text_outcome in H2 as ->.
Qed.

Section KeepsCli.
Context (I : FS.t -> FS.t -> Prop).
Context (Irefl : forall s, I s s).
Context (Itrans : forall s1 s2 s3, I s1 s2 -> I s2 s3 -> I s1 s3).

Lemma keeps_write_data data adapter name dir_ :
  Pathlib.plain (name +:+ ".json") = true ->
  Pathlib.plain (name +:+ ".yaml") = true ->
  (forall n, allows I (dir_ ++ [n])) ->
  keeps I (Cli._write_data data adapter name dir_).
Proof.
  intros Hj Hy Hall. unfold Cli._write_data. unmonad.
  rewrite (truediv_plain _ _ Hj), (truediv_plain _ _ Hy).
  apply keeps_bind; [done | by apply keeps_write_text |].
  intros _. by apply keeps_write_text.
Qed.

Lemma keeps_step_writes p r :
  (forall n, allows I (report_dir_of p r ++ [n])) ->
  allows I (summary_path p) ->
  keeps I
    (Cli._write_data (Cli.dandiset_metadata r) Cli.dandiset_metadata_adapter
                     "metadata" (report_dir_of p r);;
     Cli._write_data (Cli.pydantic_validation_errs r)
                     Cli.pydantic_validation_errs_adapter
                     "pydantic_validation_errs" (report_dir_of p r);;
     Cli._write_data (Cli.linkml_validation_errs r)
                     Cli.linkml_validation_errs_adapter
                     "linkml_validation_errs" (report_dir_of p r);;
     FS.write (summary_path p) (summary_row r)).
Proof.
  intros Hall Hsum. unmonad.
  apply keeps_bind; [done | by apply keeps_write_data |]. intros _.
  apply keeps_bind; [done | by apply keeps_write_data |]. intros _.
  apply keeps_bind; [done | by apply keeps_write_data |]. intros _.
  by apply keeps_write.
Qed.

Lemma keeps_report_step p r :
  allows_mkdir I (report_dir_of p r) ->
  (forall n, allows I (report_dir_of p r ++ [n])) ->
  allows I (summary_path p) ->
  keeps I (report_step p r).
Proof.
  intros Hmk Hall Hsum. unfold report_step. unmonad.
  apply keeps_bind; [done | by apply keeps_mkdir |]. intros _.
  by apply keeps_step_writes.
Qed.

Lemma keeps_write_report_contents reports p :
  allows I (schema_path p) ->
  allows I (summary_path p) ->
  (forall r, r ∈ reports -> keeps I (report_step p r)) ->
  keeps I (Cli.write_report_contents reports p).
Proof.
  intros Hsch Hsum Hsteps. unfold Cli.write_report_contents. unmonad.
  apply keeps_bind; [done | by apply keeps_write_text |]. intros _.
  apply keeps_bind; [done | by apply keeps_open_w |]. intros _.
  apply keeps_bind; [done | by apply keeps_write |]. intros _.
  apply keeps_bind; [done | by apply keeps_write |]. intros _.
  apply keeps_bind; [done | by apply keeps_write |]. intros _.
  by apply (keeps_for_each I Irefl Itrans (report_step p)).
Qed.

End KeepsCli.

Lemma report_dir_named p r :
  report_named r = true ->
  report_dir_of p r = p ++ [Cli.dandiset_identifier r; Cli.dandiset_version r].
Proof.
  unfold report_named, component, report_dir_of.
  intros [[Hi _]%andb_true_iff [Hv _]%andb_true_iff]%andb_true_iff.
  rewrite (truediv_plain _ _ Hi), (truediv_plain _ _ Hv).
  by rewrite <- app_assoc.
Qed.

Lemma keeps_contents_below reports p :
  forallb report_named reports = true ->
  keeps (only_below p) (Cli.write_report_contents reports p).
Proof.
  intros Hnames.
  apply (keeps_write_report_contents _ (only_below_refl p) (only_below_trans p)).
  - apply allows_only_below. rewrite schema_path_eq. by apply prefix_app_r.
  - apply allows_only_below. rewrite summary_path_eq. by apply prefix_app_r.
  - intros r Hr.
    assert (report_named r = true) as Hn.
    { rewrite forallb_forall in Hnames. by apply Hnames, list_elem_of_In. }
    assert (p `prefix_of` report_dir_of p r) as Hpre.
    { rewrite (report_dir_named p r Hn). by apply prefix_app_r. }
    apply (keeps_report_step _ (only_below_refl p) (only_below_trans p)).
    + by apply allows_mkdir_only_below.
    + intros n. apply allows_only_below. by apply prefix_app_r.
    + apply allows_only_below. rewrite summary_path_eq. by apply prefix_app_r.
Qed.

(** X10.  [output_reports] touches nothing outside the output directory:
    when the identifier and the version of every report are single path
    components, every path that does not lie at or below the output path
    holds after the call what it held before, whether the call returns or
    raises. *)
Theorem output_reports_confined
    (reports : list Cli.DandisetValidationReport) (output_path : PurePath) (s : FS.t)
    (Hnames : forallb report_named reports = true) :
  forall q,
    ~ output_path `prefix_of` q ->
    (Cli.output_reports reports output_path s).2 !! q = s !! q.
Proof.
  intros q Hq. unfold Cli.output_reports. unmonad. unfold FS.bind.
  destruct (Cli.recreate_output_dir output_path s) as [[[] | e] s1] eqn:E;
    apply recreate_outcome in E as [Hf Hd].
  - destruct (keeps_contents_below reports output_path Hnames s1) as [_ Hb].
    rewrite Hb; [by apply Hf | by apply Hd | done].
  - simpl. by apply Hf.
Qed.

Lemma report_step_Ok p r s s1 :
  report_step p r s = (Ok tt, s1) ->
  exists s0 c,
    FS.mkdir (report_dir_of p r) true false s = (Ok tt, s0)
    /\ dirs_kept s0 s1
    /\ s0 !! summary_path p = Some (FS.File c)
    /\ s1 = <[summary_path p := FS.File (c +:+ summary_row r)]>
              (foldl (fun m kv => <[kv.1 := FS.File kv.2]> m) s0
                     (report_files_of (report_dir_of p r) r)).
Proof.
  intros Hs. unfold report_step in Hs. unmonad.
  apply bind_io_Ok in Hs as ([] & s0 & Hmk & Hs).
  assert (dirs_kept s0 s1) as Hk.
  { change s1 with ((Ok tt, s1) : Py.result unit * FS.t).2. rewrite <- Hs.
    exact (keeps_step_writes dirs_kept dirs_kept_refl dirs_kept_trans p r
             (fun n => allows_dirs_kept _) (allows_dirs_kept _) s0). }
  apply bind_io_Ok in Hs as ([] & s2 & H1 & Hs).
  apply bind_io_Ok in Hs as ([] & s3 & H2 & Hs).
  apply bind_io_Ok in Hs as ([] & s4 & H3 & Hs).
  apply write_data_Ok in H1; [| done | done].
  apply write_data_Ok in H2; [| done | done].
  apply write_data_Ok in H3; [| done | done].
  apply write_outcome in Hs as [[_ ?] | (_ & c & Hc & ->)]; [done |].
  exists s0, c. split; [done |]. split; [done |]. subst s4 s3 s2.
  split; [| done].
  revert Hc. change (p // Cli.summary_file_name) with (summary_path p).
  rewrite summary_path_eq.
  by rewrite !lookup_insert_ne by (apply snoc_ne_last; names_differ).
Qed.

Lemma report_files_last dir_ r f t :
  (f, t) ∈ report_files_of dir_ r ->
  exists n, f = dir_ ++ [n] /\ Pathlib.starts_with_sep n = false /\ n <> "summary.md"
            /\ n <> "dandi-linkml-schema.yml".
Proof.
  unfold report_files_of. intros Hf.
  repeat (apply elem_of_cons in Hf as [[= -> ->] | Hf];
          [eexists; split; [done |]; split; [done |]; split; names_differ |]).
  by apply elem_of_nil in Hf.
Qed.

Lemma report_files_written dir_ r (s : FS.t) f t :
  (f, t) ∈ report_files_of dir_ r ->
  foldl (fun m kv => <[kv.1 := FS.File kv.2]> m) s (report_files_of dir_ r) !! f
  = Some (FS.File t).
Proof.
  intros Hf. unfold report_files_of in *. simpl.
  repeat (apply elem_of_cons in Hf as [[= -> ->] | Hf];
          [rewrite ?lookup_insert_ne by (apply snoc_ne_last; names_differ);
           by apply lookup_insert_eq |]).
  by apply elem_of_nil in Hf.
Qed.

Lemma report_files_untouched dir_ r (s : FS.t) g :
  g ∉ (report_files_of dir_ r).*1 ->
  foldl (fun m kv => <[kv.1 := FS.File kv.2]> m) s (report_files_of dir_ r) !! g
  = s !! g.
Proof.
  generalize (report_files_of dir_ r). intros l. revert s.
  induction l as [| [f t] l IH]; intros s Hg; [done |]. simpl.
  rewrite fmap_cons in Hg. apply not_elem_of_cons in Hg as [Hne Hg].
  rewrite IH by done. by apply lookup_insert_ne.
Qed.

(** What a successful round of the loop leaves. *)
Lemma report_step_effect p r s s1 c :
  report_step p r s = (Ok tt, s1) ->
  s !! summary_path p = Some (FS.File c) ->
  dirs_kept s s1
  /\ ~ dir_at s (report_dir_of p r)
  /\ dir_at s1 (report_dir_of p r)
  /\ s1 !! summary_path p = Some (FS.File (c +:+ summary_row r))
  /\ (forall f t, (f, t) ∈ report_files_of (report_dir_of p r) r ->
                  s1 !! f = Some (FS.File t))
  /\ (forall g, FS.lookup_node s g <> None -> g <> summary_path p ->
                g ∉ (report_files_of (report_dir_of p r) r).*1 ->
                s1 !! g = s !! g).
Proof.
  intros Hs Hc.
  destruct (report_step_Ok _ _ _ _ Hs) as (s0 & c0 & Hmk & Hk & Hc0 & ->).
  apply mkdir_outcome in Hmk as (Hk0 & Hf0 & Hd0 & Hn0).
  assert (FS.lookup_node s (summary_path p) <> None) as Hsum.
  { rewrite summary_path_eq, child_lookup_node by done.
    rewrite <- summary_path_eq. by rewrite Hc. }
  assert (c0 = c) as ->.
  { rewrite Hf0 in Hc0 by (by right). congruence. }
  split; [by eapply dirs_kept_trans |]. split; [by apply Hn0 |].
  split; [eapply dir_at_kept; [exact Hk | by apply Hd0] |].
  split; [apply lookup_insert_eq |]. split.
  - intros f t Hf.
    destruct (report_files_last _ _ _ _ Hf) as (n & Hfn & _ & Hn & _).
    rewrite lookup_insert_ne
      by (rewrite summary_path_eq, Hfn; apply snoc_ne_last; congruence).
    by apply report_files_written.
  - intros g Hg Hne Hfiles.
    rewrite lookup_insert_ne by done.
    rewrite report_files_untouched by done. apply Hf0. by right.
Qed.

Lemma report_steps_effect p reports :
  forall s s' c,
    FS.for_each (report_step p) reports s = (Ok tt, s') ->
    s !! summary_path p = Some (FS.File c) ->
    dirs_kept s s'
    /\ NoDup (report_dir_of p <$> reports)
    /\ (forall q, dir_at s q -> q ∉ report_dir_of p <$> reports)
    /\ s' !! summary_path p
       = Some (FS.File (foldl (fun c r => c +:+ summary_row r) c reports))
    /\ (forall r, r ∈ reports ->
          dir_at s' (report_dir_of p r)
          /\ forall f t, (f, t) ∈ report_files_of (report_dir_of p r) r ->
                         s' !! f = Some (FS.File t))
    /\ (forall g, FS.lookup_node s g <> None -> g <> summary_path p ->
          (forall r, r ∈ reports -> g ∉ (report_files_of (report_dir_of p r) r).*1) ->
          s' !! g = s !! g).
Proof.
  induction reports as [| r reports IH]; intros s s' c Hloop Hc.
  - injection Hloop as <-. split; [apply dirs_kept_refl |].
    split; [constructor |]. split; [intros q _; apply not_elem_of_nil |].
    split; [done |]. split; [intros r Hr; by apply elem_of_nil in Hr | done].
  - simpl in Hloop. apply bind_io_Ok in Hloop as ([] & s1 & Hstep & Hloop).
    destruct (report_step_effect _ _ _ _ _ Hstep Hc)
      as (Hk1 & Hn1 & Hd1 & Hc1 & Hfiles1 & Hun1).
    destruct (IH _ _ _ Hloop Hc1) as (Hk & Hnd & Hfresh & Hsum & Hall & Hun).
    split; [by eapply dirs_kept_trans |].
    split; [rewrite fmap_cons; constructor; [by apply Hfresh | done] |].
    split.
    { intros q Hq. rewrite fmap_cons. apply not_elem_of_cons. split.
      - intros ->. by apply Hn1.
      - apply Hfresh. by eapply dir_at_kept. }
    split; [done |]. split.
    + intros r' [-> | Hr']%elem_of_cons; [| by apply Hall].
      split; [by eapply dir_at_kept |].
      intros f t Hf. rewrite Hun; [by apply Hfiles1 | | |].
      * destruct (report_files_last _ _ _ _ Hf) as (n & Hfn & Hn & _).
        rewrite Hfn, child_lookup_node by done. rewrite <- Hfn.
        by rewrite (Hfiles1 _ _ Hf).
      * destruct (report_files_last _ _ _ _ Hf) as (n & Hfn & _ & Hn & _).
        rewrite summary_path_eq, Hfn. by apply snoc_ne_last.
      * intros r2 Hr2 Hin. apply list_elem_of_fmap in Hin as ([f2 t2] & Hf2 & Hin).
        simpl in Hf2. subst f2.
        destruct (report_files_last _ _ _ _ Hf) as (n & Hfn & _).
        destruct (report_files_last _ _ _ _ Hin) as (n2 & Hfn2 & _).
        rewrite Hfn in Hfn2. apply app_inj_tail in Hfn2 as [Hdir _].
        apply (Hfresh (report_dir_of p r)); [done |].
        rewrite Hdir. by apply list_elem_of_fmap_2.
    + intros g Hg Hne Hfiles.
      assert (r ∈ r :: reports) as Hr0 by left.
      rewrite Hun.
      * apply Hun1; [done | done |]. by apply Hfiles.
      * by rewrite (lookup_node_same _ _ _ (Hun1 g Hg Hne (Hfiles r Hr0))).
      * done.
      * intros r2 Hr2. apply Hfiles. by right.
Qed.

Lemma report_contents_effect reports p s s' :
  Cli.write_report_contents reports p s = (Ok tt, s') ->
  NoDup (report_dir_of p <$> reports)
  /\ s' !! summary_path p
     = Some (FS.File (foldl (fun c r => c +:+ summary_row r) summary_head reports))
  /\ s' !! schema_path p = Some (FS.File Cli.dandi_linkml_schema_yml)
  /\ (forall r, r ∈ reports ->
        dir_at s' (report_dir_of p r)
        /\ forall f t, (f, t) ∈ report_files_of (report_dir_of p r) r ->
                       s' !! f = Some (FS.File t)).
Proof.
  unfold Cli.write_report_contents. unmonad. intros Hw.
  apply bind_io_Ok in Hw as ([] & sa & Hsch & Hw).
  apply write_text_outcome in Hsch as ->.
  apply bind_io_Ok in Hw as ([] & sb & Hop & Hw).
  apply open_w_outcome in Hop as [[_ ?] | (_ & -> & _)]; [done |].
  apply bind_io_Ok in Hw as ([] & sc & Hw1 & Hw).
  apply write_outcome in Hw1 as [[_ ?] | (_ & c1 & Hc1 & ->)]; [done |].
  rewrite lookup_insert_eq in Hc1. injection Hc1 as <-.
  apply bind_io_Ok in Hw as ([] & sd & Hw2 & Hw).
  apply write_outcome in Hw2 as [[_ ?] | (_ & c2 & Hc2 & ->)]; [done |].
  rewrite lookup_insert_eq in Hc2. injection Hc2 as <-.
  apply bind_io_Ok in Hw as ([] & se & Hw3 & Hw).
  apply write_outcome in Hw3 as [[_ ?] | (_ & c3 & Hc3 & ->)]; [done |].
  rewrite lookup_insert_eq in Hc3. injection Hc3 as <-.
  change (p // Cli.summary_file_name) with (summary_path p) in Hw.
  change (p // Cli.dandi_linkml_schema_file_name) with (schema_path p) in Hw.
  rewrite !insert_insert_eq in Hw.
  match type of Hw with
  | FS.for_each _ _ (<[_ := FS.File ?c]> _) = _ =>
      change c with summary_head in Hw
  end.
  change (fun r : Cli.DandisetValidationReport => _) with (report_step p) in Hw.
  destruct (report_steps_effect p reports _ _ summary_head Hw)
    as (_ & Hnd & _ & Hsum & Hall & Hun); [apply lookup_insert_eq |].
  split; [done |]. split; [done |]. split; [| done].
  rewrite Hun.
  - rewrite lookup_insert_ne; [apply lookup_insert_eq |].
    rewrite summary_path_eq, schema_path_eq. apply snoc_ne_last. names_differ.
  - rewrite schema_path_eq, child_lookup_node by done.
    rewrite lookup_insert_ne
      by (rewrite summary_path_eq; apply snoc_ne_last; names_differ).
    rewrite <- schema_path_eq. by rewrite lookup_insert_eq.
  - rewrite summary_path_eq, schema_path_eq. apply snoc_ne_last. names_differ.
  - intros r _ Hin. apply list_elem_of_fmap in Hin as ([f t] & Hf & Hin).
    simpl in Hf. subst f.
    destruct (report_files_last _ _ _ _ Hin) as (n & Hfn & _ & _ & Hn).
    rewrite schema_path_eq in Hfn. by apply app_inj_tail in Hfn as [_ <-].
Qed.

(** X11.  [output_reports] cannot return when two of the reports go to the
    same directory: whenever it returns, the report directories
    [output_path / identifier / version] of the given reports are pairwise
    different, and each of them is a directory afterwards. *)
Theorem output_reports_distinct_directories
    (reports : list Cli.DandisetValidationReport) (output_path : PurePath)
    (s s' : FS.t)
    (Hout : Cli.output_reports reports output_path s = (Ok tt, s')) :
  NoDup (report_dir_of output_path <$> reports)
  /\ forall r, r ∈ reports -> dir_at s' (report_dir_of output_path r).
Proof.
  unfold Cli.output_reports in Hout. unmonad.
  apply bind_io_Ok in Hout as ([] & s1 & _ & Hw).
  apply report_contents_effect in Hw as (Hnd & _ & _ & Hall).
  split; [done |]. intros r Hr. by apply Hall.
Qed.


End CliOutput.

(** ** The direct subdirectories of a path *)

Lemma entry_name_spec p q x : entry_name p q = Some x <-> q = p ++ [x].
Proof.
  revert q. induction p as [| a p IH]; intros q.
  - destruct q as [| b [| c q]]; simpl; naive_solver.
  - destruct q as [| b q]; simpl; [naive_solver |].
    destruct (String.eqb_spec a b) as [-> | Hne].
    + rewrite IH. naive_solver.
    + naive_solver.
Qed.

Lemma list_filter_sublist {A} (f : A -> bool) (l : list A) :
  List.filter f l `sublist_of` l.
Proof.
  induction l as [| x l IH]; simpl; [constructor |].
  destruct (f x); by constructor.
Qed.

Lemma elem_of_list_filter_bool {A} (f : A -> bool) (l : list A) x :
  x ∈ List.filter f l <-> f x = true /\ x ∈ l.
Proof. rewrite !list_elem_of_In, filter_In. tauto. Qed.

Lemma NoDup_omap_inj {A B} (f : A -> option B) (l : list A) :
  (forall a b y, f a = Some y -> f b = Some y -> a = b) ->
  NoDup l -> NoDup (omap f l).
Proof.
  intros Hinj. induction 1 as [| x l Hx Hnd IH]; csimpl; [constructor |].
  destruct (f x) as [y |] eqn:E; [| done]. constructor; [| done].
  rewrite list_elem_of_omap. intros (a & Ha & Hfa).
  assert (x = a) as -> by eauto. done.
Qed.

(** X13.  [iter_direct_subdirs] raises [ValueError] exactly when the path
    is not an existing directory (a missing path and a regular file
    included), and otherwise yields, each once, the entries of the
    directory that are themselves directories; regular files are left
    out, and so is everything deeper than one level.  The file system is
    not changed. *)
Theorem iter_direct_subdirs_lists_directories (path : PurePath) (s : FS.t) :
  (FS.is_dir s path = false ->
   iter_direct_subdirs path s
   = (Raise (Py.ValueError ("The given path is not a directory: "
                            +:+ path_str path)), s))
  /\ (FS.is_dir s path = true ->
      exists subdirs,
        iter_direct_subdirs path s = (Ok subdirs, s)
        /\ NoDup subdirs
        /\ forall q,
             q ∈ subdirs
             <-> (exists name, q = path ++ [name])
                 /\ FS.is_root q = false /\ s !! q = Some FS.Dir).
Proof.
  split.
  - intros Hd. unfold iter_direct_subdirs. by rewrite Hd.
  - intros Hd. pose proof Hd as [Hc Hl]%is_dir_spec.
    assert (FS.stat s path = Ok FS.Dir) as Hstat.
    { unfold FS.stat. by rewrite Hc, Hl. }
    unfold iter_direct_subdirs. rewrite Hd. simpl negb. cbv iota.
    unfold iterdir, listdir, keep_dirs. unmonad. unfold FS.bind, FS.ret.
    rewrite Hstat. eexists. split; [done |]. split.
    + eapply sublist_NoDup; [| apply list_filter_sublist].
      apply NoDup_fmap_2_strong.
      { intros a b _ _ Hab. by apply app_inj_tail in Hab as [_ ?]. }
      apply NoDup_omap_inj.
      { intros a b y Ha%entry_name_spec Hb%entry_name_spec. congruence. }
      eapply sublist_NoDup; [exact (NoDup_elements (dom s)) | apply list_filter_sublist].
    + intros q. rewrite elem_of_list_filter_bool, list_elem_of_fmap. split.
      * intros (Hq & name & -> & Hname).
        apply list_elem_of_omap in Hname as (q' & Hq' & Hn%entry_name_spec).
        subst q'. apply elem_of_list_filter_bool in Hq' as [Hroot _].
        apply negb_true_iff in Hroot.
        split; [by eexists |]. split; [done |].
        apply is_dir_spec in Hq as [_ Hlq]. unfold FS.lookup_node in Hlq.
        by rewrite Hroot in Hlq.
      * intros ((name & ->) & Hroot & Hq). split.
        -- apply is_dir_spec. split.
           ++ by rewrite check_prefixes_child, Hc, Hl.
           ++ unfold FS.lookup_node. by rewrite Hroot.
        -- exists name. split; [done |].
           apply list_elem_of_omap. exists (path ++ [name]).
           split; [| by apply entry_name_spec].
           apply elem_of_list_filter_bool. split; [by rewrite Hroot |].
           apply elem_of_elements, elem_of_dom. by eexists.
Qed.

(** ** The schema of the LinkML validators *)

Section ValidatorCache.
Context `{Linkml}.

Lemma get_schema_cached cls schema :
  _dandi_linkml_schema cls = Some schema ->
  get_dandi_linkml_schema cls = (Ok schema, cls).
Proof. intros Hc. unfold get_dandi_linkml_schema. by rewrite Hc. Qed.

Lemma get_schema_Ok cls schema cls1 :
  get_dandi_linkml_schema cls = (Ok schema, cls1) ->
  _dandi_linkml_schema cls1 = Some schema
  /\ (translate_calls cls1 <= S (translate_calls cls))%nat.
Proof.
  unfold get_dandi_linkml_schema.
  destruct (_dandi_linkml_schema cls) as [sch |] eqn:E.
  - intros [= <- <-]. split; [done | lia].
  - destruct (translate_defs _ _); [| done]. intros [= <- <-]. simpl.
    split; [done | lia].
Qed.

Lemma new_validators_cached args cls schema :
  _dandi_linkml_schema cls = Some schema ->
  new_validators args cls
  = ((fun a => Ok {| inner_schema := schema;
                     inner_plugins := default [JsonschemaValidationPlugin true] a |})
       <$> args, cls).
Proof.
  intros Hc. induction args as [| a args IH]; [done |].
  simpl. unfold new_validator at 1. rewrite (get_schema_cached _ _ Hc).
  rewrite IH. by destruct a.
Qed.

(** X14.  The schema is translated at most once per class: once a
    validator has been constructed, every later construction, whatever
    its plugins, succeeds without calling the translator again and wraps
    the very same schema, which is also what [get_dandi_linkml_schema]
    returns from then on. *)
Theorem schema_translated_at_most_once
    (validation_plugins : option (list ValidationPlugin))
    (later : list (option (list ValidationPlugin)))
    (cls cls1 : validator_class) (v : DandiModelLinkmlValidator)
    (Hfirst : new_validator validation_plugins cls = (Ok v, cls1)) :
  new_validators later cls1
  = ((fun a => Ok {| inner_schema := inner_schema v;
                     inner_plugins := default [JsonschemaValidationPlugin true] a |})
       <$> later, cls1)
  /\ get_dandi_linkml_schema cls1 = (Ok (inner_schema v), cls1)
  /\ (translate_calls cls1 <= S (translate_calls cls))%nat
  /\ (forall schema, _dandi_linkml_schema cls = Some schema ->
                     cls1 = cls /\ inner_schema v = schema).
Proof.
  unfold new_validator in Hfirst.
  destruct (get_dandi_linkml_schema cls) as [[schema | e] cls'] eqn:E; [| done].
  injection Hfirst as <- <-. simpl.
  destruct (get_schema_Ok _ _ _ E) as [Hc Hn].
  split; [by apply new_validators_cached |].
  split; [by apply get_schema_cached |]. split; [done |].
  intros schema' Hc'. rewrite (get_schema_cached _ _ Hc') in E. by injection E as <- <-.
Qed.

End ValidatorCache.

(** ** Counting errors by type *)

Lemma str_lt_asym a b : Py.str_lt a b = true -> Py.str_lt b a = false.
Proof.
  destruct str_lt_strict_total as [Hi Ht _]. intros Hab.
  destruct (Py.str_lt b a) eqn:E; [| done].
  by rewrite <- (Hi a), (Ht a b a Hab E).
Qed.

Lemma str_lt_neg_trans a b c :
  Py.str_lt b a = false -> Py.str_lt c b = false -> Py.str_lt c a = false.
Proof.
  destruct str_lt_strict_total as [Hi Ht Htot]. intros Hba Hcb.
  destruct (Py.str_lt c a) eqn:E; [| done].
  destruct (Htot b a) as [H | [-> | H]]; [congruence | congruence |].
  by rewrite (Ht c a b E H) in Hcb.
Qed.

Section Counts.
Context `{Casefold}.

Lemma insort_by_sorted {A} (key : A -> string) (x : A) (l : list A) :
  StronglySorted (fun a b => Py.str_lt (key b) (key a) = false) l ->
  StronglySorted (fun a b => Py.str_lt (key b) (key a) = false)
    (Py.insort (fun a b => Py.str_lt (key a) (key b)) x l).
Proof.
  induction 1 as [| y l Hs IH Hall]; simpl; [repeat constructor |].
  destruct (Py.str_lt (key y) (key x)) eqn:E.
  - constructor; [done |]. rewrite insort_perm.
    constructor; [by apply str_lt_asym | done].
  - constructor; [by constructor |]. constructor; [done |].
    eapply Forall_impl; [exact Hall |]. simpl. intros z Hz.
    by eapply str_lt_neg_trans.
Qed.

Lemma sorted_by_sorted {A} (key : A -> string) (l : list A) :
  StronglySorted (fun a b => Py.str_lt (key b) (key a) = false) (sorted_by key l).
Proof.
  unfold sorted_by, Py.sorted. induction l as [| x l IH]; simpl; [constructor |].
  by apply insort_by_sorted.
Qed.

Lemma counter_incr_keys c x :
  (counter_incr c x).*1 = if decide (x ∈ c.*1) then c.*1 else c.*1 ++ [x].
Proof.
  induction c as [| [y n] c IH].
  - rewrite decide_False by apply not_elem_of_nil. done.
  - cbn [counter_incr]. rewrite !fmap_cons. cbn [fst].
    destruct (String.eqb_spec y x) as [-> | Hne].
    + rewrite decide_True by left. done.
    + rewrite fmap_cons, IH. cbn [fst].
      destruct (decide (x ∈ c.*1)) as [Hin | Hin].
      * rewrite decide_True by (by right). done.
      * rewrite decide_False; [done |].
        intros [? | ?]%elem_of_cons; congruence.
Qed.

Lemma counter_incr_elem c x t n :
  NoDup c.*1 ->
  (t, n) ∈ counter_incr c x
  <-> (t <> x /\ (t, n) ∈ c)
      \/ (t = x /\ ((exists m, (x, m) ∈ c /\ n = S m) \/ ((x ∉ c.*1) /\ n = 1%nat))).
Proof.
  induction c as [| [y k] c IH]; simpl; intros Hnd.
  - rewrite list_elem_of_singleton. split.
    + intros [= -> ->]. right. split; [done |]. right.
      split; [apply not_elem_of_nil | done].
    + intros [[_ []%elem_of_nil] | [-> [(m & []%elem_of_nil & _) | [_ ->]]]]. done.
  - apply NoDup_cons in Hnd as [Hy Hnd]. specialize (IH Hnd).
    destruct (String.eqb_spec y x) as [-> | Hne].
    + rewrite !elem_of_cons. split.
      * intros [[= -> ->] | Hin].
        -- right. split; [done |]. left. exists k. split; [by left | done].
        -- left. split; [| by right]. intros ->. apply Hy.
           apply list_elem_of_fmap. by exists (x, n).
      * intros [[Hne [[= -> ->] | Hin]] | [-> [(m & Hin & ->) | [Hnot _]]]].
        -- done.
        -- by right.
        -- apply elem_of_cons in Hin as [[= ->] | Hin]; [by left |].
           exfalso. apply Hy. apply list_elem_of_fmap. by exists (x, m).
        -- exfalso. apply Hnot. by left.
    + rewrite elem_of_cons, IH. split.
      * intros [[= -> ->] | [[Hne' Hin] | [-> Hx]]].
        -- left. split; [done | left].
        -- left. split; [done | by right].
        -- right. split; [done |].
           destruct Hx as [(m & Hin & ->) | [Hnot ->]].
           ++ left. exists m. split; [by right | done].
           ++ right. split; [| done].
              intros [? | ?]%elem_of_cons; [congruence | done].
      * intros [[Hne' Hin] | [-> Hx]].
        -- apply elem_of_cons in Hin as [[= -> ->] | Hin]; [by left |].
           right. left. done.
        -- right. right. split; [done |].
           destruct Hx as [(m & Hin & ->) | [Hnot ->]].
           ++ apply elem_of_cons in Hin as [[= ? _] | Hin]; [congruence |].
              left. by exists m.
           ++ right. split; [| done]. intros Hin. apply Hnot. by right.
Qed.

Lemma counter_incr_sum c x :
  sum_list (counter_incr c x).*2 = S (sum_list c.*2).
Proof.
  induction c as [| [y n] c IH]; [done |].
  cbn [counter_incr]. destruct (String.eqb y x).
  - by rewrite !fmap_cons.
  - rewrite !fmap_cons. cbn [snd].
    change (sum_list (n :: (counter_incr c x).*2))
      with (n + sum_list (counter_incr c x).*2)%nat.
    rewrite IH. simpl. lia.
Qed.

Lemma occurrences_snoc t l x :
  occurrences t (l ++ [x])
  = (occurrences t l + if decide (x = t) then 1 else 0)%nat.
Proof.
  unfold occurrences. rewrite filter_app, length_app. f_equal.
  rewrite filter_cons. by destruct (decide (x = t)).
Qed.

Lemma occurrences_notin t l : t ∉ l -> occurrences t l = 0%nat.
Proof.
  unfold occurrences. induction l as [| x l IH]; [done |].
  intros [Hne Hin]%not_elem_of_cons. rewrite filter_cons.
  rewrite decide_False by congruence. by apply IH.
Qed.

Lemma Counter_spec l :
  NoDup (Counter l).*1
  /\ (Counter l).*1 `sublist_of` l
  /\ (forall t, t ∈ (Counter l).*1 <-> t ∈ l)
  /\ (forall t n, (t, n) ∈ Counter l -> n = occurrences t l)
  /\ sum_list (Counter l).*2 = length l.
Proof.
  unfold Counter. induction l as [| x l (Hnd & Hsub & Hkeys & Hcount & Hsum)]
    using rev_ind.
  - simpl. split; [constructor |]. split; [constructor |].
    split; [done |]. split; [by intros t n []%elem_of_nil | done].
  - rewrite foldl_snoc. set (c := foldl counter_incr [] l) in *.
    split; [| split; [| split; [| split]]].
    + rewrite counter_incr_keys. destruct (decide (x ∈ c.*1)) as [Hin | Hin]; [done |].
      apply NoDup_app. split; [done |]. split; [| apply NoDup_singleton].
      intros y Hy ->%list_elem_of_singleton. done.
    + rewrite counter_incr_keys. destruct (decide (x ∈ c.*1)).
      * by apply sublist_inserts_r.
      * by apply sublist_app.
    + intros t. rewrite counter_incr_keys, elem_of_app, list_elem_of_singleton.
      destruct (decide (x ∈ c.*1)) as [Hin | Hin].
      * rewrite Hkeys. split; [by left |]. intros [? | ->]; [done |].
        by apply Hkeys.
      * rewrite elem_of_app, list_elem_of_singleton. by rewrite Hkeys.
    + intros t n Hin. apply counter_incr_elem in Hin; [| done].
      rewrite occurrences_snoc.
      destruct Hin as [[Hne Hin] | [-> [(m & Hin & ->) | [Hnot ->]]]].
      * rewrite decide_False by congruence. rewrite (Hcount _ _ Hin). lia.
      * rewrite decide_True by done. rewrite (Hcount _ _ Hin). lia.
      * rewrite decide_True by done.
        rewrite occurrences_notin; [done |]. by rewrite <- Hkeys.
    + rewrite counter_incr_sum, Hsum, length_app. simpl. lia.
Qed.

Lemma occurrences_perm t l1 l2 : l1 ≡ₚ l2 -> occurrences t l1 = occurrences t l2.
Proof. intros Hp. unfold occurrences. by rewrite Hp. Qed.

Lemma err_counts_Ok (errs : list pydict) (types : list string) :
  Forall2 (fun e t => Py.getitem e "type" = Ok (Py.Str t)) errs types ->
  get_pydantic_err_counts errs = Ok (Counter (sorted_by casefold types)).
Proof.
  intros Htypes. unfold get_pydantic_err_counts, isorted. unmonad.
  assert (Py.map_r (fun e => Py.getitem e "type") errs = Ok (Py.Str <$> types))
    as ->.
  { apply map_r_Forall2. by apply Forall2_fmap_r. }
  rewrite bind_Ok_l.
  assert (Py.map_r str_arg (Py.Str <$> types) = Ok types) as ->; [| done].
  apply map_r_Forall2. apply Forall2_fmap_l. by apply Forall_Forall2_diag, Forall_true.
Qed.

(** X15.  [get_pydantic_err_counts] counts the errors by their [type]: the
    counter has one entry per type that occurs, the entry of a type holds
    the number of errors of that type, and the counts add up to the number
    of errors. *)
Theorem pydantic_err_counts_by_type
    (errs : list pydict) (types : list string)
    (Htypes : Forall2 (fun e t => Py.getitem e "type" = Ok (Py.Str t)) errs types) :
  exists c,
    get_pydantic_err_counts errs = Ok c
    /\ NoDup c.*1
    /\ (forall t, t ∈ c.*1 <-> t ∈ types)
    /\ (forall t n, (t, n) ∈ c -> n = occurrences t types)
    /\ sum_list c.*2 = length errs.
Proof.
  eexists. split; [by apply err_counts_Ok |].
  destruct (Counter_spec (sorted_by casefold types))
    as (Hnd & _ & Hkeys & Hcount & Hsum).
  assert (sorted_by casefold types ≡ₚ types) as Hp by apply sorted_perm.
  split; [done |]. split; [| split].
  - intros t. by rewrite Hkeys, Hp.
  - intros t n Hin. rewrite (Hcount _ _ Hin). by apply occurrences_perm.
  - rewrite Hsum, Hp. symmetry. by eapply Forall2_length.
Qed.

(** X16.  The entries of the counter come in case-insensitive
    alphabetical order of the types: no type folds to something smaller
    than the folded form of a type before it.  This is the order in which
    the summary lists the counts. *)
Theorem pydantic_err_counts_sorted
    (errs : list pydict) (c : list (string * nat))
    (Hc : get_pydantic_err_counts errs = Ok c) :
  StronglySorted casefold_le c.*1.
Proof.
  unfold get_pydantic_err_counts, isorted in Hc. unmonad.
  apply bind_Ok in Hc as (types & _ & Hc).
  apply bind_Ok in Hc as (sorted_types & Hs & [= <-]).
  apply bind_Ok in Hs as (strs & _ & [= <-]).
  destruct (Counter_spec (sorted_by casefold strs)) as (_ & Hsub & _).
  eapply sublist_StronglySorted; [exact Hsub |].
  apply (sorted_by_sorted casefold).
Qed.

Lemma map_r_type_missing (errs : list pydict) :
  Exists (fun e => is_ok (Py.getitem e "type") = false) errs ->
  Py.map_r (fun e => Py.getitem e "type") errs = Raise (Py.KeyError "type").
Proof.
  induction errs as [| e errs IH]; intros Hex; [by apply Exists_nil in Hex |].
  simpl. destruct (Py.getitem e "type") as [v | exn] eqn:E.
  - apply Exists_cons in Hex as [Hex | Hex]; [by rewrite E in Hex |].
    simpl. by rewrite (IH Hex).
  - simpl. by apply getitem_Raise_key in E as ->.
Qed.

(** X17.  An error without a [type] member makes
    [get_pydantic_err_counts] raise [KeyError], whatever the other errors
    are; when every error has the member but one of the values is not a
    string, the call raises [TypeError].  No counter of the remaining
    errors is returned in either case. *)
Theorem pydantic_err_counts_raises (errs : list pydict) (types : list Py.value) :
  (Exists (fun e => is_ok (Py.getitem e "type") = false) errs ->
   get_pydantic_err_counts errs = Raise (Py.KeyError "type"))
  /\ (Forall2 (fun e t => Py.getitem e "type" = Ok t) errs types ->
      Exists (fun t => is_ok (str_arg t) = false) types ->
      exists msg, get_pydantic_err_counts errs = Raise (Py.TypeError msg)).
Proof.
  split.
  - intros Hex. unfold get_pydantic_err_counts. unmonad.
    by rewrite (map_r_type_missing _ Hex).
  - intros Htypes Hex. eexists.
    unfold get_pydantic_err_counts, isorted. unmonad.
    apply map_r_Forall2 in Htypes. rewrite Htypes, bind_Ok_l.
    assert (Py.map_r str_arg types
            = Raise (Py.TypeError
                       "descriptor 'casefold' for 'str' objects doesn't apply"))
      as ->; [| done].
    clear Htypes. induction types as [| t types IH];
      [by apply Exists_nil in Hex |].
    simpl. destruct t; try done. simpl.
    apply Exists_cons in Hex as [Hex | Hex]; [done |]. by rewrite (IH Hex).
Qed.

End Counts.

(** ** Worked examples *)

(** Each theorem above with a premise, applied to the sample data. *)

Lemma diff_reports_cover_keys_with_errors_witness :
  forallb asset_ok [sample_asset 2] = true
  /\ forallb asset_ok [sample_asset 2; sample_asset 10] = true
  /\ ("ds1", "draft")
       ∈ diff_key <$> @_dandiset_validation_diff_reports replacement_diff
                        (sample_reports []) (sample_reports [sample_err])
  /\ exists rs,
       @_asset_validation_diff_reports replacement_diff
         [sample_asset 2] [sample_asset 2; sample_asset 10] = Ok rs
       /\ ["000003"; "draft"; "10"] ∈ asset_diff_key <$> rs.
Proof.
  split; [reflexivity |]. split; [reflexivity |].
  destruct (@diff_reports_cover_keys_with_errors replacement_diff
              (sample_reports []) (sample_reports [sample_err])
              [sample_asset 2] [sample_asset 2; sample_asset 10] eq_refl eq_refl)
    as [Hd (rs & Hrs & Hk)].
  split.
  - apply Hd. split.
    + right. eexists. vm_compute. reflexivity.
    + right. eexists. split; [vm_compute; reflexivity |]. left. discriminate.
  - exists rs. split; [exact Hrs |]. apply Hk. split.
    + exists (sample_asset 10). split; [| reflexivity].
      apply elem_of_app. right. right. left.
    + right. exists (sample_asset 10), (dandiset_report "000003" "draft" [sample_err]).
      split; [vm_compute; reflexivity |]. split; [reflexivity |]. left. discriminate.
Defined.

Lemma diff_reports_follow_sorted_keys_witness :
  forallb asset_ok [sample_asset 2; sample_asset 10] = true
  /\ forallb asset_ok [sample_asset 7] = true
  /\ StronglySorted (fun a b => Py.pair_lt a b = true)
       (diff_key <$> @_dandiset_validation_diff_reports replacement_diff
                       (sample_reports []) (sample_versions [sample_err]))
  /\ length (@_dandiset_validation_diff_reports replacement_diff
               (sample_reports []) (sample_versions [sample_err])) = 3%nat
  /\ exists rs,
       @_asset_validation_diff_reports replacement_diff
         [sample_asset 2; sample_asset 10] [sample_asset 7] = Ok rs
       /\ length rs = 3%nat
       /\ StronglySorted (fun a b => Pathlib.lt a b = true) (asset_diff_key <$> rs).
Proof.
  split; [reflexivity |]. split; [reflexivity |].
  destruct (@diff_reports_follow_sorted_keys replacement_diff
              (sample_reports []) (sample_versions [sample_err])
              [sample_asset 2; sample_asset 10] [sample_asset 7] eq_refl eq_refl)
    as [(_ & _ & _ & Hd) [(rs1 & rs2 & rs & _ & _ & Hrs & _ & _ & _ & Hs) _]].
  split; [exact Hd |]. split; [vm_compute; reflexivity |].
  exists rs. split; [exact Hrs |]. split; [| exact Hs].
  assert (Py.bind (Ok rs) (fun rs => Ok (length rs)) = Ok 3%nat) as Heq.
  { rewrite <- Hrs. vm_compute. reflexivity. }
  by injection Heq.
Defined.




Lemma pydantic_validate_captures_failures_witness :
  model_validate_json nonempty_model "{}" = ValidationError "[{...}]"
  /\ pydantic_validate (inr "{}") nonempty_model = Ok "[{...}]"
  /\ model_validate nonempty_model sample_err = Validated
  /\ pydantic_validate (inl sample_err) nonempty_model = Ok "[]"
  /\ @Cli.pydantic_validate sample_cli_collaborators [] = Ok "[{...}]".
Proof.
  destruct (pydantic_validate_captures_failures (inr "{}") nonempty_model
              sample_cli_collaborators []) as (H1 & _ & H3 & _).
  destruct (pydantic_validate_captures_failures (inl sample_err) nonempty_model
              sample_cli_collaborators []) as (_ & H2 & _).
  split; [reflexivity |]. split; [exact (H1 _ eq_refl) |].
  split; [reflexivity |]. split; [exact (H2 eq_refl) |].
  exact (H3 _ eq_refl).
Defined.

Lemma output_reports_recreates_directory_witness :
  FS.stat file_in_the_way ["dandi-reports"] = Ok (FS.File "not a directory")
  /\ @Cli.output_reports sample_cli_collaborators [] ["dandi-reports"] file_in_the_way
     = (Raise Py.NotADirectoryError, file_in_the_way)
  /\ FS.is_dir old_reports ["dandi-reports"] = true
  /\ exists s1,
       @Cli.recreate_output_dir ["dandi-reports"] old_reports = (Ok tt, s1)
       /\ s1 !! ["dandi-reports"; "summary.md"] = None.
Proof.
  destruct (@output_reports_recreates_directory sample_cli_collaborators []
              ["dandi-reports"] file_in_the_way) as [Hfile _].
  destruct (@output_reports_recreates_directory sample_cli_collaborators []
              ["dandi-reports"] old_reports) as [_ Hdir].
  split; [reflexivity |]. split; [exact (Hfile _ eq_refl) |].
  split; [reflexivity |].
  destruct (Hdir eq_refl eq_refl) as (s1 & Hrec & _ & Hbelow & _).
  exists s1. split; [exact Hrec |].
  apply Hbelow; [| discriminate]. by exists ["summary.md"].
Defined.

Lemma wf_empty : FS.wf ∅.
Proof. intros p n Hp. by rewrite lookup_empty in Hp. Qed.

Lemma supporting_files_only_for_nonempty_data_witness :
  FS.wf ∅
  /\ exists s1 s',
       FS.mkdir ["out"; "000003"; "draft"] true false ∅ = (Ok tt, s1)
       /\ @_output_supporting_files (sample_collaborators []) sample_diff_report
            ["out"; "000003"; "draft"] ∅ = (Ok tt, s')
       /\ s' !! (["out"; "000003"; "draft"] // "pydantic_validation_errs1.json") = None
       /\ s' !! (["out"; "000003"; "draft"] // "pydantic_validation_errs2.json")
          = Some (FS.File "json").
Proof.
  split; [exact wf_empty |].
  destruct (@supporting_files_only_for_nonempty_data (sample_collaborators [])
              sample_diff_report ["out"; "000003"; "draft"] ∅ wf_empty) as [Hok _].
  eexists.
  destruct (Hok _ eq_refl) as (s' & Hrun & Hfiles).
  exists s'. split; [reflexivity |]. split; [exact Hrun |]. split.
  - exact (proj1 (Hfiles (pydantic_errs_value []) PYDANTIC_ERRS1_BASE_FNAME
                    (list_elem_of_here _ _))).
  - exact (proj1 (Hfiles (pydantic_errs_value [sample_err]) PYDANTIC_ERRS2_BASE_FNAME
                    (list_elem_of_further _ _ _ (list_elem_of_here _ _)))).
Defined.

(** C9, counterexample: an asset-level first element followed by a
    dandiset-level one raises an attribute error in both functions. *)
Lemma mixed_collection_raises_attribute_error :
  _key_reports [sample_asset 0; sample_dandiset] = Raise (Py.AttributeError "asset_idx")
  /\ err_reps [AssetDiffObj (sample_asset_diff 0); DandisetDiffObj sample_diff_report]
     = Raise (Py.AttributeError "asset_idx").
Proof. split; vm_compute; reflexivity. Qed.

Lemma dispatch_inspects_first_element_witness :
  forallb supported [sample_asset 0] = true
  /\ (exists m, _key_reports [sample_dandiset; sample_asset 0] = Ok m)
  /\ forallb is_asset [sample_asset 1] = true
  /\ _key_reports [sample_asset 0; sample_asset 1; sample_dandiset]
     = Raise (Py.AttributeError "asset_idx")
  /\ diff_report_base (AssetDiffObj (sample_asset_diff 4))
     = Some {| dandiset_identifier := "000003"; dandiset_version := "draft" |}
  /\ instance_path_dandiset (AssetDiffObj (sample_asset_diff 4))
     = Ok (Path ["000003"; "draft"])
  /\ (exists reps,
        err_reps [DandisetDiffObj sample_diff_report; AssetDiffObj (sample_asset_diff 4)]
        = Ok reps
        /\ (fun rep => rep.2) <$> reps.1.1.2
           = [["000003"; "draft"]; ["000003"; "draft"]])
  /\ err_reps [AssetDiffObj (sample_asset_diff 4); DandisetDiffObj sample_diff_report]
     = Raise (Py.AttributeError "asset_idx").
Proof.
  destruct dispatch_inspects_first_element
    as (_ & _ & H3 & H4 & H5 & _ & H7 & _ & H9).
  split; [reflexivity |]. split.
  { eexists. exact (H3 (dandiset_report "000003" "draft" [sample_err])
                       [sample_asset 0] eq_refl). }
  split; [reflexivity |]. split.
  { exact (H4 _ _ [sample_asset 1] (dandiset_report "000003" "draft" [sample_err]) []
              eq_refl). }
  split; [reflexivity |]. split.
  { exact (proj2 (H5 sample_diff_report (AssetDiffObj (sample_asset_diff 4)) _ eq_refl)). }
  split.
  { eexists. split.
    - exact (H7 sample_diff_report [inr (sample_asset_diff 4)] eq_refl).
    - vm_compute. reflexivity. }
  exact (H9 (sample_asset_diff 4) [] sample_diff_report [] eq_refl).
Defined.

Lemma key_reports_later_report_wins_witness :
  exists m,
    _key_reports [sample_asset 7; sample_asset 8; sample_asset_again 7] = Ok m
    /\ m !! ["000003"; "draft"; "7"] = Some (sample_asset_again 7).
Proof.
  apply (key_reports_later_report_wins
           [sample_asset 7; sample_asset 8; sample_asset_again 7]
           (sample_asset 7) ["dandiset_identifier"; "dandiset_version"; "asset_idx"]
           0 2 (sample_asset 7) (sample_asset_again 7) ["000003"; "draft"; "7"]).
  - reflexivity.
  - reflexivity.
  - intros r Hr.
    apply elem_of_cons in Hr as [-> | Hr]; [eexists; vm_compute; reflexivity |].
    apply elem_of_cons in Hr as [-> | Hr]; [eexists; vm_compute; reflexivity |].
    apply elem_of_cons in Hr as [-> | Hr]; [eexists; vm_compute; reflexivity |].
    by apply elem_of_nil in Hr.
  - lia.
  - reflexivity.
  - reflexivity.
  - vm_compute. reflexivity.
  - vm_compute. reflexivity.
  - intros j' rj' Hj' Hl. destruct j' as [| [| [| j']]]; try lia. discriminate.
Defined.

(** ** Worked examples of the further properties *)

Lemma diff_reports_keys_distinct_witness :
  NoDup (diff_key <$> @_dandiset_validation_diff_reports replacement_diff
                        (sample_reports []) (sample_reports [sample_err]))
  /\ exists rs,
       @_asset_validation_diff_reports replacement_diff
         [sample_asset 2; sample_asset 10] [sample_asset_again 2] = Ok rs
       /\ NoDup (asset_diff_key <$> rs).
Proof.
  apply (@diff_reports_keys_distinct replacement_diff
           (sample_reports []) (sample_reports [sample_err])
           [sample_asset 2; sample_asset 10] [sample_asset_again 2]);
    reflexivity.
Defined.

Lemma asset_diff_fields_from_first_side_witness :
  exists rs,
    @_asset_validation_diff_reports replacement_diff
      [sample_asset 2] [sample_asset_again 2; sample_asset 10] = Ok rs
    /\ length rs = 2%nat.
Proof.
  destruct (@asset_diff_fields_from_first_side replacement_diff
              [sample_asset 2] [sample_asset_again 2; sample_asset 10]
              eq_refl eq_refl) as (rs & Hrs & _).
  exists rs. split; [exact Hrs |].
  assert (Py.bind (Ok rs) (fun rs => Ok (length rs)) = Ok 2%nat) as Heq.
  { rewrite <- Hrs. vm_compute. reflexivity. }
  by injection Heq.
Defined.

Lemma asset_diff_reports_swap_witness :
  exists rs rs',
    @_asset_validation_diff_reports replacement_diff
      [sample_asset 2] [sample_asset_again 2; sample_asset 10] = Ok rs
    /\ @_asset_validation_diff_reports replacement_diff
         [sample_asset_again 2; sample_asset 10] [sample_asset 2] = Ok rs'
    /\ asset_diff <$> rs'
       = (fun d => @swap_sides replacement_diff (asset_diff d)) <$> rs
    /\ asset_diff_key <$> rs' = asset_diff_key <$> rs.
Proof.
  apply (@asset_diff_reports_swap replacement_diff
           [sample_asset 2] [sample_asset_again 2; sample_asset 10]);
    reflexivity.
Defined.

Lemma key_reports_keeps_keys_witness :
  exists m,
    _key_reports [sample_asset 7; sample_asset 8] = Ok m
    /\ size m = 2%nat.
Proof.
  destruct (key_reports_keeps_keys
              [sample_asset 7; sample_asset 8] (sample_asset 7)
              ["dandiset_identifier"; "dandiset_version"; "asset_idx"]
              [["000003"; "draft"; "7"]; ["000003"; "draft"; "8"]])
    as (m & Hm & _ & _ & Hall).
  - reflexivity.
  - reflexivity.
  - vm_compute. reflexivity.
  - exists m. split; [exact Hm |]. apply Hall.
    apply NoDup_cons. split.
    + intros Hin. apply list_elem_of_singleton in Hin. discriminate.
    + apply NoDup_singleton.
Defined.

Lemma supporting_files_refuse_existing_path_witness :
  @_output_supporting_files (sample_collaborators []) sample_diff_report
    ["out"; "000003"; "draft"] written_fs
  = (Raise Py.FileExistsError, written_fs).
Proof.
  apply (@supporting_files_refuse_existing_path (sample_collaborators [])
           sample_diff_report ["out"; "000003"; "draft"] written_fs).
  vm_compute. reflexivity.
Defined.

Lemma output_reports_confined_witness :
  (@Cli.output_reports sample_cli_collaborators
     [sample_cli_report "000003" "draft"] ["out"] manifests_fs).2
    !! ["manifests"; "README"]
  = manifests_fs !! ["manifests"; "README"].
Proof.
  apply (@output_reports_confined sample_cli_collaborators
           [sample_cli_report "000003" "draft"] ["out"] manifests_fs).
  - vm_compute. reflexivity.
  - intros [k Hk]. discriminate.
Defined.

Lemma run_by_outcome {A B : Type} (x : A * B) (a : A) : x.1 = a -> x = (a, x.2).
Proof. destruct x as [a' b]. simpl. by intros ->. Qed.

Lemma output_reports_distinct_directories_witness :
  NoDup (@report_dir_of ["out"]
           <$> [sample_cli_report "000003" "draft"; sample_cli_report "000004" "draft"])
  /\ forall r,
       r ∈ [sample_cli_report "000003" "draft"; sample_cli_report "000004" "draft"] ->
       dir_at (@Cli.output_reports sample_cli_collaborators
                 [sample_cli_report "000003" "draft"; sample_cli_report "000004" "draft"]
                 ["out"] ∅).2
              (report_dir_of ["out"] r).
Proof.
  apply (@output_reports_distinct_directories sample_cli_collaborators
           [sample_cli_report "000003" "draft"; sample_cli_report "000004" "draft"]
           ["out"] ∅).
  apply run_by_outcome. vm_compute. reflexivity.
Defined.


Lemma schema_translated_at_most_once_witness :
  (@new_validators sample_linkml [None; Some [false]]
     (@new_validator sample_linkml None fresh_class).2)
  = ([Ok (@Build_DandiModelLinkmlValidator sample_linkml "schema 0" [true]);
      Ok (@Build_DandiModelLinkmlValidator sample_linkml "schema 0" [false])],
     @Build_validator_class sample_linkml (Some "schema 0") 1).
Proof.
  destruct (@schema_translated_at_most_once sample_linkml None [None; Some [false]]
              fresh_class (@new_validator sample_linkml None fresh_class).2
              (@Build_DandiModelLinkmlValidator sample_linkml "schema 0" [true]))
    as (Hlater & _).
  - vm_compute. reflexivity.
  - etrans; [exact Hlater |]. vm_compute. reflexivity.
Defined.

Lemma pydantic_err_counts_by_type_witness :
  exists c,
    @get_pydantic_err_counts ascii_casefold
      [typed_err "Missing"; typed_err "extra_forbidden"; typed_err "Missing"] = Ok c
    /\ sum_list c.*2 = 3%nat.
Proof.
  destruct (@pydantic_err_counts_by_type ascii_casefold
              [typed_err "Missing"; typed_err "extra_forbidden"; typed_err "Missing"]
              ["Missing"; "extra_forbidden"; "Missing"])
    as (c & Hc & _ & _ & _ & Hsum).
  - repeat constructor.
  - exists c. split; [exact Hc | exact Hsum].
Defined.

Lemma pydantic_err_counts_sorted_witness :
  StronglySorted (@casefold_le ascii_casefold)
    [("extra_forbidden", 1%nat); ("Missing", 2%nat)].*1.
Proof.
  apply (@pydantic_err_counts_sorted ascii_casefold
           [typed_err "Missing"; typed_err "extra_forbidden"; typed_err "Missing"]).
  vm_compute. reflexivity.
Defined.
